(** * FLAISimulator: scorer, local leaderboard, data export and ingestion

  A shallow embedding of the JavaScript sources

  - [docs/game.js]        (class [FLAISimulator]),
  - [docs/leaderboard.js] (class [FLAILeaderboard]),
  - [docs/data-export.js] (class [FLAIDataExport]),
  - the Netlify function  ([exports.handler]),

  together with the properties their specification states about them.

  Conventions.  A JavaScript number that is an integer (a score, a count,
  a millisecond time stamp) is a [Z] or a [nat]; a number that results from
  a division is a [JS.number], an exact rational or one of the IEEE
  specials, so binary64 rounding of quotients is idealised; where a
  quotient is multiplied before it is rounded to an integer
  ([calculateGrowthRate]) that idealisation would change the result, and
  the operations of [Binary64] round as the browser does.  Values the
  host supplies ([Math.random()], [Date.now()]) are arguments.  A function
  that can throw returns a [JS.completion]. *)

From Stdlib Require Import ZArith QArith Qround Qpower Qabs Lia Lqa Ascii.
From stdpp Require Import gmap strings pretty list sorting.

Open Scope Z_scope.

(** ** Host values *)

Module JS.

(** Numbers.  The sign of zero is not tracked. *)
Inductive number :=
| Fin (q : Q)
| NaN
| Infinity (negative : bool).

Definition of_Z (z : Z) : number := Fin (inject_Z z).
Definition of_nat (n : nat) : number := of_Z (Z.of_nat n).

Definition is_zero (q : Q) : bool := Qeq_bool q 0.
Definition is_neg (q : Q) : bool := (Qnum q <? 0)%Z.

(** [a / b] *)
Definition div (a b : number) : number :=
  match a, b with
  | NaN, _ | _, NaN => NaN
  | Infinity _, Infinity _ => NaN
  | Infinity s, Fin y => Infinity (xorb s (is_neg y))
  | Fin _, Infinity _ => Fin 0
  | Fin x, Fin y =>
      if is_zero y
      then (if is_zero x then NaN else Infinity (is_neg x))
      else Fin (x / y)
  end.

(** [a * b] *)
Definition mul (a b : number) : number :=
  match a, b with
  | NaN, _ | _, NaN => NaN
  | Infinity s, Infinity t => Infinity (xorb s t)
  | Infinity s, Fin y | Fin y, Infinity s =>
      if is_zero y then NaN else Infinity (xorb s (is_neg y))
  | Fin x, Fin y => Fin (x * y)
  end.

(** [a + b] *)
Definition add (a b : number) : number :=
  match a, b with
  | NaN, _ | _, NaN => NaN
  | Infinity s, Infinity t => if Bool.eqb s t then Infinity s else NaN
  | Infinity s, Fin _ | Fin _, Infinity s => Infinity s
  | Fin x, Fin y => Fin (x + y)
  end.

(** [a === b] on numbers. *)
Definition eqb (a b : number) : bool :=
  match a, b with
  | Fin x, Fin y => Qeq_bool x y
  | Infinity s, Infinity t => Bool.eqb s t
  | _, _ => false
  end.

(** A number known to be integral: what [Math.round] returns. *)
Inductive rounded :=
| Int (z : Z)
| NaNr
| Infr (negative : bool).

(** [Math.round]: the nearest integer, halves towards plus infinity. *)
Definition Math_round (a : number) : rounded :=
  match a with
  | Fin q => Int (Qfloor (q + (1 # 2)))
  | NaN => NaNr
  | Infinity s => Infr s
  end.

(** [a >= b] for an integer literal [b]; a comparison with [NaN] is false. *)
Definition ge (a : rounded) (b : Z) : bool :=
  match a with
  | Int z => b <=? z
  | NaNr => false
  | Infr s => negb s
  end.

(** [JSON.stringify] writes [null] for [NaN] and the infinities. *)
Definition json_number (a : rounded) : option Z :=
  match a with
  | Int z => Some z
  | _ => None
  end.

(** A field read back from JSON and used in arithmetic or in a numeric
    comparison: [null] counts as [0]. *)
Definition to_arith (a : option Z) : Z := default 0 a.

(** [Array.prototype.sort(compare)]: stable; [compare a b > 0] puts [a]
    after [b]. *)
Fixpoint sort_insert {A} (compare : A -> A -> Z) (x : A) (l : list A) : list A :=
  match l with
  | [] => [x]
  | y :: l' => if 0 <? compare x y then y :: sort_insert compare x l' else x :: l
  end.

Definition sort {A} (compare : A -> A -> Z) (l : list A) : list A :=
  foldr (sort_insert compare) [] l.

(** [Math.floor(x * n)] for an integer [n]. *)
Definition floor_mul (x : Q) (n : Z) : Z := Qfloor (x * inject_Z n).

(** [a || b] where [a] is a string or [undefined]: both [undefined] and
    the empty string are falsy. *)
Definition str_or (a : option string) (b : string) : string :=
  match a with
  | Some s => if String.eqb s "" then b else s
  | None => b
  end.

(** [a || b] where [a] is a number or [undefined]: [0] is falsy. *)
Definition num_or (a : option Z) (b : Z) : Z :=
  match a with
  | Some z => if z =? 0 then b else z
  | None => b
  end.

(** Outcome of a call that may throw. *)
Inductive error := SyntaxError | TypeError | RangeError.

Inductive completion (A : Type) :=
| Return (a : A)
| Throw (e : error).
Arguments Return {A} a.
Arguments Throw {A} e.

Definition bind {A B} (k : A -> completion B) (c : completion A) : completion B :=
  match c with
  | Return a => k a
  | Throw e => Throw e
  end.

(** [try { c } catch (error) { h }] *)
Definition try_catch {A} (c : completion A) (h : error -> A) : A :=
  match c with
  | Return a => a
  | Throw e => h e
  end.

(** [String(n)] for an integer below 10^21 in magnitude: plain decimal
    digits, with a leading minus sign. *)
Definition Number_toString (n : Z) : string := pretty n.

(** Decimal digits of [n], padded with zeros on the left to [width]. *)
Fixpoint zeros (k : nat) : string :=
  match k with
  | O => ""
  | S k => String "0"%char (zeros k)
  end.

Definition pad (width : nat) (n : Z) : string :=
  let digits := pretty n in
  zeros (width - String.length digits) +:+ digits.

(** Days since 1970-01-01 to year, month, day of the proleptic Gregorian
    calendar. *)
Definition civil (days : Z) : Z * Z * Z :=
  let z := days + 719468 in
  let era := z / 146097 in
  let doe := z - era * 146097 in
  let yoe := (doe - doe / 1460 + doe / 36524 - doe / 146096) / 365 in
  let doy := doe - (365 * yoe + yoe / 4 - yoe / 100) in
  let mp := (5 * doy + 2) / 153 in
  let d := doy - (153 * mp + 2) / 5 + 1 in
  let m := if mp <? 10 then mp + 3 else mp - 9 in
  let y := yoe + era * 400 in
  (if m <=? 2 then y + 1 else y, m, d).

(** [new Date(t).toISOString()] for an integer number of milliseconds:
    a [RangeError] outside the range of time values, else
    [YYYY-MM-DDTHH:mm:ss.sssZ], the year with a sign and six digits when it
    is not within 0..9999. *)
Definition toISOString (t : Z) : completion string :=
  if Z.abs t <=? 8640000000000000 then
    let '(y, m, d) := civil (t / 86400000) in
    let ms := t mod 86400000 in
    let year :=
      if (0 <=? y) && (y <=? 9999) then pad 4 y
      else (if y <? 0 then "-" else "+") +:+ pad 6 (Z.abs y) in
    Return
      (year +:+ "-" +:+ pad 2 m +:+ "-" +:+ pad 2 d +:+ "T"
       +:+ pad 2 (ms / 3600000) +:+ ":" +:+ pad 2 (ms / 60000 mod 60) +:+ ":"
       +:+ pad 2 (ms / 1000 mod 60) +:+ "." +:+ pad 3 (ms mod 1000) +:+ "Z")
  else Throw RangeError.

(** An array element as [join] sees it: a string, an integer, or one of
    [null] and [undefined], which [join] renders as the empty string. *)
Inductive cell :=
| Str (s : string)
| Num (n : Z)
| Nullish.

Definition cell_of (n : option Z) : cell :=
  match n with
  | Some z => Num z
  | None => Nullish
  end.

Definition cell_toString (c : cell) : string :=
  match c with
  | Str s => s
  | Num n => Number_toString n
  | Nullish => ""
  end.

(** [strings.join(separator)] *)
Fixpoint join (separator : string) (strings : list string) : string :=
  match strings with
  | [] => ""
  | [s] => s
  | s :: rest => s +:+ separator +:+ join separator rest
  end.

Definition newline : string := String (Ascii.ascii_of_nat 10) "".

End JS.

#[global] Instance completion_ret : MRet JS.completion := @JS.Return.
#[global] Instance completion_bind : MBind JS.completion := @JS.bind.
#[global] Instance completion_fmap : FMap JS.completion :=
  λ A B f c, JS.bind (λ a, JS.Return (f a)) c.

(** ** IEEE 754 binary64

    The value of an arithmetic operation is its exact result rounded to the
    nearest binary64 number, ties to the one with an even significand.  The
    operands are taken to be binary64 numbers already. *)

Module Binary64.

(** [2^e] *)
Definition pow2 (e : Z) : Q := (2 ^ e)%Q.

(** [floor(log2 x)] for [0 < x]. *)
Definition ilog2 (x : Q) : Z :=
  let d := Z.log2 (Qnum x) - Z.log2 (Z.pos (Qden x)) in
  if Qle_bool (pow2 d) x then d else d - 1.

(** The nearest integer, ties to the even one. *)
Definition nearest_even (x : Q) : Z :=
  let f := Qfloor x in
  match (x - inject_Z f ?= 1 # 2)%Q with
  | Lt => f
  | Gt => f + 1
  | Eq => if Z.even f then f else f + 1
  end.

(** The exponent of the last place around [0 < x]: 53 significant bits,
    and no exponent below that of the subnormal numbers. *)
Definition last_place (x : Q) : Z := Z.max (ilog2 x - 52) (-1074).

(** [0 < x] rounded to the nearest multiple of its last place, ties to the
    even multiple. *)
Definition nearest (x : Q) : Q :=
  let e := last_place x in
  (inject_Z (nearest_even (x * pow2 (- e))) * pow2 e)%Q.

Definition rounded (x : Q) : Q :=
  match (x ?= 0)%Q with
  | Eq => 0%Q
  | Gt => nearest x
  | Lt => (- nearest (- x))%Q
  end.

(** The binary64 number nearest to [x]; a magnitude that rounds to
    [2^1024] is an infinity. *)
Definition round (x : Q) : JS.number :=
  let r := rounded x in
  if Qle_bool (pow2 1024) (Qabs r) then JS.Infinity (JS.is_neg x) else JS.Fin r.

Definition correctly (a : JS.number) : JS.number :=
  match a with
  | JS.Fin q => round q
  | other => other
  end.

(** [a / b] and [a * b] in binary64. *)
Definition div (a b : JS.number) : JS.number := correctly (JS.div a b).
Definition mul (a b : JS.number) : JS.number := correctly (JS.mul a b).

End Binary64.

(** ** Browser storage

    [localStorage] maps keys to strings; the program keeps one JSON text
    under each key.  A stored string is modelled by what [JSON.parse] makes
    of it, and only the documents the program itself writes are given a
    shape: a string is [Garbled] when [JSON.parse] rejects it, [Null] when
    it is the text [null], and [Doc v] when it is the text of [v];
    [JSON.stringify v] is such a text.  A valid JSON text of any other shape
    (an object or a number under a list key, a list with a [null] element)
    has no counterpart here, so what is stated of a stored key is stated of
    these three shapes and no others.  [setItem] is taken to succeed. *)

Module Store.

Inductive item (A : Type) :=
| Garbled (s : string)
| Null
| Doc (v : A).
Arguments Garbled {A} s.
Arguments Null {A}.
Arguments Doc {A} v.

(** [JSON.parse(text)]; [None] is the value [null]. *)
Definition JSON_parse {A} (text : item A) : JS.completion (option A) :=
  match text with
  | Garbled _ => JS.Throw JS.SyntaxError
  | Null => JS.Return None
  | Doc v => JS.Return (Some v)
  end.

(** Whether a stored string is truthy: only the empty string is not. *)
Definition truthy {A} (text : item A) : bool :=
  match text with
  | Garbled s => negb (String.eqb s "")
  | _ => true
  end.

(** [JSON.parse(localStorage.getItem(key) || '[]')] *)
Definition parse_or_empty {A} (got : option (item (list A)))
    : JS.completion (option (list A)) :=
  match got with
  | Some text => if truthy text then JSON_parse text else JS.Return (Some [])
  | None => JS.Return (Some [])
  end.

Record DecisionTypes := {
  ethical : nat;
  consultation : nat;
  risky : nat;
  skipped : nat;
  timeout : nat
}.

(** An element of the list under ['flai_leaderboard'].  [session_data],
    which nothing reads back, is left out; [id], [name] and [verified] are
    absent from the rows [saveGameData] writes. *)
Module Entry.
Record t := {
  id : option string;
  name : option string;
  score : Z;
  category : string;
  sector : string;
  position : string;
  region : string;
  timestamp : Z;
  verified : option bool
}.
End Entry.

(** The object under ['flai_analytics']. *)
Module Analytics.
Record t := {
  total_players : nat;
  average_score : option Z;
  sector_distribution : gmap string nat;
  region_distribution : gmap string nat;
  score_distribution : gmap string nat;
  last_updated : Z
}.
End Analytics.

(** An element of the list under ['flai_research_data']. *)
Module Demographics.
Record t := {
  sector : string;
  position : string;
  experience : string;
  region : string
}.
End Demographics.

Module SessionResults.
Record t := {
  total_score : Z;
  percentage : option Z;
  decision_types : DecisionTypes;
  avg_response_time : option Z;
  game_duration : Z
}.
End SessionResults.

Module StoredAnswer.
Record t := {
  scenario_id : Z;
  option_type : string;
  cultural_flags : option (list string);
  time_taken : Z
}.
End StoredAnswer.

Module Research.
Record t := {
  session_id : string;
  demographics : Demographics.t;
  results : SessionResults.t;
  answers : list StoredAnswer.t;
  timestamp : Z
}.
End Research.

Record localStorage := {
  flai_leaderboard : option (item (list Entry.t));
  flai_analytics : option (item Analytics.t);
  flai_research_data : option (item (list Research.t))
}.

Definition set_leaderboard (v : list Entry.t) (ls : localStorage) : localStorage :=
  {| flai_leaderboard := Some (Doc v);
     flai_analytics := flai_analytics ls;
     flai_research_data := flai_research_data ls |}.

Definition set_analytics (v : Analytics.t) (ls : localStorage) : localStorage :=
  {| flai_leaderboard := flai_leaderboard ls;
     flai_analytics := Some (Doc v);
     flai_research_data := flai_research_data ls |}.

Definition set_research_data (v : list Research.t) (ls : localStorage) : localStorage :=
  {| flai_leaderboard := flai_leaderboard ls;
     flai_analytics := flai_analytics ls;
     flai_research_data := Some (Doc v) |}.

End Store.

(** ** docs/game.js *)

Module Game.

(** *** The scenario catalogue

    [initializeScenarios] returns ten records.  The narrative strings
    ([context], [description], [question], the option [text],
    [legal_reference], [risk_level], [cultural_context],
    [sector_relevance]) only reach the DOM and are left out. *)

Record Option_ := {
  type : string;
  opt_score : Z;
  opt_cultural_flags : list string
}.

Record Scenario := {
  id : Z;
  title : string;
  options : list Option_
}.

Definition mkOption (t : string) (s : Z) (f : list string) : Option_ :=
  {| type := t; opt_score := s; opt_cultural_flags := f |}.

Definition initializeScenarios : list Scenario :=
  [ {| id := 1; title := "El Cliente VIP Generoso";
       options :=
         [ mkOption "risky" 0 ["acceptance_of_gifts"; "relationship_priority"; "financial_pressure"];
           mkOption "ethical" 10 ["ethical_clarity"; "policy_adherence"; "alternative_solution"];
           mkOption "consultation" 7 ["consultation_pattern"; "hierarchy_respect"; "legal_awareness"] ] |};
    {| id := 2; title := "La Licitación con Información Privilegiada";
       options :=
         [ mkOption "risky" 2 ["information_advantage"; "relationship_leverage"; "competitive_edge"];
           mkOption "ethical" 10 ["integrity_priority"; "compliance_reporting"; "risk_aversion"];
           mkOption "consultation" 8 ["boundary_setting"; "relationship_care"; "mutual_protection"] ] |};
    {| id := 3; title := "El Proveedor Familiar";
       options :=
         [ mkOption "risky" 1 ["family_loyalty"; "cost_priority"; "informal_process"];
           mkOption "ethical" 10 ["process_fairness"; "professional_boundaries"; "transparency"];
           mkOption "consultation" 6 ["evaluation_process"; "hierarchical_consultation"; "comparative_analysis"] ] |};
    {| id := 4; title := "La Auditoría Incómoda";
       options :=
         [ mkOption "risky" 0 ["team_loyalty"; "short_term_thinking"; "authority_deference"];
           mkOption "ethical" 10 ["protocol_adherence"; "independence_maintenance"; "accountability"];
           mkOption "consultation" 7 ["escalation_opportunity"; "relationship_preservation"; "time_bound_solution"] ] |};
    {| id := 5; title := "El Regalo de Año Nuevo Corporativo";
       options :=
         [ mkOption "risky" 2 ["cultural_courtesy"; "relationship_maintenance"; "seasonal_normalization"];
           mkOption "ethical" 10 ["policy_consistency"; "ethical_alternative"; "transparency"];
           mkOption "consultation" 8 ["immediate_reporting"; "guidance_seeking"; "documentation"] ] |};
    {| id := 6; title := "La Facturación Creativa";
       options :=
         [ mkOption "risky" 1 ["results_pressure"; "technical_justification"; "investor_pressure"];
           mkOption "ethical" 10 ["professional_standards"; "legal_compliance"; "integrity_priority"];
           mkOption "consultation" 7 ["technical_consultation"; "external_validation"; "collaborative_solution"] ] |};
    {| id := 7; title := "El Contacto Político Estratégico";
       options :=
         [ mkOption "risky" 0 ["efficiency_priority"; "influence_leverage"; "expedited_process"];
           mkOption "ethical" 10 ["process_integrity"; "transparency"; "long_term_perspective"];
           mkOption "consultation" 8 ["formal_process"; "due_diligence"; "documentation"] ] |};
    {| id := 8; title := "La Competencia Interna Desleal";
       options :=
         [ mkOption "risky" 3 ["colleague_favor"; "information_sharing"; "relationship_priority"];
           mkOption "ethical" 10 ["confidentiality_respect"; "formal_channels"; "professional_boundaries"];
           mkOption "consultation" 7 ["appropriate_guidance"; "supervision_involvement"; "process_redirect"] ] |};
    {| id := 9; title := "El Proveedor con Problemas Laborales";
       options :=
         [ mkOption "risky" 2 ["cost_priority"; "responsibility_limitation"; "business_focus"];
           mkOption "ethical" 10 ["social_responsibility"; "ethical_sourcing"; "standards_priority"];
           mkOption "consultation" 8 ["verification_requirement"; "improvement_opportunity"; "conditional_relationship"] ] |};
    {| id := 10; title := "La Oportunidad de Inversión Familiar";
       options :=
         [ mkOption "risky" 0 ["family_benefit"; "subtle_communication"; "insider_advantage"];
           mkOption "ethical" 10 ["conflict_avoidance"; "professional_ethics"; "independent_advice"];
           mkOption "consultation" 6 ["policy_verification"; "formal_consultation"; "guidance_seeking"] ] |} ].

(** *** Answers and the game object *)

Record Answer := {
  scenario_id : Z;
  scenario_title : string;
  selected_option : Z;
  option_type : string;
  score : Z;
  cultural_flags : option (list string);   (* [None]: the property is absent *)
  time_taken : Z;
  timestamp : Z
}.

Record UserProfile := {
  sector : string;
  position : string;
  experience : string;
  region : string;
  profile_timestamp : Z;
  session_id : string
}.

(** [this.scenarios]: assigned once, by the constructor. *)
Definition scenarios : list Scenario := initializeScenarios.

(** The mutable fields of [this] that the session runner and the scorer
    use. *)
Record Simulator := {
  currentScenario : nat;
  answers : list Answer;
  userProfile : UserProfile;
  timeLeft : Z;
  gameStartTime : Z
}.

(** What the host returns during one call: the value of [Math.random()]
    and the value of [Date.now()]. *)
Record Host := {
  Math_random : Q;
  Date_now : Z
}.

(** *** Session runner

    The three ways an answer is recorded.  Timers and DOM updates are not
    modelled; [selectOption] leaves the advance to its delayed callback,
    [nextScenario]. *)

Definition push (a : Answer) (g : Simulator) : Simulator :=
  {| currentScenario := currentScenario g;
     answers := answers g ++ [a];
     userProfile := userProfile g;
     timeLeft := timeLeft g;
     gameStartTime := gameStartTime g |}.

Definition setTimeLeft (t : Z) (g : Simulator) : Simulator :=
  {| currentScenario := currentScenario g;
     answers := answers g;
     userProfile := userProfile g;
     timeLeft := t;
     gameStartTime := gameStartTime g |}.

(** [startScenario]: past the last scenario the game ends (the results are
    computed later, from the same state); otherwise the countdown restarts
    at 30. *)
Definition startScenario (g : Simulator) : Simulator :=
  if (length scenarios <=? currentScenario g)%nat then g else setTimeLeft 30 g.

(** [this.currentScenario++; this.startScenario()] *)
Definition nextScenario (g : Simulator) : Simulator :=
  startScenario
    {| currentScenario := S (currentScenario g);
       answers := answers g;
       userProfile := userProfile g;
       timeLeft := timeLeft g;
       gameStartTime := gameStartTime g |}.

(** [startGame], after the profile has been read from the form. *)
Definition startGame (h : Host) (profile : UserProfile) : Simulator :=
  startScenario
    {| currentScenario := 0;
       answers := [];
       userProfile := profile;
       timeLeft := 30;
       gameStartTime := Date_now h |}.

(** [this.scenarios[this.currentScenario]], whose [id] is then read. *)
Definition thisScenario (g : Simulator) : JS.completion Scenario :=
  match scenarios !! currentScenario g with
  | Some s => JS.Return s
  | None => JS.Throw JS.TypeError
  end.

Definition selectOption (h : Host) (option : Option_) (optionIndex : Z)
    (g : Simulator) : JS.completion Simulator :=
  s ← thisScenario g;
  mret (push {| scenario_id := id s;
                scenario_title := title s;
                selected_option := optionIndex;
                option_type := type option;
                score := opt_score option;
                cultural_flags := Some (opt_cultural_flags option);
                time_taken := 30 - timeLeft g;
                timestamp := Date_now h |} g).

Definition skipScenario (h : Host) (g : Simulator) : JS.completion Simulator :=
  s ← thisScenario g;
  mret (nextScenario
          (push {| scenario_id := id s;
                   scenario_title := title s;
                   selected_option := -1;
                   option_type := "skipped";
                   score := 0;
                   cultural_flags := Some ["time_pressure"; "avoidance"];
                   time_taken := 30;
                   timestamp := Date_now h |} g)).

Definition timeExpired (h : Host) (g : Simulator) : JS.completion Simulator :=
  s ← thisScenario g;
  mret (nextScenario
          (push {| scenario_id := id s;
                   scenario_title := title s;
                   selected_option := -1;
                   option_type := "timeout";
                   score := 0;
                   cultural_flags := Some ["time_pressure"; "indecision"];
                   time_taken := 30;
                   timestamp := Date_now h |} g)).

(** One firing of the countdown callback. *)
Definition tick (h : Host) (g : Simulator) : JS.completion Simulator :=
  let g := setTimeLeft (timeLeft g - 1) g in
  if timeLeft g <=? 0 then timeExpired h g else mret g.

(** *** Scorer *)

(** A template literal: literal text and interpolated numbers, in order.
    The decimal rendering of an interpolated number is not modelled. *)
Inductive fragment :=
| Text (s : string)
| Interp (n : JS.number).

Record Insight := {
  insight_title : string;
  insight_description : list fragment
}.

Record Results := {
  total_score : Z;
  percentage : JS.rounded;
  category : string;
  description : string;
  decision_types : Store.DecisionTypes;
  cultural_analysis : list Insight;
  avg_response_time : JS.rounded;
  game_duration : Z;
  result_answers : list Answer;
  user_profile : UserProfile
}.

Definition consultationFlags : list string :=
  ["consultation_pattern"; "hierarchy_respect"; "guidance_seeking"].
Definition riskFlags : list string :=
  ["risk_aversion"; "policy_adherence"; "protocol_adherence"].
Definition relationshipFlags : list string :=
  ["relationship_priority"; "family_loyalty"; "colleague_favor"].

Definition consultationInsight (h : Host) : Insight :=
  {| insight_title := "Patrón de Consulta Elevado";
     insight_description :=
       [ Text "Tu tendencia a consultar está ";
         Interp (JS.add (JS.of_Z 15) (JS.mul (JS.Fin (Math_random h)) (JS.of_Z 20)));
         Text "% por encima del promedio argentino. Esto refleja un perfil cauteloso y colaborativo." ] |}.

Definition riskInsight : Insight :=
  {| insight_title := "Alta Aversión al Riesgo";
     insight_description :=
       [ Text "Muestras alta aversión al riesgo ético, alineado con las nuevas generaciones de profesionales argentinos post-crisis." ] |}.

Definition relationshipInsight : Insight :=
  {| insight_title := "Influencia Relacional";
     insight_description :=
       [ Text "Tus decisiones están influenciadas por relaciones personales, característico de la cultura empresarial argentina." ] |}.

Definition balancedInsight : Insight :=
  {| insight_title := "Perfil Equilibrado";
     insight_description :=
       [ Text "Muestras un perfil de toma de decisiones equilibrado, adaptándote al contexto específico de cada situación." ] |}.

(** [flags.forEach(flag => { flagCounts[flag] = (flagCounts[flag] || 0) + 1 })] *)
Definition countFlags (flags : list string) : gmap string nat :=
  foldl (λ flagCounts flag, <[flag := (default 0 (flagCounts !! flag) + 1)%nat]> flagCounts)
        ∅ flags.

(** [group.reduce((sum, flag) => sum + (flagCounts[flag] || 0), 0)] *)
Definition groupCount (flagCounts : gmap string nat) (group : list string) : nat :=
  foldl (λ sum flag, (sum + default 0 (flagCounts !! flag))%nat) 0%nat group.

Definition analyzeCulturalPatterns (h : Host) (flags : list string) : list Insight :=
  let flagCounts := countFlags flags in
  let insights := [] in
  let consultationCount := groupCount flagCounts consultationFlags in
  let insights :=
    if (3 <=? consultationCount)%nat then insights ++ [consultationInsight h] else insights in
  let riskCount := groupCount flagCounts riskFlags in
  let insights :=
    if (2 <=? riskCount)%nat then insights ++ [riskInsight] else insights in
  let relationshipCount := groupCount flagCounts relationshipFlags in
  let insights :=
    if (2 <=? relationshipCount)%nat then insights ++ [relationshipInsight] else insights in
  let insights :=
    if (length insights =? 0)%nat then insights ++ [balancedInsight] else insights in
  insights.

(** The cascade that picks [category] and [description]. *)
Definition categorize (percentage : JS.rounded) : string * string :=
  if JS.ge percentage 85 then
    ("Ético Ejemplar",
     "Tienes un perfil ético excepcional con decisiones consistentemente íntegras.")
  else if JS.ge percentage 70 then
    ("Ético Sólido",
     "Muestras un perfil ético sólido con tendencia a tomar decisiones responsables.")
  else if JS.ge percentage 55 then
    ("Perfil Mixto",
     "Tu perfil muestra flexibilidad ética con tendencia a evaluar contextos específicos.")
  else if JS.ge percentage 40 then
    ("Perfil Pragmático",
     "Priorizas resultados prácticos, con espacio para fortalecer consideraciones éticas.")
  else
    ("Perfil de Alto Riesgo",
     "Tu perfil sugiere alta tolerancia al riesgo ético. Recomendamos formación en compliance.").

Definition countType (t : string) (l : list Answer) : nat :=
  length (filter (λ a, option_type a = t) l).

Definition calculateResults (h : Host) (g : Simulator) : Results :=
  let totalScore := foldl (λ sum answer, sum + score answer) 0 (answers g) in
  let maxPossibleScore := Z.of_nat (length scenarios) * 10 in
  let percentage :=
    JS.Math_round
      (JS.mul (JS.div (JS.of_Z totalScore) (JS.of_Z maxPossibleScore)) (JS.of_Z 100)) in
  let decisionTypes :=
    {| Store.ethical := countType "ethical" (answers g);
       Store.consultation := countType "consultation" (answers g);
       Store.risky := countType "risky" (answers g);
       Store.skipped := countType "skipped" (answers g);
       Store.timeout := countType "timeout" (answers g) |} in
  let '(category, description) := categorize percentage in
  let culturalFlags := flat_map (λ a, default [] (cultural_flags a)) (answers g) in
  let culturalAnalysis := analyzeCulturalPatterns h culturalFlags in
  let avgResponseTime :=
    JS.div
      (JS.of_Z (foldl (λ sum a, sum + time_taken a) 0
                      (filter (λ a, 0 < time_taken a) (answers g))))
      (JS.of_nat (length (answers g))) in
  {| total_score := totalScore;
     percentage := percentage;
     category := category;
     description := description;
     decision_types := decisionTypes;
     cultural_analysis := culturalAnalysis;
     avg_response_time := JS.Math_round avgResponseTime;
     game_duration := Date_now h - gameStartTime g;
     result_answers := answers g;
     user_profile := userProfile g |}.

(** *** Persisting a finished game *)

(** The row [saveGameData] pushes on the leaderboard.  A percentage that
    is not finite has no defined place in the sort; [calculateResults]
    never produces one. *)
Definition gameData (h : Host) (results : Results) (g : Simulator) : Store.Entry.t :=
  {| Store.Entry.id := None;
     Store.Entry.name := None;
     Store.Entry.score := JS.to_arith (JS.json_number (percentage results));
     Store.Entry.category := category results;
     Store.Entry.sector := sector (userProfile g);
     Store.Entry.position := position (userProfile g);
     Store.Entry.region := region (userProfile g);
     Store.Entry.timestamp := Date_now h;
     Store.Entry.verified := None |}.

Definition researchData (h : Host) (results : Results) (g : Simulator) : Store.Research.t :=
  {| Store.Research.session_id := session_id (userProfile g);
     Store.Research.demographics :=
       {| Store.Demographics.sector := sector (userProfile g);
          Store.Demographics.position := position (userProfile g);
          Store.Demographics.experience := experience (userProfile g);
          Store.Demographics.region := region (userProfile g) |};
     Store.Research.results :=
       {| Store.SessionResults.total_score := total_score results;
          Store.SessionResults.percentage := JS.json_number (percentage results);
          Store.SessionResults.decision_types := decision_types results;
          Store.SessionResults.avg_response_time := JS.json_number (avg_response_time results);
          Store.SessionResults.game_duration := game_duration results |};
     Store.Research.answers :=
       map (λ answer,
              {| Store.StoredAnswer.scenario_id := scenario_id answer;
                 Store.StoredAnswer.option_type := option_type answer;
                 Store.StoredAnswer.cultural_flags := cultural_flags answer;
                 Store.StoredAnswer.time_taken := time_taken answer |})
           (result_answers results);
     Store.Research.timestamp := Date_now h |}.

(** [null.push(...)] throws. *)
Definition array_push {A} (arr : option (list A)) (x : A) : JS.completion (list A) :=
  match arr with
  | Some l => JS.Return (l ++ [x])
  | None => JS.Throw JS.TypeError
  end.

(** The leaderboard update of [saveGameData]. *)
Definition updateLeaderboard (h : Host) (results : Results) (g : Simulator)
    (ls : Store.localStorage) : JS.completion Store.localStorage :=
  leaderboard ← Store.parse_or_empty (Store.flai_leaderboard ls);
  leaderboard ← array_push leaderboard (gameData h results g);
  let leaderboard :=
    JS.sort (λ a b, Store.Entry.score b - Store.Entry.score a) leaderboard in
  let leaderboard := take 100 leaderboard in
  mret (Store.set_leaderboard leaderboard ls).

Definition saveResearchData (h : Host) (results : Results) (g : Simulator)
    (ls : Store.localStorage) : JS.completion Store.localStorage :=
  allResearchData ← Store.parse_or_empty (Store.flai_research_data ls);
  allResearchData ← array_push allResearchData (researchData h results g);
  mret (Store.set_research_data allResearchData ls).

(** [saveGameData]: one [try] block around both writes; the [catch] only
    logs, so what was written before a throw stays written. *)
Definition saveGameData (h : Host) (results : Results) (g : Simulator)
    (ls : Store.localStorage) : Store.localStorage :=
  match updateLeaderboard h results g ls with
  | JS.Throw _ => ls
  | JS.Return ls1 =>
      JS.try_catch (saveResearchData h results g ls1) (λ _, ls1)
  end.

End Game.

(** ** docs/leaderboard.js *)

Module Leaderboard.

Import Store.

Definition maxEntries : nat := 100.

(** What the host returns during one call: [Date.now()], the string
    [generateId()] builds from the clock and a random suffix, the two
    [Math.random()] draws of [generateAnonymousName], and the local hour of
    a time stamp ([new Date(t).getHours()]). *)
Record Host := {
  Date_now : Z;
  generateId : string;
  random_first : Q;
  random_last : Q;
  getHours : Z -> Z
}.

(** The argument of [addEntry]; the three fields that only feed
    [session_data] are left out. *)
Module GameData.
Record t := {
  score : Z;
  category : string;
  sector : option string;
  position : option string;
  region : option string;
  timestamp : option Z
}.
End GameData.

Definition firstNames : list string :=
  [ "María"; "Carlos"; "Ana"; "Diego"; "Lucía"; "Rodrigo"; "Valeria";
    "Martín"; "Carolina"; "Sebastián"; "Laura"; "Pablo"; "Florencia";
    "Nicolás"; "Camila"; "Facundo"; "Victoria"; "Tomás"; "Agustina";
    "Santiago"; "Melina"; "Franco"; "Sofía"; "Matías"; "Julieta" ].

Definition lastInitials : list string :=
  [ "A."; "B."; "C."; "D."; "E."; "F."; "G."; "H."; "I."; "J.";
    "K."; "L."; "M."; "N."; "O."; "P."; "Q."; "R."; "S."; "T.";
    "U."; "V."; "W."; "X."; "Y."; "Z." ].

(** [arr[i]] inside a template literal. *)
Definition element (arr : list string) (i : Z) : string :=
  if i <? 0 then "undefined" else default "undefined" (arr !! Z.to_nat i).

Definition generateAnonymousName (h : Host) : string :=
  let firstName :=
    element firstNames (JS.floor_mul (random_first h) (Z.of_nat (length firstNames))) in
  let lastInitial :=
    element lastInitials (JS.floor_mul (random_last h) (Z.of_nat (length lastInitials))) in
  firstName +:+ " " +:+ lastInitial.

(** [getLeaderboardData]; [None] is the value [null]. *)
Definition getLeaderboardData (ls : localStorage) : option (list Entry.t) :=
  match flai_leaderboard ls with
  | Some data =>
      if truthy data
      then JS.try_catch (JSON_parse data) (λ _, Some [])
      else Some []
  | None => Some []
  end.

Definition getAnalytics (ls : localStorage) : option Analytics.t :=
  match flai_analytics ls with
  | Some data =>
      if truthy data
      then JS.try_catch (JSON_parse data) (λ _, None)
      else None
  | None => None
  end.

Definition calculateAverageScore (data : list Entry.t) : JS.rounded :=
  if (length data =? 0)%nat then JS.Int 0
  else
    let totalScore := foldl (λ sum entry, sum + Entry.score entry) 0 data in
    JS.Math_round (JS.div (JS.of_Z totalScore) (JS.of_nat (length data))).

(** [distribution[key] = (distribution[key] || 0) + 1] *)
Definition bump `{Countable K} (key : K) (distribution : gmap K nat) : gmap K nat :=
  <[key := (default 0 (distribution !! key) + 1)%nat]> distribution.

Definition calculateSectorDistribution (data : list Entry.t) : gmap string nat :=
  foldl (λ distribution entry, bump (Entry.sector entry) distribution) ∅ data.

Definition calculateRegionDistribution (data : list Entry.t) : gmap string nat :=
  foldl (λ distribution entry, bump (Entry.region entry) distribution) ∅ data.

Definition calculatePositionDistribution (data : list Entry.t) : gmap string nat :=
  foldl (λ distribution entry, bump (Entry.position entry) distribution) ∅ data.

Definition scoreRange (score : Z) : string :=
  if 90 <=? score then "90-100"
  else if 80 <=? score then "80-89"
  else if 70 <=? score then "70-79"
  else if 60 <=? score then "60-69"
  else if 50 <=? score then "50-59"
  else "0-49".

Definition calculateScoreDistribution (data : list Entry.t) : gmap string nat :=
  let ranges : gmap string nat :=
    <["90-100" := 0%nat]> (<["80-89" := 0%nat]> (<["70-79" := 0%nat]>
    (<["60-69" := 0%nat]> (<["50-59" := 0%nat]> (<["0-49" := 0%nat]> ∅))))) in
  foldl (λ ranges entry, bump (scoreRange (Entry.score entry)) ranges) ranges data.

Definition updateAnalytics (h : Host) (leaderboardData : list Entry.t)
    (ls : localStorage) : localStorage :=
  set_analytics
    {| Analytics.total_players := length leaderboardData;
       Analytics.average_score := JS.json_number (calculateAverageScore leaderboardData);
       Analytics.sector_distribution := calculateSectorDistribution leaderboardData;
       Analytics.region_distribution := calculateRegionDistribution leaderboardData;
       Analytics.score_distribution := calculateScoreDistribution leaderboardData;
       Analytics.last_updated := Date_now h |}
    ls.

Definition saveLeaderboardData (h : Host) (data : list Entry.t)
    (ls : localStorage) : localStorage :=
  updateAnalytics h data (set_leaderboard data ls).

(** [findIndex]: the first index whose element passes, if any. *)
Fixpoint findIndex {A} (p : A -> bool) (l : list A) : option nat :=
  match l with
  | [] => None
  | x :: l' => if p x then Some 0%nat else S <$> findIndex p l'
  end.

Definition findUserPosition (entryId : string) (ls : localStorage)
    : JS.completion (option nat) :=
  match getLeaderboardData ls with
  | None => JS.Throw JS.TypeError
  | Some leaderboard =>
      JS.Return
        (S <$> findIndex (λ entry, bool_decide (Entry.id entry = Some entryId)) leaderboard)
  end.

Definition getTopPlayers (limit : nat) (ls : localStorage)
    : JS.completion (list Entry.t) :=
  match getLeaderboardData ls with
  | None => JS.Throw JS.TypeError
  | Some leaderboard => JS.Return (take limit leaderboard)
  end.

(** The comparator of [addEntry]: score descending, then time stamp
    descending. *)
Definition compareEntries (a b : Entry.t) : Z :=
  if negb (Entry.score b =? Entry.score a)
  then Entry.score b - Entry.score a
  else Entry.timestamp b - Entry.timestamp a.

Definition newEntry (h : Host) (gameData : GameData.t) : Entry.t :=
  {| Entry.id := Some (generateId h);
     Entry.name := Some (generateAnonymousName h);
     Entry.score := GameData.score gameData;
     Entry.category := GameData.category gameData;
     Entry.sector := JS.str_or (GameData.sector gameData) "no_especificado";
     Entry.position := JS.str_or (GameData.position gameData) "no_especificado";
     Entry.region := JS.str_or (GameData.region gameData) "no_especificado";
     Entry.timestamp := JS.num_or (GameData.timestamp gameData) (Date_now h);
     Entry.verified := Some false |}.

(** [addEntry]: the new storage and the position it returns.  The display
    refresh only reads. *)
Definition addEntry (h : Host) (gameData : GameData.t) (ls : localStorage)
    : JS.completion (localStorage * option nat) :=
  match getLeaderboardData ls with
  | None => JS.Throw JS.TypeError
  | Some leaderboard =>
      let leaderboard := leaderboard ++ [newEntry h gameData] in
      let leaderboard := JS.sort compareEntries leaderboard in
      let trimmedLeaderboard := take maxEntries leaderboard in
      let ls := saveLeaderboardData h trimmedLeaderboard ls in
      position ← findUserPosition (generateId h) ls;
      mret (ls, position)
  end.

(** *** Research analytics *)

Definition getEntriesByDay (h : Host) (data : list Entry.t) : gmap Z nat :=
  let now := Date_now h in
  foldl (λ dayPattern entry,
           let daysAgo := (now - Entry.timestamp entry) / (24 * 60 * 60 * 1000) in
           bump daysAgo dayPattern)
        ∅ data.

Definition getPeakHours (h : Host) (data : list Entry.t) : gmap Z nat :=
  foldl (λ hourPattern entry, bump (getHours h (Entry.timestamp entry)) hourPattern)
        ∅ data.

(** The accumulator [{ total, count }] kept per group. *)
Definition accumulate (key : Entry.t -> string) (data : list Entry.t)
    : gmap string (Z * nat) :=
  foldl (λ scores entry,
           let '(total, count) := default (0, 0%nat) (scores !! key entry) in
           <[key entry := (total + Entry.score entry, (count + 1)%nat)]> scores)
        ∅ data.

Definition averageOf (acc : Z * nat) : JS.rounded :=
  JS.Math_round (JS.div (JS.of_Z acc.1) (JS.of_nat acc.2)).

Definition calculateSectorAverages (data : list Entry.t) : gmap string JS.rounded :=
  averageOf <$> accumulate Entry.sector data.

Definition calculateRegionAverages (data : list Entry.t) : gmap string JS.rounded :=
  averageOf <$> accumulate Entry.region data.

Record LeaderboardSummary := {
  total_entries : nat;
  average_score : Z;
  top_10_average : JS.rounded;
  score_distribution : gmap string nat
}.

Record DemographicBreakdown := {
  by_sector : gmap string nat;
  by_region : gmap string nat;
  by_position : gmap string nat
}.

Record TemporalPatterns := {
  entries_by_day : gmap Z nat;
  peak_hours : gmap Z nat
}.

Record PerformanceInsights := {
  sector_averages : gmap string JS.rounded;
  region_averages : gmap string JS.rounded
}.

Record ComprehensiveAnalytics := {
  leaderboard_summary : LeaderboardSummary;
  demographic_breakdown : DemographicBreakdown;
  temporal_patterns : TemporalPatterns;
  performance_insights : PerformanceInsights
}.

(** [analytics?.field || {}] *)
Definition distribution_or_empty (analytics : option Analytics.t)
    (field : Analytics.t -> gmap string nat) : gmap string nat :=
  match analytics with
  | Some a => field a
  | None => ∅
  end.

Definition getComprehensiveAnalytics (h : Host) (ls : localStorage)
    : JS.completion ComprehensiveAnalytics :=
  match getLeaderboardData ls with
  | None => JS.Throw JS.TypeError
  | Some leaderboard =>
      let analytics := getAnalytics ls in
      JS.Return
        {| leaderboard_summary :=
             {| total_entries := length leaderboard;
                average_score := JS.num_or (analytics ≫= Analytics.average_score) 0;
                top_10_average := calculateAverageScore (take 10 leaderboard);
                score_distribution :=
                  distribution_or_empty analytics Analytics.score_distribution |};
           demographic_breakdown :=
             {| by_sector := distribution_or_empty analytics Analytics.sector_distribution;
                by_region := distribution_or_empty analytics Analytics.region_distribution;
                by_position := calculatePositionDistribution leaderboard |};
           temporal_patterns :=
             {| entries_by_day := getEntriesByDay h leaderboard;
                peak_hours := getPeakHours h leaderboard |};
           performance_insights :=
             {| sector_averages := calculateSectorAverages leaderboard;
                region_averages := calculateRegionAverages leaderboard |} |}
  end.

End Leaderboard.

(** ** docs/data-export.js *)

Module DataExport.

Import Store.

(** A session as [getGameSessionsData] reshapes it.  The [timestamp] of a
    decision is read from a stored answer, which has none. *)
Module Decision.
Record t := {
  scenario_id : Z;
  decision_type : string;
  cultural_flags : option (list string);
  response_time : Z;
  timestamp : option Z
}.
End Decision.

Module Performance.
Record t := {
  total_score : Z;
  percentage : option Z;
  completion_time : Z;
  avg_response_time : option Z;
  decision_breakdown : DecisionTypes
}.
End Performance.

Module Session.
Record t := {
  session_id : string;
  timestamp : Z;
  demographics : Demographics.t;
  performance : Performance.t;
  decisions : list Decision.t
}.
End Session.

Definition reshape (session : Research.t) : Session.t :=
  {| Session.session_id := Research.session_id session;
     Session.timestamp := Research.timestamp session;
     Session.demographics := Research.demographics session;
     Session.performance :=
       {| Performance.total_score := SessionResults.total_score (Research.results session);
          Performance.percentage := SessionResults.percentage (Research.results session);
          Performance.completion_time := SessionResults.game_duration (Research.results session);
          Performance.avg_response_time :=
            SessionResults.avg_response_time (Research.results session);
          Performance.decision_breakdown :=
            SessionResults.decision_types (Research.results session) |};
     Session.decisions :=
       map (λ answer,
              {| Decision.scenario_id := StoredAnswer.scenario_id answer;
                 Decision.decision_type := StoredAnswer.option_type answer;
                 Decision.cultural_flags := StoredAnswer.cultural_flags answer;
                 Decision.response_time := StoredAnswer.time_taken answer;
                 Decision.timestamp := None |})
           (Research.answers session) |}.

(** [null.map(...)] throws. *)
Definition array_map {A B} (f : A -> B) (arr : option (list A)) : JS.completion (list B) :=
  match arr with
  | Some l => JS.Return (map f l)
  | None => JS.Throw JS.TypeError
  end.

(** [getGameSessionsData]: parse and reshape inside one [try]; any throw
    yields the empty list. *)
Definition getGameSessionsData (ls : localStorage) : list Session.t :=
  JS.try_catch
    (researchData ← parse_or_empty (flai_research_data ls);
     array_map reshape researchData)
    (λ _, []).

Definition header : list JS.cell :=
  map JS.Str
    [ "session_id"; "timestamp"; "sector"; "position"; "region"; "experience";
      "total_score"; "percentage"; "completion_time"; "avg_response_time";
      "ethical_decisions"; "consultation_decisions"; "risky_decisions";
      "scenario_1"; "scenario_2"; "scenario_3"; "scenario_4"; "scenario_5";
      "scenario_6"; "scenario_7"; "scenario_8"; "scenario_9"; "scenario_10" ].

(** The cell pushed for scenario [i]:
    [decision ? decision.decision_type : ''] with
    [decision = session.decisions.find(d => d.scenario_id === i)]. *)
Definition decisionCell (session : Session.t) (i : Z) : JS.cell :=
  match find (λ d, bool_decide (Decision.scenario_id d = i)) (Session.decisions session) with
  | Some decision => JS.Str (Decision.decision_type decision)
  | None => JS.Str ""
  end.

Definition dataRow (session : Session.t) : JS.completion (list JS.cell) :=
  iso ← JS.toISOString (Session.timestamp session);
  let row :=
    [ JS.Str (Session.session_id session);
      JS.Str iso;
      JS.Str (Demographics.sector (Session.demographics session));
      JS.Str (Demographics.position (Session.demographics session));
      JS.Str (Demographics.region (Session.demographics session));
      JS.Str (Demographics.experience (Session.demographics session));
      JS.Num (Performance.total_score (Session.performance session));
      JS.cell_of (Performance.percentage (Session.performance session));
      JS.Num (Performance.completion_time (Session.performance session));
      JS.cell_of (Performance.avg_response_time (Session.performance session));
      JS.Num (Z.of_nat (ethical (Performance.decision_breakdown (Session.performance session))));
      JS.Num (Z.of_nat (consultation (Performance.decision_breakdown (Session.performance session))));
      JS.Num (Z.of_nat (risky (Performance.decision_breakdown (Session.performance session)))) ] in
  mret (row ++ map (decisionCell session) (seqZ 1 10)).

(** [sessions.forEach(session => { ...; csvRows.push(row) })] *)
Fixpoint dataRows (sessions : list Session.t) : JS.completion (list (list JS.cell)) :=
  match sessions with
  | [] => mret []
  | session :: rest =>
      row ← dataRow session;
      rows ← dataRows rest;
      mret (row :: rows)
  end.

Definition csvContent (csvRows : list (list JS.cell)) : string :=
  JS.join JS.newline (map (λ row, JS.join "," (map JS.cell_toString row)) csvRows).

(** [downloadCSV]: the text handed to the download, or [None] when there
    are no sessions and only an alert is shown. *)
Definition downloadCSV (ls : localStorage) : JS.completion (option string) :=
  let sessions := getGameSessionsData ls in
  if (length sessions =? 0)%nat then mret None
  else
    rows ← dataRows sessions;
    mret (Some (csvContent (header :: rows))).

End DataExport.

(** ** The Netlify function (data collection) *)

Module Ingest.

#[local] Unset Elimination Schemes.

(** JSON values; numbers are integers.  An object lists its members in
    source order. *)
Inductive json :=
| JNull
| JBool (b : bool)
| JNum (n : Z)
| JStr (s : string)
| JArr (elements : list json)
| JObj (members : list (string * json)).

#[local] Set Elimination Schemes.

(** A JavaScript value at hand in the handler: [undefined] or a JSON
    value. *)
Inductive value :=
| Undefined
| V (j : json).

(** The request body as [JSON.parse] sees it: a string that it rejects, or
    the text of a JSON value. *)
Inductive text :=
| Malformed (s : string)
| Json (j : json).

(** [JSON.parse(event.body)]; a missing body is [null], which parses to
    [null]. *)
Definition JSON_parse (body : option text) : JS.completion value :=
  match body with
  | None => JS.Return (V JNull)
  | Some (Malformed _) => JS.Throw JS.SyntaxError
  | Some (Json j) => JS.Return (V j)
  end.

Definition truthy (v : value) : bool :=
  match v with
  | Undefined | V JNull => false
  | V (JBool b) => b
  | V (JNum n) => negb (n =? 0)
  | V (JStr s) => negb (String.eqb s "")
  | V (JArr _) | V (JObj _) => true
  end.






(** What the deployment and the host supply: the outcome of the block that
    writes to Supabase when both environment variables are set ([None] when
    one is missing), whether the host's date parser accepts a value that is
    not a number, the text of [new Date().toISOString()] and the [message]
    of a caught error. *)
Record Env := {
  supabase : option (json -> JS.completion unit);
  parsesAsDate : json -> bool;
  now : string;
  message : JS.error -> string
}.








End Ingest.

(** ** Sample data *)

Module Sample.

Definition profile : Game.UserProfile :=
  {| Game.sector := "tecnologia";
     Game.position := "senior";
     Game.experience := "5-10";
     Game.region := "caba";
     Game.profile_timestamp := 1700000000000;
     Game.session_id := "flai_1700000000000_k3j9x0q1z" |}.

Definition host (random : Q) : Game.Host :=
  {| Game.Math_random := random; Game.Date_now := 1700000000000 |}.

(** One scenario played: two seconds pass, then the option at index
    [choice] is clicked and the delayed advance runs. *)
Definition answerWith (h : Game.Host) (choice : nat) (g : Game.Simulator)
    : JS.completion Game.Simulator :=
  g ← Game.tick h g;
  g ← Game.tick h g;
  s ← Game.thisScenario g;
  match Game.options s !! choice with
  | Some option =>
      g ← Game.selectOption h option (Z.of_nat choice) g;
      mret (Game.nextScenario g)
  | None => JS.Throw JS.TypeError
  end.

Fixpoint playFrom (h : Game.Host) (choices : list nat) (g : Game.Simulator)
    : JS.completion Game.Simulator :=
  match choices with
  | [] => mret g
  | c :: choices => g ← answerWith h c g; playFrom h choices g
  end.

(** The host of a later moment, with the same random draw. *)
Definition later (minutes : Z) : Game.Host :=
  {| Game.Math_random := 0; Game.Date_now := 1700000000000 + minutes * 60000 |}.

Definition emptyStorage : Store.localStorage :=
  {| Store.flai_leaderboard := None;
     Store.flai_analytics := None;
     Store.flai_research_data := None |}.

Definition play (h : Game.Host) (choices : list nat) : Game.Simulator :=
  JS.try_catch (playFrom h choices (Game.startGame h profile))
               (λ _, Game.startGame h profile).

(** Every scenario answered with its third option, "consultation". *)
Definition consulting : Game.Simulator := play (host 0) (replicate 10 2%nat).


(** The storage after the consulting game has been finished and saved
    twice, ten minutes apart. *)
Definition savedOnce : Store.localStorage :=
  Game.saveGameData (later 0) (Game.calculateResults (later 0) consulting)
                    consulting emptyStorage.

Definition savedTwice : Store.localStorage :=
  Game.saveGameData (later 10) (Game.calculateResults (later 10) consulting)
                    consulting savedOnce.

(** The research records in that storage. *)
Definition savedRecords : list Store.Research.t :=
  match Store.flai_research_data savedOnce with
  | Some (Store.Doc records) => records
  | _ => []
  end.

(** The same game played by someone whose sector reads "banca, seguros". *)
Definition commaProfile : Game.UserProfile :=
  {| Game.sector := "banca, seguros";
     Game.position := "senior";
     Game.experience := "5-10";
     Game.region := "caba";
     Game.profile_timestamp := 1700000000000;
     Game.session_id := "flai_1700000000000_k3j9x0q1z" |}.

Definition commaGame : Game.Simulator :=
  {| Game.currentScenario := Game.currentScenario consulting;
     Game.answers := Game.answers consulting;
     Game.userProfile := commaProfile;
     Game.timeLeft := Game.timeLeft consulting;
     Game.gameStartTime := Game.gameStartTime consulting |}.

Definition commaStorage : Store.localStorage :=
  Game.saveGameData (later 0) (Game.calculateResults (later 0) commaGame)
                    commaGame emptyStorage.

(** A storage whose leaderboard key holds the JSON text [null], and one
    whose keys hold a string that is not JSON. *)
Definition nullLeaderboard : Store.localStorage :=
  {| Store.flai_leaderboard := Some Store.Null;
     Store.flai_analytics := None;
     Store.flai_research_data := None |}.

Definition garbledStorage : Store.localStorage :=
  {| Store.flai_leaderboard := Some (Store.Garbled "[{");
     Store.flai_analytics := None;
     Store.flai_research_data := Some (Store.Garbled "[{") |}.

Definition leaderboardHost : Leaderboard.Host :=
  {| Leaderboard.Date_now := 1700000000000;
     Leaderboard.generateId := "entry_1700000000000_k3j9x0q1z";
     Leaderboard.random_first := 1 # 2;
     Leaderboard.random_last := 1 # 4;
     Leaderboard.getHours := λ t, t / 3600000 mod 24 |}.








End Sample.

(** ** The specification's vocabulary

    Definitions that follow the words of the specification, to be compared
    with the code above. *)

Module Spec.

(** "sum of per-answer scores" *)
Definition sumScores (l : list Game.Answer) : Z :=
  foldr Z.add 0 (map Game.score l).

(** The five fixed bands. *)
Definition band (percentage : Z) : string :=
  if 85 <=? percentage then "Ético Ejemplar"
  else if 70 <=? percentage then "Ético Sólido"
  else if 55 <=? percentage then "Perfil Mixto"
  else if 40 <=? percentage then "Perfil Pragmático"
  else "Perfil de Alto Riesgo".

(** "round(x / y)" for integers, [0 < y]: the integer nearest to the
    quotient, halves upwards. *)
Definition roundDiv (x y : Z) : Z := (2 * x + y) / (2 * y).

(** "the sum of time_taken over only the answers with time_taken > 0" *)
Definition sumPositiveTimes (l : list Game.Answer) : Z :=
  foldr Z.add 0 (map Game.time_taken (filter (λ a, 0 < Game.time_taken a) l)).

(** "flatten all Answer flags" *)
Definition flatten (l : list Game.Answer) : list string :=
  concat (map (λ a, default [] (Game.cultural_flags a)) l).

(** "count occurrences ... sum group counts": how many of the flags belong
    to the group. *)
Definition groupSum (group : list string) (flags : list string) : nat :=
  length (filter (λ flag, flag ∈ group) flags).

(** "emit a canned insight if the group sum meets a fixed minimum (3, 2, 2
    respectively); if no group triggers, emit a single default insight";
    "order follows rule-declaration order". *)
Definition triggered (h : Game.Host) (flags : list string) : list Game.Insight :=
  (if decide (3 ≤ groupSum Game.consultationFlags flags)%nat
   then [Game.consultationInsight h] else [])
  ++ (if decide (2 ≤ groupSum Game.riskFlags flags)%nat
      then [Game.riskInsight] else [])
  ++ (if decide (2 ≤ groupSum Game.relationshipFlags flags)%nat
      then [Game.relationshipInsight] else []).

Definition insights (h : Game.Host) (flags : list string) : list Game.Insight :=
  match triggered h flags with
  | [] => [Game.balancedInsight]
  | l => l
  end.

(** "sorted by score descending with ties broken by most-recent timestamp
    first": [a] may stand before [b]. *)
Definition ranksBefore (a b : Store.Entry.t) : Prop :=
  Store.Entry.score b < Store.Entry.score a
  ∨ (Store.Entry.score a = Store.Entry.score b
     ∧ Store.Entry.timestamp b ≤ Store.Entry.timestamp a).

Definition sortedLeaderboard (l : list Store.Entry.t) : Prop :=
  StronglySorted ranksBefore l.

(** Sorted by score descending, whatever the order among equal scores. *)
Definition sortedByScore (l : list Store.Entry.t) : Prop :=
  StronglySorted (λ a b, Store.Entry.score b ≤ Store.Entry.score a) l.

(** "inserting 105 entries": one [addEntry] call after another, each with
    what the host supplies during it. *)
Fixpoint addEntries (inputs : list (Leaderboard.Host * Leaderboard.GameData.t))
    (ls : Store.localStorage) : JS.completion Store.localStorage :=
  match inputs with
  | [] => mret ls
  | (h, gameData) :: rest =>
      '(ls, _) ← Leaderboard.addEntry h gameData ls;
      addEntries rest ls
  end.




(** The Supabase block, when the deployment has one, completes on the
    parsed body. *)
Definition stored (env : Ingest.Env) (j : Ingest.json) : Prop :=
  match Ingest.supabase env with
  | Some write => write j = JS.Return tt
  | None => True
  end.

(** Reading a CSV text: the fields of a line are what stands between the
    separators, the lines what stands between the line breaks; nothing is
    quoted. *)
Fixpoint has (c : ascii) (s : string) : bool :=
  match s with
  | EmptyString => false
  | String d rest => Ascii.eqb d c || has c rest
  end.

Fixpoint split (separator : ascii) (s : string) : list string :=
  match s with
  | EmptyString => [EmptyString]
  | String c rest =>
      if Ascii.eqb c separator then EmptyString :: split separator rest
      else match split separator rest with
           | [] => [String c EmptyString]
           | field :: fields => String c field :: fields
           end
  end.

Definition comma : ascii := ",".
Definition linefeed : ascii := ascii_of_nat 10.

Definition csvField (csv : string) (line column : nat) : option string :=
  text ← split linefeed csv !! line;
  split comma text !! column.

(** A text without a comma and without a line break. *)
Definition plain (s : string) : Prop :=
  has comma s = false ∧ has linefeed s = false.

(** "the decision type recorded in that session's original Answer for the
    scenario with that id", the empty string when there is none; the first
    one, should a session hold several answers for one scenario. *)
Definition recorded (session : Store.Research.t) (i : Z) : string :=
  match find (λ a, bool_decide (Store.StoredAnswer.scenario_id a = i))
             (Store.Research.answers session) with
  | Some answer => Store.StoredAnswer.option_type answer
  | None => ""
  end.

(** A stored session whose time stamp is a time value and whose texts are
    plain. *)
Definition exportable (session : Store.Research.t) : Prop :=
  Z.abs (Store.Research.timestamp session) ≤ 8640000000000000
  ∧ plain (Store.Research.session_id session)
  ∧ plain (Store.Demographics.sector (Store.Research.demographics session))
  ∧ plain (Store.Demographics.position (Store.Research.demographics session))
  ∧ plain (Store.Demographics.region (Store.Research.demographics session))
  ∧ plain (Store.Demographics.experience (Store.Research.demographics session))
  ∧ Forall (λ a, plain (Store.StoredAnswer.option_type a))
           (Store.Research.answers session).

(** A character that no decimal digit is. *)
Definition symbol (c : ascii) : Prop :=
  ∀ n : N, pretty_N_char n ≠ c.

(** What the line of a session holds: plain fields, and in the columns of
    the scenarios the recorded decision types. *)
Definition rendered (session : Store.Research.t) (cells : list string) : Prop :=
  Forall plain cells
  ∧ ∀ i, 1 ≤ i ≤ 10 → cells !! Z.to_nat (12 + i) = Some (recorded session i).







End Spec.

(** ** docs/leaderboard.js, the remaining readers *)

Module Ranking.

Import Store Leaderboard.

(** [getPlayersBySector(sector, limit)] *)
Definition getPlayersBySector (sector : string) (limit : nat) (ls : localStorage)
    : JS.completion (list Entry.t) :=
  match getLeaderboardData ls with
  | None => JS.Throw JS.TypeError
  | Some leaderboard =>
      JS.Return (take limit (filter (λ entry, Entry.sector entry = sector) leaderboard))
  end.

(** [getPlayersByRegion(region, limit)] *)
Definition getPlayersByRegion (region : string) (limit : nat) (ls : localStorage)
    : JS.completion (list Entry.t) :=
  match getLeaderboardData ls with
  | None => JS.Throw JS.TypeError
  | Some leaderboard =>
      JS.Return (take limit (filter (λ entry, Entry.region entry = region) leaderboard))
  end.

End Ranking.


(** ** A session, as the page delivers it

    What reaches the game object while the game screen is shown: a firing
    of the one-second countdown, a click on the option element at an index,
    or a click on the skip button.  A click on an option is taken together
    with the advance that [selectOption] schedules 1.5 s later (the timer is
    stopped in between); an input that arrives during that pause is not
    considered.  Once the last scenario is answered the screen is replaced
    and the timer is stopped, so nothing more is delivered. *)

Module Session.

Import Game.

Inductive Input :=
| Tick
| Click (optionIndex : nat)
| Skip.

(** The listener of the option element at [optionIndex]; there is no such
    element past the options of the scenario.  [selectOption] schedules the
    advance 1.5 s later and guards nothing in between; here the advance runs
    at once, so the runner below delivers no input during that pause (a
    second click or a skip then would record a second answer for the same
    scenario). *)
Definition click (h : Host) (optionIndex : nat) (g : Simulator)
    : JS.completion Simulator :=
  scenario ← thisScenario g;
  match options scenario !! optionIndex with
  | Some option =>
      g ← selectOption h option (Z.of_nat optionIndex) g;
      mret (nextScenario g)
  | None => mret g
  end.

Definition deliver (h : Host) (input : Input) (g : Simulator)
    : JS.completion Simulator :=
  match input with
  | Tick => tick h g
  | Click optionIndex => click h optionIndex g
  | Skip => skipScenario h g
  end.

Definition over (g : Simulator) : bool :=
  (length scenarios <=? currentScenario g)%nat.

Fixpoint run (inputs : list (Host * Input)) (g : Simulator)
    : JS.completion Simulator :=
  match inputs with
  | [] => mret g
  | (h, input) :: rest =>
      if over g then mret g
      else g ← deliver h input g; run rest g
  end.

(** The five decision types [calculateResults] counts. *)
Definition decisionTypes : list string :=
  ["ethical"; "consultation"; "risky"; "skipped"; "timeout"].

(** What the runner keeps true of the game object: one answer for each of
    the scenarios passed, in catalogue order, with a score, a time and a
    decision type in range; the profile and the starting time of
    [startGame]; a running countdown while scenarios remain. *)
Definition kept (h0 : Host) (profile : UserProfile) (g : Simulator) : Prop :=
  (currentScenario g ≤ 10)%nat
  ∧ map scenario_id (answers g) = map id (take (currentScenario g) scenarios)
  ∧ Forall (λ a, 0 ≤ score a ≤ 10 ∧ 0 ≤ time_taken a ≤ 30
                 ∧ option_type a ∈ decisionTypes) (answers g)
  ∧ userProfile g = profile
  ∧ gameStartTime g = Date_now h0
  ∧ ((currentScenario g < 10)%nat → 1 ≤ timeLeft g ≤ 30).

(** The bars [displayResults] draws: [Math.round((n / 10) * 100)]. *)
Definition barPercent (n : nat) : JS.rounded :=
  JS.Math_round (JS.mul (JS.div (JS.of_nat n) (JS.of_Z 10)) (JS.of_Z 100)).

End Session.

(** ** Conditions on what is stored *)

Module Stored.

Import Store.

(** The key is absent, or holds the empty string, or holds the text of the
    list [l]: [JSON.parse(localStorage.getItem(key) || '[]')] is [l]. *)
Definition readsAs {A} (cell : option (item (list A))) (l : list A) : Prop :=
  parse_or_empty cell = JS.Return (Some l).

(** The key holds a text that [JSON.parse] rejects, or the text [null]. *)
Definition corrupt {A} (cell : option (item (list A))) : Prop :=
  cell = Some Null ∨ ∃ s, s ≠ "" ∧ cell = Some (Garbled s).

(** The names every object inherits from [Object.prototype].  A plain
    object used as a map answers a lookup of one of them with the inherited
    member; the maps of this development are faithful for the other
    keys. *)
Definition inherited : list string :=
  [ "constructor"; "__defineGetter__"; "__defineSetter__"; "hasOwnProperty";
    "__lookupGetter__"; "__lookupSetter__"; "isPrototypeOf";
    "propertyIsEnumerable"; "toString"; "valueOf"; "__proto__";
    "toLocaleString" ].

Definition ordinary (key : string) : Prop := key ∉ inherited.

End Stored.

(** ** docs/leaderboard.js, class [SocialShare]: the tracking part

    The share events, page visits and referrals are kept under three keys
    of their own, the session id under a fourth.  The share dialogs and
    URLs only reach the DOM and the browser and are left out. *)

Module Tracking.

Import Store.

Record ShareEvent := {
  platform : string;
  context : string;
  timestamp : Z;
  url : string;
  referrer : string;
  session_id : string
}.

Record PageVisit := {
  page : string;
  visit_timestamp : Z;
  visit_referrer : string;
  user_agent : string;
  visit_session_id : string
}.

Record Referral := {
  source : string;
  referral_timestamp : Z;
  referral_page : string
}.

(** The four keys; the session id is a plain string, not a JSON text. *)
Record storage := {
  flai_share_events : option (item (list ShareEvent));
  flai_page_visits : option (item (list PageVisit));
  flai_referrals : option (item (list Referral));
  flai_session_id : option string
}.

Definition set_share_events (v : list ShareEvent) (st : storage) : storage :=
  {| flai_share_events := Some (Doc v);
     flai_page_visits := flai_page_visits st;
     flai_referrals := flai_referrals st;
     flai_session_id := flai_session_id st |}.

Definition set_page_visits (v : list PageVisit) (st : storage) : storage :=
  {| flai_share_events := flai_share_events st;
     flai_page_visits := Some (Doc v);
     flai_referrals := flai_referrals st;
     flai_session_id := flai_session_id st |}.

Definition set_referrals (v : list Referral) (st : storage) : storage :=
  {| flai_share_events := flai_share_events st;
     flai_page_visits := flai_page_visits st;
     flai_referrals := Some (Doc v);
     flai_session_id := flai_session_id st |}.

Definition set_session_id (v : string) (st : storage) : storage :=
  {| flai_share_events := flai_share_events st;
     flai_page_visits := flai_page_visits st;
     flai_referrals := flai_referrals st;
     flai_session_id := Some v |}.

(** What the host and the page supply during one call: the clock (a call
    that reads it twice, for the record and for a new session id, is taken
    to read the same millisecond), the text
    [Math.random().toString(36).substr(2, 9)], the location, the referrer,
    the user agent, and the query parameters [utm_source] and [ref] ([None]
    when absent). *)
Record Host := {
  Date_now : Z;
  random_suffix : string;
  href : string;
  pathname : string;
  document_referrer : string;
  userAgent : string;
  utm_source : option string;
  ref : option string
}.

(** [array.slice(-n)]: the last [n] elements. *)
Definition slice_last {A} (n : nat) (array : list A) : list A :=
  drop (length array - n) array.

(** [getSessionId]: the stored id, or a new one, stored at once, when none
    is stored or the stored one is empty. *)
Definition getSessionId (h : Host) (st : storage) : storage * string :=
  let fresh :=
    "session_" +:+ JS.Number_toString (Date_now h) +:+ "_" +:+ random_suffix h in
  match flai_session_id st with
  | Some sessionId =>
      if negb (String.eqb sessionId "") then (st, sessionId)
      else (set_session_id fresh st, fresh)
  | None => (set_session_id fresh st, fresh)
  end.

(** [trackShareEvent]: the events of [this.shareEvents] and the storage,
    before and after. *)
Definition trackShareEvent (h : Host) (platform context : string)
    (shareEvents : list ShareEvent) (st : storage)
    : list ShareEvent * storage :=
  let '(st, sessionId) := getSessionId h st in
  let event :=
    {| platform := platform;
       context := context;
       timestamp := Date_now h;
       url := href h;
       referrer := document_referrer h;
       session_id := sessionId |} in
  let shareEvents := shareEvents ++ [event] in
  let st :=
    JS.try_catch
      (allEvents ← parse_or_empty (flai_share_events st);
       allEvents ← Game.array_push allEvents event;
       mret (set_share_events (slice_last 100 allEvents) st))
      (λ _, st) in
  (shareEvents, st).

Definition trackPageVisit (h : Host) (st : storage) : storage :=
  let '(st, sessionId) := getSessionId h st in
  let visit :=
    {| page := pathname h;
       visit_timestamp := Date_now h;
       visit_referrer := document_referrer h;
       user_agent := userAgent h;
       visit_session_id := sessionId |} in
  JS.try_catch
    (allVisits ← parse_or_empty (flai_page_visits st);
     allVisits ← Game.array_push allVisits visit;
     mret (set_page_visits (slice_last 50 allVisits) st))
    (λ _, st).

(** [a || b] on two query parameters. *)
Definition param_or (a b : option string) : option string :=
  match a with
  | Some s => if negb (String.eqb s "") then Some s else b
  | None => b
  end.

(** The part of [setupTrackingUrls] that records a referral. *)
Definition setupTrackingUrls (h : Host) (st : storage) : storage :=
  match param_or (utm_source h) (ref h) with
  | Some source =>
      if negb (String.eqb source "") then
        let referralData :=
          {| source := source;
             referral_timestamp := Date_now h;
             referral_page := pathname h |} in
        JS.try_catch
          (allReferrals ← parse_or_empty (flai_referrals st);
           allReferrals ← Game.array_push allReferrals referralData;
           mret (set_referrals (slice_last 100 allReferrals) st))
          (λ _, st)
      else st
  | None => st
  end.

(** [initializeSharing]: what the constructor does to the storage. *)
Definition initializeSharing (h : Host) (st : storage) : storage :=
  setupTrackingUrls h (trackPageVisit h st).

(** Share events tracked one after another by one [SocialShare] object. *)
Fixpoint trackAll (calls : list (Host * string * string))
    (shareEvents : list ShareEvent) (st : storage) : list ShareEvent * storage :=
  match calls with
  | [] => (shareEvents, st)
  | (h, platform, context) :: rest =>
      let '(shareEvents, st) := trackShareEvent h platform context shareEvents st in
      trackAll rest shareEvents st
  end.

(** The event a call of [trackShareEvent] builds, given the session id. *)
Definition eventOf (sid : string) (call : Host * string * string) : ShareEvent :=
  let '(h, platform, context) := call in
  {| platform := platform;
     context := context;
     timestamp := Date_now h;
     url := href h;
     referrer := document_referrer h;
     session_id := sid |}.

(** The visit a call of [trackPageVisit] builds, given the session id, and
    the referral [setupTrackingUrls] builds for a source. *)
Definition visitOf (sid : string) (h : Host) : PageVisit :=
  {| page := pathname h;
     visit_timestamp := Date_now h;
     visit_referrer := document_referrer h;
     user_agent := userAgent h;
     visit_session_id := sid |}.

Definition referralOf (source : string) (h : Host) : Referral :=
  {| source := source;
     referral_timestamp := Date_now h;
     referral_page := pathname h |}.

(** A query parameter that is absent or empty. *)
Definition blank (parameter : option string) : Prop :=
  parameter = None ∨ parameter = Some "".

(** [getViralAnalytics] of [FLAIDataExport]: the three lists as parsed,
    [None] for a stored [null]; all three empty when one text does not
    parse. *)
Record Viral := {
  share_events : option (list ShareEvent);
  page_visits : option (list PageVisit);
  referrals : option (list Referral)
}.

Definition getViralAnalytics (st : storage) : Viral :=
  JS.try_catch
    (share_events ← parse_or_empty (flai_share_events st);
     page_visits ← parse_or_empty (flai_page_visits st);
     referrals ← parse_or_empty (flai_referrals st);
     mret {| share_events := share_events;
             page_visits := page_visits;
             referrals := referrals |})
    (λ _, {| share_events := Some []; page_visits := Some []; referrals := Some [] |}).

End Tracking.

(** ** docs/data-export.js, the statistics *)

Module Statistics.

Import Store DataExport.

(** [array.length] and [array.filter(p)]; on [null] both throw. *)
Definition array_length {A} (array : option (list A)) : JS.completion nat :=
  match array with
  | Some l => JS.Return (length l)
  | None => JS.Throw JS.TypeError
  end.

Definition array_filter {A} (p : A → Prop) `{!∀ x, Decision (p x)}
    (array : option (list A)) : JS.completion (list A) :=
  match array with
  | Some l => JS.Return (filter p l)
  | None => JS.Throw JS.TypeError
  end.

Record ViralMetrics := {
  total_shares : nat;
  total_referrals : nat;
  page_views : nat
}.

Record AggregatedStats := {
  total_sessions : nat;
  total_decisions : nat;
  average_score : JS.rounded;
  completion_rate : JS.number;
  unique_sectors : nat;
  unique_regions : nat;
  viral_metrics : ViralMetrics
}.

(** [new Set(strings).size] *)
Definition distinct (strings : list string) : nat :=
  size (list_to_set strings : gset string).

Definition getAggregatedStats (ls : localStorage) (st : Tracking.storage)
    : JS.completion AggregatedStats :=
  let sessions := getGameSessionsData ls in
  let viral := Tracking.getViralAnalytics st in
  let total_decisions :=
    foldl (λ sum s, (sum + length (Session.decisions s))%nat) 0%nat sessions in
  let average_score :=
    if (0 <? length sessions)%nat then
      JS.Math_round
        (JS.div
           (JS.of_Z (foldl (λ sum s,
                              sum + JS.to_arith (Performance.percentage (Session.performance s)))
                           0 sessions))
           (JS.of_nat (length sessions)))
    else JS.Int 0 in
  let completion_rate :=
    if (0 <? length sessions)%nat then
      JS.div
        (JS.of_nat (length (filter (λ s, length (Session.decisions s) = 10%nat) sessions)))
        (JS.of_nat (length sessions))
    else JS.of_Z 0 in
  let unique_sectors :=
    distinct (map (λ s, Demographics.sector (Session.demographics s)) sessions) in
  let unique_regions :=
    distinct (map (λ s, Demographics.region (Session.demographics s)) sessions) in
  total_shares ← array_length (Tracking.share_events viral);
  total_referrals ← array_length (Tracking.referrals viral);
  page_views ← array_length (Tracking.page_visits viral);
  mret {| total_sessions := length sessions;
          total_decisions := total_decisions;
          average_score := average_score;
          completion_rate := completion_rate;
          unique_sectors := unique_sectors;
          unique_regions := unique_regions;
          viral_metrics :=
            {| total_shares := total_shares;
               total_referrals := total_referrals;
               page_views := page_views |} |}.

(** [calculateGrowthRate] at the time [now].  The quotient is rounded to
    binary64 before it is multiplied by 100, and the product again before
    [Math.round]; the two lengths are below 2^32 and so exact. *)
Definition calculateGrowthRate (now : Z) (ls : localStorage) : JS.rounded :=
  let sessions := getGameSessionsData ls in
  let oneDayAgo := now - 24 * 60 * 60 * 1000 in
  let todaySessions := length (filter (λ s, oneDayAgo < Session.timestamp s) sessions) in
  let totalSessions := length sessions in
  if (totalSessions =? 0)%nat then JS.Int 0
  else JS.Math_round
         (Binary64.mul
            (Binary64.div (JS.of_nat todaySessions) (JS.of_nat totalSessions))
            (JS.of_Z 100)).

(** [cleanOldData] at the time [now]: one [try] around both keys, the
    research data first. *)
Definition cleanOldData (now : Z) (ls : localStorage) (st : Tracking.storage)
    : localStorage * Tracking.storage :=
  let thirtyDaysAgo := now - 30 * 24 * 60 * 60 * 1000 in
  match researchData ← parse_or_empty (flai_research_data ls);
        array_filter (λ item, thirtyDaysAgo < Research.timestamp item) researchData with
  | JS.Throw _ => (ls, st)
  | JS.Return filteredResearch =>
      let ls := set_research_data filteredResearch ls in
      match shareEvents ← parse_or_empty (Tracking.flai_share_events st);
            array_filter (λ item, thirtyDaysAgo < Tracking.timestamp item) shareEvents with
      | JS.Throw _ => (ls, st)
      | JS.Return filteredShares => (ls, Tracking.set_share_events filteredShares st)
      end
  end.

(** *** Insights by sector and by region

    The accumulator kept per group.  [decision_types] starts with the keys
    [ethical], [consultation] and [risky]; [x[type] += n] on a key that is
    absent adds [n] to [undefined]. *)
Record GroupData := {
  count : nat;
  total_score : Z;
  response_time : Z;
  decision_types : gmap string JS.number;
  cultural_flags : gmap string nat
}.

Definition emptyGroup : GroupData :=
  {| count := 0;
     total_score := 0;
     response_time := 0;
     decision_types :=
       <["ethical" := JS.of_Z 0]> (<["consultation" := JS.of_Z 0]>
       (<["risky" := JS.of_Z 0]> ∅));
     cultural_flags := ∅ |}.

(** [Object.keys(session.performance.decision_breakdown)] with the values
    [decision_breakdown[type] || 0], in the order [calculateResults] wrote
    them. *)
Definition breakdown (d : DecisionTypes) : list (string * nat) :=
  [ ("ethical", ethical d); ("consultation", consultation d); ("risky", risky d);
    ("skipped", skipped d); ("timeout", timeout d) ].

(** [types[type] += n] *)
Definition addTo (types : gmap string JS.number) (entry : string * nat)
    : gmap string JS.number :=
  <[entry.1 := JS.add (default JS.NaN (types !! entry.1)) (JS.of_nat entry.2)]> types.

(** [decision.cultural_flags.forEach(...)] over the decisions of a session;
    a decision without flags throws. *)
Fixpoint addFlags (decisions : list Decision.t) (flags : gmap string nat)
    : JS.completion (gmap string nat) :=
  match decisions with
  | [] => mret flags
  | decision :: rest =>
      match Decision.cultural_flags decision with
      | None => JS.Throw JS.TypeError
      | Some l => addFlags rest (foldl (λ flags flag, Leaderboard.bump flag flags) flags l)
      end
  end.

Definition addSession (session : Session.t) (data : GroupData)
    : JS.completion GroupData :=
  flags ← addFlags (Session.decisions session) (cultural_flags data);
  mret {| count := S (count data);
          total_score :=
            total_score data + JS.to_arith (Performance.percentage (Session.performance session));
          response_time :=
            response_time data
            + JS.to_arith (Performance.avg_response_time (Session.performance session));
          decision_types :=
            foldl addTo (decision_types data)
                  (breakdown (Performance.decision_breakdown (Session.performance session)));
          cultural_flags := flags |}.

(** The [forEach] over the sessions.  Under a name that every object
    inherits, [sectorData[sector]] is the inherited member and not a group:
    it has no [decision_types], so the first [decision_types[type] +=]
    throws. *)
Fixpoint collect (key : Session.t → string) (sessions : list Session.t)
    (groups : gmap string GroupData) : JS.completion (gmap string GroupData) :=
  match sessions with
  | [] => mret groups
  | session :: rest =>
      let name := JS.str_or (Some (key session)) "no_especificado" in
      if bool_decide (name ∈ Stored.inherited) then JS.Throw JS.TypeError
      else
        data ← addSession session (default emptyGroup (groups !! name));
        collect key rest (<[name := data]> groups)
  end.

(** A group as returned: the averages are computed at the end, and
    [avg_response_time] replaces the sum it was computed from. *)
Record GroupInsight := {
  insight_count : nat;
  insight_total_score : Z;
  avg_score : JS.rounded;
  avg_response_time : JS.rounded;
  insight_decision_types : gmap string JS.number;
  insight_cultural_flags : gmap string nat
}.

Definition finish (data : GroupData) : GroupInsight :=
  {| insight_count := count data;
     insight_total_score := total_score data;
     avg_score := JS.Math_round (JS.div (JS.of_Z (total_score data)) (JS.of_nat (count data)));
     avg_response_time :=
       JS.Math_round (JS.div (JS.of_Z (response_time data)) (JS.of_nat (count data)));
     insight_decision_types := decision_types data;
     insight_cultural_flags := cultural_flags data |}.

Definition analyzeBySector (sessions : list Session.t)
    : JS.completion (gmap string GroupInsight) :=
  match collect (λ s, Demographics.sector (Session.demographics s)) sessions ∅ with
  | JS.Return groups => JS.Return (finish <$> groups)
  | JS.Throw error => JS.Throw error
  end.

Definition analyzeByRegion (sessions : list Session.t)
    : JS.completion (gmap string GroupInsight) :=
  match collect (λ s, Demographics.region (Session.demographics s)) sessions ∅ with
  | JS.Return groups => JS.Return (finish <$> groups)
  | JS.Throw error => JS.Throw error
  end.

(** *** Vocabulary for the insights *)

(** Every decision of the session carries its flags, as in the records
    [saveGameData] writes. *)
Definition flagged (session : Session.t) : Prop :=
  Forall (λ d, is_Some (Decision.cultural_flags d)) (Session.decisions session).

(** What [addSession] makes of a group when the session is flagged. *)
Definition added (session : Session.t) (data : GroupData) : GroupData :=
  {| count := S (count data);
     total_score :=
       total_score data + JS.to_arith (Performance.percentage (Session.performance session));
     response_time :=
       response_time data
       + JS.to_arith (Performance.avg_response_time (Session.performance session));
     decision_types :=
       foldl addTo (decision_types data)
             (breakdown (Performance.decision_breakdown (Session.performance session)));
     cultural_flags :=
       foldl (λ flags flag, Leaderboard.bump flag flags) (cultural_flags data)
             (flat_map (λ d, default [] (Decision.cultural_flags d))
                       (Session.decisions session)) |}.

(** The name a session is grouped under: [value || 'no_especificado']. *)
Definition groupName (value : string) : string :=
  JS.str_or (Some value) "no_especificado".

Definition sectorOf (session : Session.t) : string :=
  Demographics.sector (Session.demographics session).

Definition regionOf (session : Session.t) : string :=
  Demographics.region (Session.demographics session).

(** A session that can be grouped by [key]: its decisions carry their
    flags and its group name is not an inherited one. *)
Definition groupable (key : Session.t → string) (session : Session.t) : Prop :=
  flagged session ∧ Stored.ordinary (groupName (key session)).

(** The insight [d] describes the sessions of [group]: their number, the
    sum and the rounded mean of their percentages (a stored [null] counts
    as 0), the rounded mean of their response times, the sums of their
    ethical, consultation and risky decisions, [NaN] for the skipped and the
    timed-out ones, and the number of times each flag occurs. *)
Definition describes (group : list Session.t) (d : GroupInsight) : Prop :=
  let percentages :=
    map (λ s, JS.to_arith (Performance.percentage (Session.performance s))) group in
  let times :=
    map (λ s, JS.to_arith (Performance.avg_response_time (Session.performance s))) group in
  let breakdowns :=
    map (λ s, Performance.decision_breakdown (Session.performance s)) group in
  let flags :=
    flat_map (λ s, flat_map (λ d, default [] (Decision.cultural_flags d))
                            (Session.decisions s)) group in
  insight_count d = length group
  ∧ insight_total_score d = foldr Z.add 0 percentages
  ∧ avg_score d
    = JS.Int (Spec.roundDiv (foldr Z.add 0 percentages) (Z.of_nat (length group)))
  ∧ avg_response_time d
    = JS.Int (Spec.roundDiv (foldr Z.add 0 times) (Z.of_nat (length group)))
  ∧ insight_decision_types d !! "ethical"
    = Some (JS.of_nat (list_sum (map ethical breakdowns)))
  ∧ insight_decision_types d !! "consultation"
    = Some (JS.of_nat (list_sum (map consultation breakdowns)))
  ∧ insight_decision_types d !! "risky"
    = Some (JS.of_nat (list_sum (map risky breakdowns)))
  ∧ insight_decision_types d !! "skipped" = Some JS.NaN
  ∧ insight_decision_types d !! "timeout" = Some JS.NaN
  ∧ ∀ flag, Stored.ordinary flag →
            default 0%nat (insight_cultural_flags d !! flag)
            = length (filter (λ f, f = flag) flags).

End Statistics.

(** ** Further sample data *)

Module Cases.

Import Store.

(** A finished game as [addEntry] receives it: no position, an empty
    region, no time stamp. *)
Definition finished : Leaderboard.GameData.t :=
  {| Leaderboard.GameData.score := 72;
     Leaderboard.GameData.category := "Ético Sólido";
     Leaderboard.GameData.sector := Some "tecnologia";
     Leaderboard.GameData.position := None;
     Leaderboard.GameData.region := Some "";
     Leaderboard.GameData.timestamp := None |}.

(** The storage after [addEntry] has added it to the two rows of
    [Sample.savedTwice]. *)
Definition afterEntry : localStorage :=
  JS.try_catch
    (fst <$> Leaderboard.addEntry Sample.leaderboardHost finished Sample.savedTwice)
    (λ _, Sample.savedTwice).

(** 105 calls of [addEntry]. *)
Definition manyGames : list (Leaderboard.Host * Leaderboard.GameData.t) :=
  replicate 105 (Sample.leaderboardHost, finished).

Definition player (score : Z) (sector region : string) (timestamp : Z) : Entry.t :=
  {| Entry.id := None;
     Entry.name := None;
     Entry.score := score;
     Entry.category := "Ético Sólido";
     Entry.sector := sector;
     Entry.position := "senior";
     Entry.region := region;
     Entry.timestamp := timestamp;
     Entry.verified := None |}.

(** A leaderboard of three, sorted by score. *)
Definition board : list Entry.t :=
  [ player 90 "tecnologia" "caba" 1700000000000;
    player 80 "finanzas" "caba" 1700000100000;
    player 80 "tecnologia" "cordoba" 1700000200000 ].

Definition ranked : localStorage :=
  {| flai_leaderboard := Some (Doc board);
     flai_analytics := None;
     flai_research_data := None |}.

(** The rows under the leaderboard key of [Sample.savedOnce], and the
    storage after the leaderboard update of a second save. *)
Definition savedBoard : list Entry.t :=
  match flai_leaderboard Sample.savedOnce with
  | Some (Doc rows) => rows
  | _ => []
  end.

Definition boardTwice : localStorage :=
  JS.try_catch
    (Game.updateLeaderboard (Sample.later 10)
       (Game.calculateResults (Sample.later 10) Sample.consulting)
       Sample.consulting Sample.savedOnce)
    (λ _, Sample.savedOnce).

(** A session: three ethical answers, a consultation after two seconds, a
    skip, a scenario left to time out, and four risky answers. *)
Definition inputs : list (Game.Host * Session.Input) :=
  map (λ input, (Sample.host 0, input))
      ([Session.Click 1; Session.Click 1; Session.Click 1;
        Session.Tick; Session.Tick; Session.Click 2;
        Session.Skip]
       ++ replicate 30 Session.Tick
       ++ [Session.Click 0; Session.Click 0; Session.Click 0; Session.Click 0]).

Definition played : Game.Simulator :=
  JS.try_catch
    (Session.run inputs (Game.startGame (Sample.host 0) Sample.profile))
    (λ _, Game.startGame (Sample.host 0) Sample.profile).

(** A visitor who arrived through a shared link, and a browser that has
    stored nothing yet. *)
Definition visitor : Tracking.Host :=
  {| Tracking.Date_now := 1700000000000;
     Tracking.random_suffix := "k3j9x0q1z";
     Tracking.href := "https://flaisimulator.netlify.app/index.html?ref=linkedin";
     Tracking.pathname := "/index.html";
     Tracking.document_referrer := "";
     Tracking.userAgent := "Mozilla/5.0";
     Tracking.utm_source := None;
     Tracking.ref := Some "linkedin" |}.

Definition fresh : Tracking.storage :=
  {| Tracking.flai_share_events := None;
     Tracking.flai_page_visits := None;
     Tracking.flai_referrals := None;
     Tracking.flai_session_id := None |}.

(** A storage whose page visits do not parse, and one whose share events
    are the text [null]. *)
Definition brokenVisits : Tracking.storage :=
  {| Tracking.flai_share_events :=
       Some (Doc [Tracking.eventOf "session_1" (visitor, "linkedin", "social_button")]);
     Tracking.flai_page_visits := Some (Garbled "[{");
     Tracking.flai_referrals := None;
     Tracking.flai_session_id := Some "session_1" |}.

Definition nullShares : Tracking.storage :=
  {| Tracking.flai_share_events := Some Null;
     Tracking.flai_page_visits := None;
     Tracking.flai_referrals := None;
     Tracking.flai_session_id := None |}.

(** The sessions of [Sample.savedTwice] as the export reads them, and one
    session whose only decision has no flags. *)
Definition sessions : list DataExport.Session.t :=
  DataExport.getGameSessionsData Sample.savedTwice.

Definition unflagged : list DataExport.Session.t :=
  [ {| DataExport.Session.session_id := "flai_1700000000000_k3j9x0q1z";
       DataExport.Session.timestamp := 1700000000000;
       DataExport.Session.demographics :=
         {| Demographics.sector := "tecnologia";
            Demographics.position := "senior";
            Demographics.experience := "5-10";
            Demographics.region := "caba" |};
       DataExport.Session.performance :=
         {| DataExport.Performance.total_score := 10;
            DataExport.Performance.percentage := Some 10;
            DataExport.Performance.completion_time := 3000;
            DataExport.Performance.avg_response_time := Some 3;
            DataExport.Performance.decision_breakdown :=
              {| ethical := 1; consultation := 0; risky := 0; skipped := 0; timeout := 0 |} |};
       DataExport.Session.decisions :=
         [ {| DataExport.Decision.scenario_id := 1;
              DataExport.Decision.decision_type := "ethical";
              DataExport.Decision.cultural_flags := None;
              DataExport.Decision.response_time := 3;
              DataExport.Decision.timestamp := None |} ] |} ].

(** Forty stored sessions, 23 of them stamped within the 24 hours before
    1700100000000. *)
Definition stamped (timestamp : Z) (record : Research.t) : Research.t :=
  {| Research.session_id := Research.session_id record;
     Research.demographics := Research.demographics record;
     Research.results := Research.results record;
     Research.answers := Research.answers record;
     Research.timestamp := timestamp |}.

Definition fortySessions : localStorage :=
  set_research_data
    (concat (replicate 17 (stamped 1700000000000 <$> take 1 Sample.savedRecords))
     ++ concat (replicate 23 (stamped 1700050000000 <$> take 1 Sample.savedRecords)))
    Sample.emptyStorage.

(** A flagged session of a sector named like an inherited member. *)
Definition misnamed : list DataExport.Session.t :=
  map (λ s,
         {| DataExport.Session.session_id := DataExport.Session.session_id s;
            DataExport.Session.timestamp := DataExport.Session.timestamp s;
            DataExport.Session.demographics :=
              {| Demographics.sector := "constructor";
                 Demographics.position :=
                   Demographics.position (DataExport.Session.demographics s);
                 Demographics.experience :=
                   Demographics.experience (DataExport.Session.demographics s);
                 Demographics.region :=
                   Demographics.region (DataExport.Session.demographics s) |};
            DataExport.Session.performance := DataExport.Session.performance s;
            DataExport.Session.decisions := DataExport.Session.decisions s |})
      sessions.

End Cases.

(** * Properties *)

(** ** Arithmetic of the host *)

Section HostFacts.

Lemma Qfloor_half (z : Z) : Qfloor (inject_Z z + (1 # 2)) = z.
Proof.
  unfold Qfloor, Qplus, inject_Z; simpl.
  rewrite Z.mul_1_r.
  symmetry; apply (Z.div_unique _ 2 z 1); lia.
Qed.

Lemma Math_round_percent (t : Z) :
  JS.Math_round (JS.mul (JS.div (JS.of_Z t) (JS.of_Z 100)) (JS.of_Z 100)) = JS.Int t.
Proof.
  unfold JS.of_Z, JS.div.
  replace (JS.is_zero (inject_Z 100)) with false by reflexivity.
  unfold JS.mul, JS.Math_round. f_equal.
  transitivity (Qfloor (inject_Z t + (1 # 2))).
  - apply Qfloor_comp. field.
  - apply Qfloor_half.
Qed.

Lemma Math_round_div (x : Z) (y : positive) :
  JS.Math_round (JS.div (JS.of_Z x) (JS.of_Z (Z.pos y)))
  = JS.Int (Spec.roundDiv x (Z.pos y)).
Proof.
  unfold JS.of_Z, JS.div, JS.Math_round, Spec.roundDiv.
  replace (JS.is_zero (inject_Z (Z.pos y))) with false by reflexivity.
  f_equal.
  unfold Qfloor, Qdiv, Qmult, Qinv, Qplus, inject_Z; simpl.
  f_equal; lia.
Qed.

End HostFacts.

(** ** The scorer *)

Module Scorer.

Import Game.

Lemma foldl_score (l : list Answer) (z : Z) :
  foldl (λ sum answer, sum + score answer) z l = z + Spec.sumScores l.
Proof.
  revert z; induction l as [|a l IH]; intros z; simpl.
  - unfold Spec.sumScores; simpl; lia.
  - rewrite IH. unfold Spec.sumScores; simpl; lia.
Qed.

Lemma foldl_time (l : list Answer) (z : Z) :
  foldl (λ sum a, sum + time_taken a) z l = z + foldr Z.add 0 (map time_taken l).
Proof.
  revert z; induction l as [|a l IH]; intros z; simpl; [lia|].
  rewrite IH; lia.
Qed.

Lemma maxPossibleScore_100 : Z.of_nat (length scenarios) * 10 = 100.
Proof. reflexivity. Qed.

Lemma percentage_eq (h : Host) (g : Simulator) :
  percentage (calculateResults h g)
  = JS.Math_round
      (JS.mul (JS.div (JS.of_Z (Spec.sumScores (answers g))) (JS.of_Z 100)) (JS.of_Z 100)).
Proof.
  unfold calculateResults.
  destruct (categorize _) as [c d]; cbn [percentage].
  rewrite foldl_score, maxPossibleScore_100, Z.add_0_l. reflexivity.
Qed.

Lemma category_eq (h : Host) (g : Simulator) :
  category (calculateResults h g) = (categorize (percentage (calculateResults h g))).1.
Proof.
  unfold calculateResults.
  destruct (categorize _) as [c d] eqn:E; cbn [category percentage].
  rewrite E. reflexivity.
Qed.

Lemma categorize_band (p : Z) : (categorize (JS.Int p)).1 = Spec.band p.
Proof.
  unfold categorize, Spec.band, JS.ge.
  repeat (case_match; try reflexivity).
Qed.

Lemma sumScores_bounds (l : list Answer) :
  Forall (λ a, 0 ≤ score a ≤ 10) l →
  0 ≤ Spec.sumScores l ≤ 10 * Z.of_nat (length l).
Proof.
  induction 1 as [|a l Ha _ IH]; unfold Spec.sumScores in *; simpl in *; lia.
Qed.

(** C1.  For a list of exactly ten answers whose scores lie in 0..10, the
    percentage is [round(sum / 100 * 100)], which is the sum of the scores;
    it lies in 0..100, and the category is the band that contains it. *)
Theorem percentage_and_band (h : Host) (g : Simulator) :
  length (answers g) = 10%nat →
  Forall (λ a, 0 ≤ score a ≤ 10) (answers g) →
  let r := calculateResults h g in
  let s := Spec.sumScores (answers g) in
  percentage r
    = JS.Math_round (JS.mul (JS.div (JS.of_Z s) (JS.of_Z 100)) (JS.of_Z 100))
  ∧ percentage r = JS.Int s
  ∧ 0 ≤ s ≤ 100
  ∧ category r = Spec.band s.
Proof.
  intros Hlen Hscores r s.
  assert (Hp : percentage r = JS.Int s).
  { subst r s. rewrite percentage_eq. apply Math_round_percent. }
  split; [apply percentage_eq|].
  split; [exact Hp|].
  split.
  - pose proof (sumScores_bounds _ Hscores) as Hb.
    rewrite Hlen in Hb. subst s. lia.
  - subst r. rewrite category_eq, Hp. apply categorize_band.
Qed.

(** C2.  Whatever the length of the answer list, the percentage is the
    total score over the fixed denominator 100, rounded: the length of the
    list does not enter, and the result is always an integer, the total
    itself. *)
Theorem fixed_denominator (h : Host) (g : Simulator) :
  percentage (calculateResults h g)
    = JS.Math_round
        (JS.mul (JS.div (JS.of_Z (Spec.sumScores (answers g))) (JS.of_Z 100))
                (JS.of_Z 100))
  ∧ percentage (calculateResults h g) = JS.Int (Spec.sumScores (answers g)).
Proof.
  split; [apply percentage_eq|].
  rewrite percentage_eq. apply Math_round_percent.
Qed.

(** C10.  The average response time is [round(S / N)], where [S] adds the
    [time_taken] of the answers that took more than 0 and [N] counts all the
    answers; with no answers the quotient is 0/0 and the result is [NaN]. *)
Theorem avg_response_time_formula (h : Host) (g : Simulator) :
  avg_response_time (calculateResults h g)
  = match answers g with
    | [] => JS.NaNr
    | _ :: _ =>
        JS.Int (Spec.roundDiv (Spec.sumPositiveTimes (answers g))
                              (Z.of_nat (length (answers g))))
    end.
Proof.
  unfold calculateResults.
  destruct (categorize _) as [c d]; cbn [avg_response_time].
  rewrite foldl_time, Z.add_0_l.
  fold (Spec.sumPositiveTimes (answers g)).
  destruct (answers g) as [|a l] eqn:E.
  - reflexivity.
  - unfold JS.of_nat.
    change (Z.of_nat (length (a :: l))) with (Z.pos (Pos.of_succ_nat (length l))).
    apply Math_round_div.
Qed.

(** *** Insight selection *)

Lemma countFlags_lookup (flags : list string) (flag : string) :
  default 0%nat (countFlags flags !! flag) = length (filter (λ f, f = flag) flags).
Proof.
  unfold countFlags.
  enough (G : ∀ m : gmap string nat,
             default 0%nat
               (foldl (λ flagCounts f,
                         <[f := (default 0 (flagCounts !! f) + 1)%nat]> flagCounts)
                      m flags !! flag)
             = (default 0 (m !! flag) + length (filter (λ f, f = flag) flags))%nat).
  { rewrite G, lookup_empty. reflexivity. }
  induction flags as [|f flags IH]; intros m; simpl.
  - lia.
  - rewrite IH, lookup_insert.
    rewrite filter_cons. repeat case_decide; subst; simpl; try congruence; lia.
Qed.

Lemma groupCount_sum (m : gmap string nat) (group : list string) (z : nat) :
  foldl (λ sum flag, (sum + default 0 (m !! flag))%nat) z group
  = (z + foldr (λ flag sum, default 0 (m !! flag) + sum) 0 group)%nat.
Proof.
  revert z; induction group as [|f group IH]; intros z; simpl; [lia|].
  rewrite IH; lia.
Qed.

Lemma filter_elem_of_cons (f : string) (group flags : list string) :
  f ∉ group →
  length (filter (λ flag, flag ∈ f :: group) flags)
  = (length (filter (λ flag, flag = f) flags)
     + length (filter (λ flag, flag ∈ group) flags))%nat.
Proof.
  intros Hf. induction flags as [|x flags IH]; [reflexivity|].
  rewrite !filter_cons.
  destruct (decide (x = f)) as [->|Hne].
  - rewrite decide_True by (apply elem_of_cons; auto).
    rewrite (decide_False (P := f ∈ group)) by exact Hf. simpl. lia.
  - destruct (decide (x ∈ group)) as [Hin|Hnin].
    + rewrite decide_True by (apply elem_of_cons; auto). simpl. lia.
    + rewrite decide_False by (rewrite elem_of_cons; tauto). lia.
Qed.

Lemma groupCount_groupSum (group flags : list string) :
  NoDup group →
  groupCount (countFlags flags) group = Spec.groupSum group flags.
Proof.
  unfold groupCount, Spec.groupSum. rewrite groupCount_sum, Nat.add_0_l.
  induction 1 as [|f group Hf _ IH]; simpl.
  - induction flags as [|x flags IHf]; [reflexivity|].
    rewrite filter_cons, decide_False by apply not_elem_of_nil. exact IHf.
  - rewrite filter_elem_of_cons by done.
    rewrite IH, countFlags_lookup. reflexivity.
Qed.

Lemma groups_NoDup :
  NoDup consultationFlags ∧ NoDup riskFlags ∧ NoDup relationshipFlags.
Proof. repeat split; apply (bool_decide_unpack _); vm_compute; exact I. Qed.

Ltac leb_of H :=
  first [ apply Nat.leb_le in H | apply Nat.nle_gt, Nat.leb_gt in H ].

Lemma analyzeCulturalPatterns_spec (h : Host) (flags : list string) :
  analyzeCulturalPatterns h flags = Spec.insights h flags.
Proof.
  unfold analyzeCulturalPatterns, Spec.insights, Spec.triggered.
  destruct groups_NoDup as (Hc & Hr & Hl).
  rewrite !groupCount_groupSum by assumption.
  destruct (decide (3 ≤ Spec.groupSum consultationFlags flags)%nat) as [H1|H1];
  destruct (decide (2 ≤ Spec.groupSum riskFlags flags)%nat) as [H2|H2];
  destruct (decide (2 ≤ Spec.groupSum relationshipFlags flags)%nat) as [H3|H3];
  leb_of H1; leb_of H2; leb_of H3; rewrite H1, H2, H3; reflexivity.
Qed.

Lemma cultural_analysis_eq (h : Host) (g : Simulator) :
  cultural_analysis (calculateResults h g)
  = analyzeCulturalPatterns h (Spec.flatten (answers g)).
Proof.
  unfold calculateResults.
  destruct (categorize _) as [c d]; cbn [cultural_analysis].
  unfold Spec.flatten. rewrite flat_map_concat_map. reflexivity.
Qed.

(** C3.  With the flags of all answers flattened and counted, the titles
    of the insights are, in this order, "Patrón de Consulta Elevado" iff at
    least 3 flags are among consultation_pattern, hierarchy_respect and
    guidance_seeking, "Alta Aversión al Riesgo" iff at least 2 are among
    risk_aversion, policy_adherence and protocol_adherence, and "Influencia
    Relacional" iff at least 2 are among relationship_priority,
    family_loyalty and colleague_favor; when none of the three applies, and
    only then, the result is exactly the one insight "Perfil Equilibrado"
    with its fixed message. *)
Theorem insight_rules (h : Host) (g : Simulator) :
  let flags := Spec.flatten (answers g) in
  let result := cultural_analysis (calculateResults h g) in
  let consultation :=
    Spec.groupSum ["consultation_pattern"; "hierarchy_respect"; "guidance_seeking"] flags in
  let risk :=
    Spec.groupSum ["risk_aversion"; "policy_adherence"; "protocol_adherence"] flags in
  let relationship :=
    Spec.groupSum ["relationship_priority"; "family_loyalty"; "colleague_favor"] flags in
  map insight_title result
  = match (if decide (3 ≤ consultation)%nat then ["Patrón de Consulta Elevado"] else [])
          ++ (if decide (2 ≤ risk)%nat then ["Alta Aversión al Riesgo"] else [])
          ++ (if decide (2 ≤ relationship)%nat then ["Influencia Relacional"] else [])
    with
    | [] => ["Perfil Equilibrado"]
    | titles => titles
    end
  ∧ ("Patrón de Consulta Elevado" ∈ map insight_title result ↔ (3 ≤ consultation)%nat)
  ∧ ("Alta Aversión al Riesgo" ∈ map insight_title result ↔ (2 ≤ risk)%nat)
  ∧ ("Influencia Relacional" ∈ map insight_title result ↔ (2 ≤ relationship)%nat)
  ∧ (result
     = [ {| insight_title := "Perfil Equilibrado";
            insight_description :=
              [ Text "Muestras un perfil de toma de decisiones equilibrado, adaptándote al contexto específico de cada situación." ] |} ]
     ↔ (consultation < 3)%nat ∧ (risk < 2)%nat ∧ (relationship < 2)%nat)
  ∧ result = Spec.insights h flags.
Proof.
  intros flags result consultation risk relationship.
  assert (E : result = Spec.insights h flags).
  { subst result. rewrite cultural_analysis_eq. apply analyzeCulturalPatterns_spec. }
  rewrite E. clear E result.
  unfold Spec.insights, Spec.triggered.
  change (Spec.groupSum consultationFlags flags) with consultation.
  change (Spec.groupSum riskFlags flags) with risk.
  change (Spec.groupSum relationshipFlags flags) with relationship.
  destruct (decide (3 ≤ consultation)%nat);
    destruct (decide (2 ≤ risk)%nat);
    destruct (decide (2 ≤ relationship)%nat);
    cbn [app map insight_title consultationInsight riskInsight relationshipInsight
         balancedInsight];
    (split; [reflexivity|]);
    repeat split; intros;
    repeat match goal with
    | H : _ ∈ _ |- _ => apply list_elem_of_In in H; simpl in H
    | H : _ ∨ _ |- _ => destruct H
    | H : _ ∧ _ |- _ => destruct H
    | H : False |- _ => destruct H
    | |- _ ∈ _ => apply list_elem_of_In; simpl; tauto
    end;
    try lia; try discriminate; try reflexivity.
Qed.

(** *** Dependence on the host *)






(** C1 at the sample game where every answer is the consultation option:
    the scores add up to 72, the band is "Ético Sólido". *)
Lemma percentage_and_band_witness :
  length (answers Sample.consulting) = 10%nat
  ∧ Forall (λ a, 0 ≤ score a ≤ 10) (answers Sample.consulting)
  ∧ percentage (calculateResults (Sample.host 0) Sample.consulting) = JS.Int 72
  ∧ category (calculateResults (Sample.host 0) Sample.consulting) = "Ético Sólido".
Proof.
  assert (Hlen : length (answers Sample.consulting) = 10%nat) by reflexivity.
  assert (Hsc : Forall (λ a, 0 ≤ score a ≤ 10) (answers Sample.consulting)).
  { vm_compute. repeat constructor; discriminate. }
  destruct (percentage_and_band (Sample.host 0) Sample.consulting Hlen Hsc)
    as (_ & Hp & _ & Hc).
  split; [exact Hlen|]. split; [exact Hsc|].
  split; [rewrite Hp|rewrite Hc]; vm_compute; reflexivity.
Defined.

(** C2 illustrated: a single answer worth 10 of 10 points scores 10%, not
    100%. *)
Example short_list_percentage :
  percentage (calculateResults (Sample.host 0) (Sample.play (Sample.host 0) [1%nat]))
  = JS.Int 10.
Proof. reflexivity. Qed.



End Scorer.

(** ** The local aggregator *)

Module Aggregator.

Import Store Leaderboard.

(** *** [Array.prototype.sort] *)

Section Sort.

Context {A : Type} (compare : A → A → Z).

Lemma sort_insert_Permutation (x : A) (l : list A) :
  JS.sort_insert compare x l ≡ₚ x :: l.
Proof.
  induction l as [|y l IH]; simpl; [reflexivity|].
  case_match; [|reflexivity].
  rewrite IH. apply Permutation_swap.
Qed.

Lemma sort_Permutation (l : list A) : JS.sort compare l ≡ₚ l.
Proof.
  induction l as [|x l IH]; simpl; [reflexivity|].
  rewrite sort_insert_Permutation. by f_equiv.
Qed.

Lemma sort_length (l : list A) : length (JS.sort compare l) = length l.
Proof. apply Permutation_length, sort_Permutation. Qed.

(** A comparator that orders: its sign flips with its arguments, and
    "not after" is transitive. *)
Hypothesis compare_flip : ∀ a b, 0 < compare a b → compare b a ≤ 0.
Hypothesis compare_trans :
  ∀ a b c, compare a b ≤ 0 → compare b c ≤ 0 → compare a c ≤ 0.

Lemma sort_insert_Sorted (x : A) (l : list A) :
  StronglySorted (λ a b, compare a b ≤ 0) l →
  StronglySorted (λ a b, compare a b ≤ 0) (JS.sort_insert compare x l).
Proof.
  induction 1 as [|y l Hl IH Hy]; simpl.
  - repeat constructor.
  - destruct (0 <? compare x y) eqn:E.
    + apply Z.ltb_lt in E. constructor; [exact IH|].
      rewrite sort_insert_Permutation. constructor; [auto|exact Hy].
    + apply Z.ltb_ge in E. constructor; [by constructor|].
      constructor; [exact E|].
      eapply Forall_impl; [exact Hy|]. intros z Hz. by eapply compare_trans.
Qed.

Lemma sort_Sorted (l : list A) :
  StronglySorted (λ a b, compare a b ≤ 0) (JS.sort compare l).
Proof.
  induction l as [|x l IH]; simpl; [constructor|].
  by apply sort_insert_Sorted.
Qed.

End Sort.

Lemma StronglySorted_take {A} (R : relation A) (n : nat) (l : list A) :
  StronglySorted R l → StronglySorted R (take n l).
Proof.
  intros H. rewrite <- (take_drop n l) in H.
  by apply StronglySorted_app_1_l in H.
Qed.

Lemma StronglySorted_impl {A} (R1 R2 : relation A) (l : list A) :
  (∀ a b, R1 a b → R2 a b) → StronglySorted R1 l → StronglySorted R2 l.
Proof.
  intros HR. induction 1 as [|x l _ IH Hx]; constructor; [exact IH|].
  eapply Forall_impl; [exact Hx|]. auto.
Qed.

(** *** The two comparators *)

Lemma compareEntries_ranks (a b : Entry.t) :
  compareEntries a b ≤ 0 ↔ Spec.ranksBefore a b.
Proof.
  unfold compareEntries, Spec.ranksBefore.
  destruct (Entry.score b =? Entry.score a) eqn:E; simpl.
  - apply Z.eqb_eq in E. lia.
  - apply Z.eqb_neq in E. lia.
Qed.

Lemma compareEntries_flip (a b : Entry.t) :
  0 < compareEntries a b → compareEntries b a ≤ 0.
Proof.
  unfold compareEntries.
  destruct (Entry.score b =? Entry.score a) eqn:E1;
  destruct (Entry.score a =? Entry.score b) eqn:E2; simpl;
  rewrite ?Z.eqb_eq, ?Z.eqb_neq in *; lia.
Qed.

Lemma compareEntries_trans (a b c : Entry.t) :
  compareEntries a b ≤ 0 → compareEntries b c ≤ 0 → compareEntries a c ≤ 0.
Proof. rewrite !compareEntries_ranks. unfold Spec.ranksBefore. lia. Qed.

Lemma addEntry_sort_ranked (l : list Entry.t) :
  Spec.sortedLeaderboard (JS.sort compareEntries l).
Proof.
  eapply StronglySorted_impl; [apply compareEntries_ranks|].
  apply sort_Sorted; [apply compareEntries_flip|apply compareEntries_trans].
Qed.

Lemma byScore_sort_sorted (l : list Entry.t) :
  Spec.sortedByScore (JS.sort (λ a b, Entry.score b - Entry.score a) l).
Proof.
  eapply StronglySorted_impl; [|apply sort_Sorted]; simpl; intros; lia.
Qed.

(** *** [addEntry] *)

Lemma getLeaderboardData_set (h : Host) (l : list Entry.t) (ls : localStorage) :
  getLeaderboardData (saveLeaderboardData h l ls) = Some l.
Proof. reflexivity. Qed.

(** The list [addEntry] persists. *)
Lemma addEntry_persists (h : Host) (gameData : GameData.t) (ls : localStorage)
    (l : list Entry.t) :
  getLeaderboardData ls = Some l →
  ∃ position,
    addEntry h gameData ls
    = JS.Return
        (saveLeaderboardData h
           (take maxEntries (JS.sort compareEntries (l ++ [newEntry h gameData]))) ls,
         position).
Proof.
  intros Hl. unfold addEntry. rewrite Hl.
  unfold findUserPosition. rewrite getLeaderboardData_set. simpl. eauto.
Qed.

(** After any call of [addEntry] that returns, the persisted list is
    sorted by score descending, ties most recent first, and holds at most
    100 entries; among the stored texts the storage model gives a shape,
    the call returns for all but [null]. *)
Lemma addEntry_sorted_capped (h : Host) (gameData : GameData.t) (ls : localStorage) :
  flai_leaderboard ls ≠ Some Null →
  ∃ ls' position l,
    addEntry h gameData ls = JS.Return (ls', position)
    ∧ flai_leaderboard ls' = Some (Doc l)
    ∧ Spec.sortedLeaderboard l
    ∧ (length l ≤ 100)%nat.
Proof.
  intros Hnull.
  assert (∃ l0, getLeaderboardData ls = Some l0) as [l0 Hl0].
  { unfold getLeaderboardData.
    destruct (flai_leaderboard ls) as [[s| |v]|]; simpl; eauto; [|congruence].
    destruct (negb _); simpl; eauto. }
  destruct (addEntry_persists h gameData ls l0 Hl0) as [position Hadd].
  eexists _, position, _. split; [exact Hadd|].
  split; [reflexivity|]. split.
  - apply StronglySorted_take, addEntry_sort_ranked.
  - rewrite length_take. unfold maxEntries. lia.
Qed.

Lemma ranksBefore_trans (a b c : Entry.t) :
  Spec.ranksBefore a b → Spec.ranksBefore b c → Spec.ranksBefore a c.
Proof. unfold Spec.ranksBefore. lia. Qed.

Lemma ranksBefore_score (a b : Entry.t) :
  Spec.ranksBefore a b → Entry.score b ≤ Entry.score a.
Proof. unfold Spec.ranksBefore. lia. Qed.

(** *** Inserting many entries

    One insertion, seen on the list: what is kept stays ahead of everything
    dropped so far and of what is dropped now. *)
Lemma insert_step (kept dropped : list Entry.t) (e : Entry.t) :
  (∀ k d, k ∈ kept → d ∈ dropped → Spec.ranksBefore k d) →
  (dropped = [] ∨ (100 ≤ length kept)%nat) →
  let sorted := JS.sort compareEntries (kept ++ [e]) in
  (∀ k d, k ∈ take 100 sorted → d ∈ dropped ++ drop 100 sorted → Spec.ranksBefore k d)
  ∧ (dropped ++ drop 100 sorted = [] ∨ (100 ≤ length (take 100 sorted))%nat)
  ∧ take 100 sorted ++ (dropped ++ drop 100 sorted) ≡ₚ (kept ++ dropped) ++ [e].
Proof.
  intros Hrank Hfull sorted.
  assert (Hperm : take 100 sorted ++ drop 100 sorted ≡ₚ kept ++ [e]).
  { rewrite take_drop. apply sort_Permutation. }
  assert (Hsorted : Spec.sortedLeaderboard (take 100 sorted ++ drop 100 sorted)).
  { rewrite take_drop. apply addEntry_sort_ranked. }
  assert (Hlen : length sorted = S (length kept)).
  { unfold sorted. rewrite sort_length, length_app. simpl. lia. }
  split; [|split].
  - intros k d Hk Hd. apply elem_of_app in Hd as [Hd|Hd].
    + assert (Hk' : k ∈ kept ++ [e]).
      { rewrite <- Hperm. apply elem_of_app. by left. }
      apply elem_of_app in Hk' as [Hk'|Hk']; [by apply Hrank|].
      apply list_elem_of_singleton in Hk' as ->.
      destruct Hfull as [->|Hfull]; [by apply elem_of_nil in Hd|].
      destruct (drop 100 sorted) as [|z rest] eqn:Hdrop.
      { apply (f_equal length) in Hdrop. rewrite length_drop in Hdrop.
        simpl in Hdrop. lia. }
      assert (Hz : z ∈ kept ++ [e]).
      { rewrite <- Hperm. apply elem_of_app. right. apply elem_of_cons. by left. }
      apply elem_of_app in Hz as [Hz|Hz].
      * apply ranksBefore_trans with z; [|by apply Hrank].
        eapply StronglySorted_app_1_elem_of; [exact Hsorted|exact Hk|].
        apply elem_of_cons. by left.
      * apply list_elem_of_singleton in Hz as ->.
        apply Hrank; [|exact Hd].
        apply list_elem_of_split in Hk as (k1 & k2 & Hk).
        rewrite Hk in Hperm.
        assert (Hp : k1 ++ k2 ++ e :: rest ≡ₚ kept).
        { apply (Permutation_cons_inv (a := e)).
          transitivity (kept ++ [e]); [|symmetry; apply Permutation_cons_append].
          rewrite <- Hperm, <- app_assoc. simpl. apply Permutation_middle. }
        rewrite <- Hp. rewrite !elem_of_app, elem_of_cons. auto.
    + eapply StronglySorted_app_1_elem_of; [exact Hsorted|exact Hk|exact Hd].
  - rewrite length_take, Hlen.
    destruct (drop 100 sorted) as [|z rest] eqn:Hdrop.
    + destruct Hfull as [->|Hfull]; [by left|right; lia].
    + right. apply (f_equal length) in Hdrop. rewrite length_drop in Hdrop.
      simpl in Hdrop. lia.
  - rewrite (Permutation_app_comm dropped), app_assoc, Hperm.
    rewrite <- !app_assoc. f_equiv. apply Permutation_app_comm.
Qed.

Lemma insertions (l0 es : list Entry.t) :
  let kept :=
    foldl (λ l e, take maxEntries (JS.sort compareEntries (l ++ [e]))) l0 es in
  ∃ dropped,
    (∀ k d, k ∈ kept → d ∈ dropped → Spec.ranksBefore k d)
    ∧ (dropped = [] ∨ (100 ≤ length kept)%nat)
    ∧ kept ++ dropped ≡ₚ l0 ++ es
    ∧ (es ≠ [] →
       Spec.sortedLeaderboard kept
       ∧ length kept = (100 `min` (length l0 + length es))%nat).
Proof.
  induction es as [|e es IH] using rev_ind.
  - exists []. split; [intros k d _ Hd; by apply elem_of_nil in Hd|].
    split; [by left|]. split; [reflexivity|done].
  - rewrite foldl_app. simpl foldl.
    destruct IH as (dropped & Hrank & Hfull & Hperm & Hsorted).
    set (kept := foldl _ l0 es) in *.
    destruct (insert_step kept dropped e Hrank Hfull) as (Hrank' & Hfull' & Hperm').
    eexists. split; [exact Hrank'|]. split; [exact Hfull'|].
    split; [by rewrite Hperm', Hperm, app_assoc|].
    intros _. split.
    + apply StronglySorted_take, addEntry_sort_ranked.
    + unfold maxEntries.
      rewrite length_take, sort_length, !length_app. simpl length.
      destruct es as [|e0 es0].
      * subst kept. simpl foldl. simpl length. lia.
      * destruct Hsorted as [_ Hlen]; [done|]. rewrite Hlen. simpl length. lia.
Qed.

Lemma addEntries_foldl (inputs : list (Host * GameData.t)) :
  ∀ (ls : localStorage) (l0 : list Entry.t),
    getLeaderboardData ls = Some l0 →
    ∃ ls',
      Spec.addEntries inputs ls = JS.Return ls'
      ∧ getLeaderboardData ls'
        = Some (foldl (λ l e, take maxEntries (JS.sort compareEntries (l ++ [e])))
                      l0 (map (λ '(h, gameData), newEntry h gameData) inputs))
      ∧ (inputs ≠ [] → ∃ kept, flai_leaderboard ls' = Some (Doc kept)).
Proof.
  induction inputs as [|[h gameData] inputs IH]; intros ls l0 Hl0; simpl.
  - exists ls. split; [reflexivity|]. split; [exact Hl0|done].
  - destruct (addEntry_persists h gameData ls l0 Hl0) as [position ->].
    simpl.
    destruct (IH _ _ (getLeaderboardData_set h
                        (take maxEntries
                           (JS.sort compareEntries (l0 ++ [newEntry h gameData]))) ls))
      as (ls' & Hrun & Hget & Hdoc).
    exists ls'. split; [exact Hrun|]. split; [exact Hget|].
    intros _. destruct inputs as [|input inputs]; [|by apply Hdoc].
    simpl in Hrun. injection Hrun as <-. eexists. reflexivity.
Qed.

Lemma getLeaderboardData_doc (ls : localStorage) (kept l : list Entry.t) :
  flai_leaderboard ls = Some (Doc kept) → getLeaderboardData ls = Some l → kept = l.
Proof. unfold getLeaderboardData. intros ->. simpl. congruence. Qed.

(** X2.  Inserting 105 entries, whatever list was stored before, leaves exactly
    100 persisted entries, sorted; the entries that are gone, five more than
    the list held before, have scores at most those of the entries kept. *)
Theorem addEntries_cap (inputs : list (Host * GameData.t)) (ls : localStorage)
    (l0 : list Entry.t) :
  getLeaderboardData ls = Some l0 →
  length inputs = 105%nat →
  ∃ ls' kept dropped,
    Spec.addEntries inputs ls = JS.Return ls'
    ∧ flai_leaderboard ls' = Some (Doc kept)
    ∧ length kept = 100%nat
    ∧ Spec.sortedLeaderboard kept
    ∧ kept ++ dropped ≡ₚ l0 ++ map (λ '(h, gameData), newEntry h gameData) inputs
    ∧ length dropped = (length l0 + 5)%nat
    ∧ ∀ k d, k ∈ kept → d ∈ dropped → Entry.score d ≤ Entry.score k.
Proof.
  intros Hl0 Hlen.
  assert (Hne : inputs ≠ []) by (intros ->; discriminate).
  destruct (addEntries_foldl inputs ls l0 Hl0) as (ls' & Hrun & Hget & Hdoc).
  destruct (Hdoc Hne) as [kept Hkept].
  destruct (insertions l0 (map (λ '(h, gameData), newEntry h gameData) inputs))
    as (dropped & Hrank & _ & Hperm & Hsorted).
  rewrite <- (getLeaderboardData_doc ls' kept _ Hkept Hget) in Hrank, Hperm, Hsorted.
  destruct Hsorted as [Hsorted Hkeptlen].
  { intros Hnil. apply (f_equal length) in Hnil. rewrite length_map in Hnil.
    simpl in Hnil. lia. }
  rewrite length_map, Hlen in Hkeptlen.
  exists ls', kept, dropped.
  split; [exact Hrun|]. split; [exact Hkept|]. split; [lia|].
  split; [exact Hsorted|]. split; [exact Hperm|]. split.
  - apply Permutation_length in Hperm.
    rewrite !length_app, length_map in Hperm. lia.
  - intros k d Hk Hd. apply ranksBefore_score. by apply Hrank.
Qed.

(** *** The leaderboard update of [saveGameData] *)

(** X3.  The update sorts by score alone and keeps at most 100 rows. *)
Lemma updateLeaderboard_sorted_capped (h : Game.Host) (results : Game.Results)
    (g : Game.Simulator) (ls ls' : localStorage) :
  Game.updateLeaderboard h results g ls = JS.Return ls' →
  ∃ l, flai_leaderboard ls' = Some (Doc l)
       ∧ Spec.sortedByScore l ∧ (length l ≤ 100)%nat.
Proof.
  unfold Game.updateLeaderboard.
  destruct (parse_or_empty (flai_leaderboard ls)) as [[l0|]|e]; simpl; try discriminate.
  intros [= <-]. eexists. split; [reflexivity|]. split.
  - apply StronglySorted_take, byScore_sort_sorted.
  - rewrite length_take. lia.
Qed.

(** C4, the failing case.  The same game (72%) is finished and saved
    twice, ten minutes apart, on an empty storage: both rows are kept, the
    older one first, so the persisted list is sorted by score but its tie is
    not in most-recent-first order. *)
Theorem saveGameData_ties_oldest_first :
  ∃ l, flai_leaderboard Sample.savedTwice = Some (Doc l)
       ∧ map (λ e, (Entry.score e, Entry.timestamp e)) l
         = [(72, 1700000000000); (72, 1700000600000)]
       ∧ Spec.sortedByScore l
       ∧ ¬ Spec.sortedLeaderboard l.
Proof.
  eexists. split; [vm_compute; reflexivity|].
  split; [reflexivity|]. split.
  - repeat constructor; simpl; lia.
  - intros H. apply StronglySorted_cons in H as [H _].
    apply Forall_cons in H as [H _].
    unfold Spec.ranksBefore in H; simpl in H. lia.
Qed.

(** *** Reading the storage *)

Lemma getLeaderboardData_garbled (ls : localStorage) (s : string) :
  flai_leaderboard ls = Some (Garbled s) → getLeaderboardData ls = Some [].
Proof.
  intros H. unfold getLeaderboardData. rewrite H. simpl.
  destruct (negb _); reflexivity.
Qed.

Lemma getGameSessionsData_garbled (ls : localStorage) (s : string) :
  flai_research_data ls = Some (Garbled s) → DataExport.getGameSessionsData ls = [].
Proof.
  intros H. unfold DataExport.getGameSessionsData, parse_or_empty. rewrite H. simpl.
  destruct (negb _); reflexivity.
Qed.

(** The read path, shape by shape.  A stored string that is not valid JSON
    reads as the empty list, from both keys, and so does an absent key;
    [getGameSessionsData] also turns the stored text [null] into the empty
    list; [getLeaderboardData] hands a parsed value on as it is: the rows of
    a stored list unchanged, and the value [null], on which the readers that
    use it as an array throw. *)
Lemma read_fail_open (h : Host) (limit : nat) (ls : localStorage) :
  (∀ s, flai_leaderboard ls = Some (Garbled s) → getLeaderboardData ls = Some [])
  ∧ (∀ s, flai_research_data ls = Some (Garbled s) →
          DataExport.getGameSessionsData ls = [])
  ∧ (flai_leaderboard ls = None → getLeaderboardData ls = Some [])
  ∧ (flai_research_data ls = None → DataExport.getGameSessionsData ls = [])
  ∧ (flai_research_data ls = Some Null → DataExport.getGameSessionsData ls = [])
  ∧ (flai_leaderboard ls = Some Null →
       getLeaderboardData ls = None
       ∧ getTopPlayers limit ls = JS.Throw JS.TypeError
       ∧ getComprehensiveAnalytics h ls = JS.Throw JS.TypeError)
  ∧ (∀ l, flai_leaderboard ls = Some (Doc l) →
       getLeaderboardData ls = Some l
       ∧ getTopPlayers limit ls = JS.Return (take limit l)
       ∧ ∃ a, getComprehensiveAnalytics h ls = JS.Return a).
Proof.
  split; [intros s; apply getLeaderboardData_garbled|].
  split; [intros s; apply getGameSessionsData_garbled|].
  split.
  { intros H. unfold getLeaderboardData. rewrite H. reflexivity. }
  split.
  { intros H. unfold DataExport.getGameSessionsData. rewrite H. reflexivity. }
  split.
  { intros H. unfold DataExport.getGameSessionsData. rewrite H. reflexivity. }
  split.
  { intros H. unfold getTopPlayers, getComprehensiveAnalytics, getLeaderboardData.
    rewrite H. repeat split. }
  intros l H. unfold getTopPlayers, getComprehensiveAnalytics, getLeaderboardData.
  rewrite H. simpl. eauto.
Qed.

(** C8.  With the valid JSON text [null] under the leaderboard key,
    [getLeaderboardData] returns [null], not the empty list, and the readers
    [getTopPlayers] and [getComprehensiveAnalytics] throw a [TypeError];
    the reader of the export returns the empty list for the same text under
    its key. *)
Lemma read_path_throws_on_null :
  flai_leaderboard Sample.nullLeaderboard = Some Null
  ∧ getLeaderboardData Sample.nullLeaderboard ≠ Some []
  ∧ getLeaderboardData Sample.nullLeaderboard = None
  ∧ getTopPlayers 10 Sample.nullLeaderboard = JS.Throw JS.TypeError
  ∧ getComprehensiveAnalytics Sample.leaderboardHost Sample.nullLeaderboard
    = JS.Throw JS.TypeError
  ∧ DataExport.getGameSessionsData
      {| flai_leaderboard := None; flai_analytics := None;
         flai_research_data := Some Null |}
    = [].
Proof.
  split; [reflexivity|]. split; [discriminate|]. repeat split.
Qed.

Lemma read_fail_open_witness :
  getLeaderboardData Sample.garbledStorage = Some []
  ∧ DataExport.getGameSessionsData Sample.garbledStorage = []
  ∧ getTopPlayers 10 Sample.nullLeaderboard = JS.Throw JS.TypeError
  ∧ ∃ l, flai_leaderboard Sample.savedTwice = Some (Doc l)
         ∧ getTopPlayers 10 Sample.savedTwice = JS.Return (take 10 l).
Proof.
  destruct (read_fail_open Sample.leaderboardHost 10 Sample.garbledStorage)
    as (Hg & Hr & _).
  destruct (read_fail_open Sample.leaderboardHost 10 Sample.nullLeaderboard)
    as (_ & _ & _ & _ & _ & Hn & _).
  destruct (read_fail_open Sample.leaderboardHost 10 Sample.savedTwice)
    as (_ & _ & _ & _ & _ & _ & Hs).
  split; [exact (Hg _ eq_refl)|]. split; [exact (Hr _ eq_refl)|].
  split; [exact (proj1 (proj2 (Hn eq_refl)))|].
  eexists. split; [vm_compute; reflexivity|].
  exact (proj1 (proj2 (Hs _ eq_refl))).
Defined.

(** *** Research analytics

    A distribution counts the entries of each group; an average is the
    rounded mean of the scores of the group. *)

Lemma tally_lookup (key : Entry.t → string) (data : list Entry.t) (k : string) :
  default 0%nat
    (foldl (λ distribution entry, bump (key entry) distribution) ∅ data !! k)
  = length (filter (λ entry, key entry = k) data).
Proof.
  enough (G : ∀ m : gmap string nat,
             default 0%nat
               (foldl (λ distribution entry, bump (key entry) distribution) m data !! k)
             = (default 0 (m !! k) + length (filter (λ entry, key entry = k) data))%nat).
  { rewrite G, lookup_empty. reflexivity. }
  induction data as [|e data IH]; intros m; simpl; [lia|].
  rewrite IH. unfold bump. rewrite lookup_insert, filter_cons.
  destruct (decide (key e = k)) as [->|Hne]; simpl; lia.
Qed.

Lemma accumulate_lookup (key : Entry.t → string) (data : list Entry.t) (k : string) :
  let group := filter (λ entry, key entry = k) data in
  accumulate key data !! k
  = match group with
    | [] => None
    | _ :: _ => Some (foldr Z.add 0 (map Entry.score group), length group)
    end.
Proof.
  intros group. unfold accumulate.
  enough (G : ∀ m : gmap string (Z * nat),
    foldl (λ scores entry,
             let '(total, count) := default (0, 0%nat) (scores !! key entry) in
             <[key entry := (total + Entry.score entry, (count + 1)%nat)]> scores)
          m data !! k
    = match filter (λ entry, key entry = k) data with
      | [] => m !! k
      | group =>
          Some ((default (0, 0%nat) (m !! k)).1 + foldr Z.add 0 (map Entry.score group),
                ((default (0%Z, 0%nat) (m !! k)).2 + length group)%nat)
      end).
  { rewrite G, lookup_empty. subst group.
    destruct (filter _ data); [reflexivity|]. simpl. do 2 f_equal. }
  clear group. induction data as [|e data IH]; intros m; [reflexivity|].
  simpl foldl. rewrite IH, filter_cons.
  destruct (default (0, 0%nat) (m !! key e)) as [total count] eqn:E.
  destruct (decide (key e = k)) as [Hk|Hne].
  - rewrite Hk in *. rewrite lookup_insert_eq. rewrite E. simpl.
    destruct (filter _ data) as [|e' rest]; simpl; f_equal; f_equal; lia.
  - rewrite lookup_insert_ne by done.
    destruct (filter _ data); reflexivity.
Qed.

Lemma averageOf_mean (total : Z) (count : nat) :
  (0 < count)%nat →
  averageOf (total, count) = JS.Int (Spec.roundDiv total (Z.of_nat count)).
Proof.
  intros H. unfold averageOf, JS.of_nat. simpl fst. simpl snd.
  destruct count as [|n]; [lia|].
  change (Z.of_nat (S n)) with (Z.pos (Pos.of_succ_nat n)).
  apply Math_round_div.
Qed.

Lemma sector_average (data : list Entry.t) (sector : string) :
  let group := filter (λ entry, Entry.sector entry = sector) data in
  calculateSectorAverages data !! sector
  = match group with
    | [] => None
    | _ :: _ =>
        Some (JS.Int (Spec.roundDiv (foldr Z.add 0 (map Entry.score group))
                                    (Z.of_nat (length group))))
    end.
Proof.
  intros group. unfold calculateSectorAverages.
  rewrite lookup_fmap, accumulate_lookup. fold group.
  destruct group as [|e group']; [reflexivity|].
  simpl fmap. f_equal. apply averageOf_mean. simpl. lia.
Qed.

Lemma position_count (data : list Entry.t) (position : string) :
  default 0%nat (calculatePositionDistribution data !! position)
  = length (filter (λ entry, Entry.position entry = position) data).
Proof. apply tally_lookup. Qed.



End Aggregator.

(** ** The CSV export *)

Module Csv.

Import Store DataExport.

(** *** Texts *)

Lemma has_app (c : ascii) (s t : string) :
  Spec.has c (s +:+ t) = Spec.has c s || Spec.has c t.
Proof.
  induction s as [|d s IH]; simpl; [reflexivity|].
  rewrite IH. apply orb_assoc.
Qed.

Lemma split_plain (c : ascii) (s : string) :
  Spec.has c s = false → Spec.split c s = [s].
Proof.
  induction s as [|d s IH]; simpl; [reflexivity|].
  intros H. apply orb_false_iff in H as [Hd Hs].
  rewrite Hd, (IH Hs). reflexivity.
Qed.

Lemma split_field (c : ascii) (s t : string) :
  Spec.has c s = false →
  Spec.split c (s +:+ String c t) = s :: Spec.split c t.
Proof.
  induction s as [|d s IH]; simpl.
  - intros _. rewrite Ascii.eqb_refl. reflexivity.
  - intros H. apply orb_false_iff in H as [Hd Hs].
    rewrite Hd, (IH Hs). reflexivity.
Qed.

Lemma split_join (c : ascii) (l : list string) :
  l ≠ [] →
  Forall (λ s, Spec.has c s = false) l →
  Spec.split c (JS.join (String c EmptyString) l) = l.
Proof.
  intros Hne Hl. induction Hl as [|s l Hs Hl IH]; [done|].
  destruct l as [|t l]; simpl.
  - by apply split_plain.
  - change (String c EmptyString +:+ ?x) with (String c x).
    rewrite split_field by done. f_equal. by apply IH.
Qed.

Lemma has_join (c d : ascii) (l : list string) :
  c ≠ d →
  Forall (λ s, Spec.has c s = false) l →
  Spec.has c (JS.join (String d EmptyString) l) = false.
Proof.
  intros Hcd Hl. induction Hl as [|s l Hs Hl IH]; [reflexivity|].
  destruct l as [|t l]; simpl; [done|].
  rewrite has_app, Hs. simpl.
  apply orb_false_iff. split; [by apply Ascii.eqb_neq|exact IH].
Qed.

(** *** Decimal digits *)

Lemma has_pretty_N_go (c : ascii) (x : N) (s : string) :
  Spec.symbol c → Spec.has c (pretty_N_go x s) = Spec.has c s.
Proof.
  intros Hc. revert s.
  induction (N.lt_wf_0 x) as [x _ IH]; intros s.
  destruct (decide (x = 0)%N) as [->|Hx]; [reflexivity|].
  rewrite pretty_N_go_step by lia.
  rewrite IH by (apply N.div_lt; lia). cbn [Spec.has].
  rewrite (proj2 (Ascii.eqb_neq _ _) (Hc _)). reflexivity.
Qed.

Lemma has_pretty (c : ascii) (z : Z) :
  Spec.symbol c → c ≠ "-"%char → Spec.has c (pretty z) = false.
Proof.
  intros Hc Hm. destruct z as [|p|p]; [| |].
  - change (pretty 0) with "0". cbn [Spec.has].
    pose proof (Hc 0%N) as H0. change (pretty_N_char 0) with "0"%char in H0.
    rewrite (proj2 (Ascii.eqb_neq _ _) H0). reflexivity.
  - change (pretty (Z.pos p)) with (pretty_N_go (N.pos p) "").
    by rewrite has_pretty_N_go.
  - change (pretty (Z.neg p)) with ("-" +:+ pretty_N_go (N.pos p) "").
    rewrite has_app, has_pretty_N_go by done. cbn [Spec.has].
    rewrite (proj2 (Ascii.eqb_neq "-"%char c)) by congruence. reflexivity.
Qed.

Lemma symbol_comma : Spec.symbol Spec.comma.
Proof. intros n. unfold pretty_N_char. repeat case_match; discriminate. Qed.

Lemma symbol_linefeed : Spec.symbol Spec.linefeed.
Proof. intros n. unfold pretty_N_char. repeat case_match; discriminate. Qed.

Lemma plain_pretty (z : Z) : Spec.plain (pretty z).
Proof.
  split; apply has_pretty;
    auto using symbol_comma, symbol_linefeed; discriminate.
Qed.

Lemma plain_app (s t : string) : Spec.plain s → Spec.plain t → Spec.plain (s +:+ t).
Proof.
  intros [Hs1 Hs2] [Ht1 Ht2]. split; rewrite has_app; by apply orb_false_iff.
Qed.

Lemma plain_zeros (k : nat) : Spec.plain (JS.zeros k).
Proof. induction k as [|k [IH1 IH2]]; split; simpl; auto. Qed.

Lemma plain_pad (w : nat) (z : Z) : Spec.plain (JS.pad w z).
Proof. apply plain_app; [apply plain_zeros|apply plain_pretty]. Qed.

Lemma toISOString_plain (t : Z) :
  Z.abs t ≤ 8640000000000000 →
  ∃ iso, JS.toISOString t = JS.Return iso ∧ Spec.plain iso.
Proof.
  intros Ht. unfold JS.toISOString.
  rewrite (proj2 (Z.leb_le _ _) Ht).
  destruct (JS.civil _) as [[y m] d].
  eexists. split; [reflexivity|].
  repeat first
    [ split; reflexivity
    | apply plain_pad
    | apply plain_app
    | case_match ].
Qed.


(** *** Rows *)

Lemma getGameSessionsData_doc (ls : localStorage) (records : list Research.t) :
  flai_research_data ls = Some (Doc records) →
  getGameSessionsData ls = map reshape records.
Proof. intros H. unfold getGameSessionsData. rewrite H. reflexivity. Qed.

Lemma find_map {A B} (f : A → B) (p : B → bool) (l : list A) :
  find p (map f l) = f <$> find (λ a, p (f a)) l.
Proof.
  induction l as [|a l IH]; simpl; [reflexivity|].
  destruct (p (f a)); [reflexivity|exact IH].
Qed.

Lemma decisionCell_recorded (session : Research.t) (i : Z) :
  decisionCell (reshape session) i = JS.Str (Spec.recorded session i).
Proof.
  unfold decisionCell, Spec.recorded, reshape; cbn [Session.decisions].
  rewrite find_map. cbn [Decision.scenario_id].
  destruct (find _ _); reflexivity.
Qed.

Lemma plain_recorded (session : Research.t) (i : Z) :
  Forall (λ a, Spec.plain (StoredAnswer.option_type a)) (Research.answers session) →
  Spec.plain (Spec.recorded session i).
Proof.
  intros H. unfold Spec.recorded.
  destruct (find _ _) as [a|] eqn:E; [|split; reflexivity].
  apply find_some in E as [Hin _]. rewrite Forall_forall in H.
  apply H, list_elem_of_In, Hin.
Qed.

Lemma plain_cell_of (n : option Z) : Spec.plain (JS.cell_toString (JS.cell_of n)).
Proof. destruct n; [apply plain_pretty|split; reflexivity]. Qed.

Lemma dataRow_rendered (session : Research.t) :
  Spec.exportable session →
  ∃ row, dataRow (reshape session) = JS.Return row
         ∧ Spec.rendered session (map JS.cell_toString row).
Proof.
  intros (Ht & Hid & Hs & Hp & Hr & He & Ha).
  unfold dataRow. cbn [reshape Session.timestamp].
  destruct (toISOString_plain _ Ht) as (iso & -> & Hiso).
  eexists. split; [reflexivity|]. split.
  - rewrite map_app, Forall_app. split.
    + simpl.
      repeat (apply Forall_cons_2;
              [first [ assumption | apply plain_pretty | apply plain_cell_of ]|]).
      apply Forall_nil_2.
    + rewrite map_map. apply Forall_map, Forall_forall. intros i _.
      rewrite decisionCell_recorded. by apply plain_recorded.
  - intros i Hi. rewrite map_app, map_map.
    rewrite lookup_app_r by (simpl; lia).
    replace (Z.to_nat (12 + i) - length _)%nat with (Z.to_nat (i - 1)) by (simpl; lia).
    rewrite list_lookup_fmap, lookup_seqZ_lt by lia. simpl.
    rewrite decisionCell_recorded. simpl. do 2 f_equal. lia.
Qed.

Lemma dataRows_rendered (records : list Research.t) :
  Forall Spec.exportable records →
  ∃ rows, dataRows (map reshape records) = JS.Return rows
          ∧ Forall2 (λ session row, Spec.rendered session (map JS.cell_toString row))
                    records rows.
Proof.
  induction 1 as [|session records Hs _ (rows & Hrows & IH)]; simpl.
  - eexists. split; [reflexivity|constructor].
  - destruct (dataRow_rendered session Hs) as (row & -> & Hrow).
    rewrite Hrows. eexists. split; [reflexivity|]. by constructor.
Qed.

(** *** The text *)

Lemma header_rendered :
  Forall Spec.plain (map JS.cell_toString header)
  ∧ ∀ i, 1 ≤ i ≤ 10 →
         map JS.cell_toString header !! Z.to_nat (12 + i)
         = Some ("scenario_" +:+ pretty i).
Proof.
  split.
  - repeat constructor.
  - intros i Hi.
    assert (i = 1 ∨ i = 2 ∨ i = 3 ∨ i = 4 ∨ i = 5
            ∨ i = 6 ∨ i = 7 ∨ i = 8 ∨ i = 9 ∨ i = 10) as Hcases by lia.
    repeat destruct Hcases as [->|Hcases]; try subst i; reflexivity.
Qed.

Lemma csvField_content (lines : list (list string)) (k column : nat)
    (cells : list string) (field : string) :
  Forall (Forall Spec.plain) lines →
  lines !! k = Some cells →
  cells !! column = Some field →
  Spec.csvField (JS.join JS.newline (map (JS.join ",") lines)) k column = Some field.
Proof.
  intros Hplain Hk Hc. unfold Spec.csvField.
  assert (Hne : lines ≠ []) by (intros ->; discriminate).
  change JS.newline with (String Spec.linefeed EmptyString).
  rewrite split_join.
  - rewrite list_lookup_fmap, Hk. simpl.
    change "," with (String Spec.comma EmptyString).
    rewrite split_join; [exact Hc|intros ->; discriminate|].
    rewrite Forall_lookup in Hplain. specialize (Hplain _ _ Hk).
    eapply Forall_impl; [exact Hplain|]. by intros s [? _].
  - destruct lines; [done|discriminate].
  - apply Forall_map. eapply Forall_impl; [exact Hplain|].
    intros cs Hcs. apply has_join; [discriminate|].
    eapply Forall_impl; [exact Hcs|]. by intros s [_ ?].
Qed.

(** C9, as amended.  When the stored sessions are a non-empty list, each
    with a time stamp in the range of time values and with texts (session id,
    sector, position, region, experience, decision types) free of commas and
    line breaks, [downloadCSV] produces a text whose first line names
    scenario_1 .. scenario_10 in columns 14..23 and whose line for each
    session holds, in those columns, the decision type recorded for that
    scenario, or the empty text when none is recorded. *)
Theorem csv_round_trip (ls : localStorage) (records : list Research.t) :
  flai_research_data ls = Some (Doc records) →
  records ≠ [] →
  Forall Spec.exportable records →
  ∃ csv,
    downloadCSV ls = JS.Return (Some csv)
    ∧ ∀ i, 1 ≤ i ≤ 10 →
        Spec.csvField csv 0 (Z.to_nat (12 + i)) = Some ("scenario_" +:+ pretty i)
        ∧ ∀ k session,
            records !! k = Some session →
            Spec.csvField csv (S k) (Z.to_nat (12 + i)) = Some (Spec.recorded session i).
Proof.
  intros Hdoc Hne Hexp. unfold downloadCSV.
  rewrite (getGameSessionsData_doc ls records Hdoc).
  destruct (dataRows_rendered records Hexp) as (rows & Hrows & Hall).
  rewrite Hrows. rewrite length_map.
  destruct records as [|r0 records']; [done|]. simpl Nat.eqb. cbv iota.
  set (records := r0 :: records') in *.
  eexists. split; [reflexivity|].
  unfold csvContent. rewrite <- map_map.
  destruct header_rendered as [Hh1 Hh2].
  assert (Hplain : Forall (Forall Spec.plain) (map (map JS.cell_toString) (header :: rows))).
  { constructor; [exact Hh1|]. apply Forall_map.
    clear -Hall. induction Hall as [|? ? ? ? [H _] _ IH]; constructor; auto. }
  intros i Hi. split.
  - eapply csvField_content; [exact Hplain|reflexivity|by apply Hh2].
  - intros k session Hk.
    destruct (Forall2_lookup_l _ _ _ _ _ Hall Hk) as (row & Hrow & [_ Hcells]).
    eapply csvField_content; [exact Hplain| |by apply Hcells].
    simpl. rewrite list_lookup_fmap, Hrow. reflexivity.
Qed.

(** C9 at the sample storage, after one saved game. *)
Lemma csv_round_trip_witness :
  ∃ csv,
    downloadCSV Sample.savedOnce = JS.Return (Some csv)
    ∧ Spec.csvField csv 0 13 = Some "scenario_1"
    ∧ Spec.csvField csv 1 13 = Some "consultation".
Proof.
  assert (Hdoc : flai_research_data Sample.savedOnce = Some (Doc Sample.savedRecords))
    by (vm_compute; reflexivity).
  assert (Hne : Sample.savedRecords ≠ []) by (vm_compute; discriminate).
  assert (Hrecords : ∃ session, Sample.savedRecords = [session]
                                ∧ Spec.recorded session 1 = "consultation"
                                ∧ Spec.exportable session).
  { eexists. split; [vm_compute; reflexivity|]. split; [vm_compute; reflexivity|].
    unfold Spec.exportable; cbn.
    split; [lia|].
    repeat first [ apply Forall_cons_2 | apply Forall_nil_2 | split | reflexivity ]. }
  destruct Hrecords as (session & Hrecords & Hrecorded & Hexportable).
  assert (Hexp : Forall Spec.exportable Sample.savedRecords).
  { rewrite Hrecords. apply Forall_cons_2; [exact Hexportable|apply Forall_nil_2]. }
  destruct (csv_round_trip Sample.savedOnce Sample.savedRecords Hdoc Hne Hexp)
    as (csv & Hcsv & Hcolumns).
  destruct (Hcolumns 1 ltac:(lia)) as [Hheader Hrow].
  exists csv. split; [exact Hcsv|]. split; [exact Hheader|].
  rewrite <- Hrecorded. apply (Hrow 0%nat). rewrite Hrecords. reflexivity.
Defined.

(** C9 refuted as stated: a session whose sector is the text
    "banca, seguros" is exported on a line whose scenario_1 column (the 14th)
    holds the count of risky decisions, not the decision type recorded for
    scenario 1. *)
Lemma csv_comma_shifts_columns :
  ∃ csv session,
    flai_research_data Sample.commaStorage = Some (Doc [session])
    ∧ downloadCSV Sample.commaStorage = JS.Return (Some csv)
    ∧ Spec.csvField csv 0 13 = Some "scenario_1"
    ∧ Spec.recorded session 1 = "consultation"
    ∧ Spec.csvField csv 1 13 = Some "0"
    ∧ Spec.csvField csv 1 13 ≠ Some (Spec.recorded session 1).
Proof.
  eexists _, _.
  split; [vm_compute; reflexivity|].
  split; [vm_compute; reflexivity|].
  split; [vm_compute; reflexivity|].
  split; [vm_compute; reflexivity|].
  split; [vm_compute; reflexivity|].
  vm_compute. discriminate.
Qed.

End Csv.

(** ** The ingestion endpoint *)

Module Endpoint.

Import Ingest.










End Endpoint.

(** ** The leaderboard, further *)

Module Ranks.

Import Store Stored Leaderboard Ranking.

Lemma findIndex_Some {A} (p : A → bool) (l : list A) (i : nat) :
  findIndex p l = Some i →
  ∃ x, l !! i = Some x ∧ p x = true
       ∧ ∀ j y, (j < i)%nat → l !! j = Some y → p y = false.
Proof.
  revert i. induction l as [|a l IH]; intros i; simpl; [discriminate|].
  destruct (p a) eqn:Hp.
  - intros [= <-]. exists a. split; [reflexivity|]. split; [exact Hp|]. intros; lia.
  - destruct (findIndex p l) as [k|]; simpl; [|discriminate].
    intros [= <-]. destruct (IH k eq_refl) as (x & Hx & Hpx & Hbefore).
    exists x. split; [exact Hx|]. split; [exact Hpx|].
    intros [|j] y Hj; simpl; [congruence|]. apply Hbefore. lia.
Qed.

Lemma findIndex_None {A} (p : A → bool) (l : list A) :
  findIndex p l = None → Forall (λ x, p x = false) l.
Proof.
  induction l as [|a l IH]; simpl; [constructor|].
  destruct (p a) eqn:Hp; [discriminate|].
  destruct (findIndex p l); simpl; [discriminate|].
  intros _. constructor; auto.
Qed.

Lemma getLeaderboardData_total (ls : localStorage) :
  flai_leaderboard ls ≠ Some Null → ∃ l, getLeaderboardData ls = Some l.
Proof.
  intros Hnull. unfold getLeaderboardData.
  destruct (flai_leaderboard ls) as [[s| |v]|]; simpl; eauto; [|congruence].
  destruct (negb _); simpl; eauto.
Qed.

Lemma addEntry_inv (h : Host) (gameData : GameData.t) (ls ls' : localStorage)
    (position : option nat) :
  addEntry h gameData ls = JS.Return (ls', position) →
  ∃ l0, getLeaderboardData ls = Some l0
    ∧ let l := take maxEntries (JS.sort compareEntries (l0 ++ [newEntry h gameData])) in
      ls' = saveLeaderboardData h l ls
      ∧ position = S <$> findIndex (λ entry, bool_decide (Entry.id entry = Some (generateId h))) l.
Proof.
  unfold addEntry. destruct (getLeaderboardData ls) as [l0|]; [|discriminate].
  unfold findUserPosition. rewrite Aggregator.getLeaderboardData_set. simpl.
  intros [= <- <-]. eauto.
Qed.

(** X1.  When [getLeaderboardData] returns a list of rows, [addEntry]
    returns, and what it persists is the stored rows with the new row, sorted
    by score descending, ties most recent first, and cut to 100: the list is
    sorted whether or not the stored one was, holds one row more than the
    stored list, up to 100, and each of its rows is a stored row or the new
    one. *)
Theorem addEntry_persists_ranked (h : Host) (gameData : GameData.t)
    (ls : localStorage) (l0 : list Entry.t) :
  getLeaderboardData ls = Some l0 →
  ∃ ls' position l,
    addEntry h gameData ls = JS.Return (ls', position)
    ∧ flai_leaderboard ls' = Some (Doc l)
    ∧ l = take 100 (JS.sort compareEntries (l0 ++ [newEntry h gameData]))
    ∧ Spec.sortedLeaderboard l
    ∧ length l = (100 `min` S (length l0))%nat
    ∧ ∀ entry, entry ∈ l → entry ∈ l0 ∨ entry = newEntry h gameData.
Proof.
  intros Hl0.
  destruct (Aggregator.addEntry_persists h gameData ls l0 Hl0) as [position Hadd].
  eexists _, position, _. split; [exact Hadd|].
  split; [reflexivity|]. split; [reflexivity|]. split.
  { apply Aggregator.StronglySorted_take, Aggregator.addEntry_sort_ranked. }
  split.
  { rewrite length_take, Aggregator.sort_length, length_app. unfold maxEntries.
    simpl length. lia. }
  intros entry Hin.
  apply subseteq_take in Hin.
  rewrite (Aggregator.sort_Permutation compareEntries) in Hin.
  apply elem_of_app in Hin as [Hin|Hin]; [left; exact Hin|right].
  apply list_elem_of_singleton in Hin. exact Hin.
Qed.

(** X4.  The position [addEntry] returns is the 1-based index of the first
    stored row that carries the id generated during the call, at most 100;
    it is [null] only when no stored row carries that id, which requires
    that 100 rows were stored before: the new row was cut off. *)
Theorem addEntry_position (h : Host) (gameData : GameData.t) (ls ls' : localStorage)
    (position : option nat) :
  addEntry h gameData ls = JS.Return (ls', position) →
  ∃ l0 l,
    getLeaderboardData ls = Some l0
    ∧ flai_leaderboard ls' = Some (Doc l)
    ∧ match position with
      | Some p =>
          (1 ≤ p ≤ 100)%nat
          ∧ ∃ e, l !! (p - 1)%nat = Some e
                 ∧ Entry.id e = Some (generateId h)
                 ∧ ∀ i e', (i < p - 1)%nat → l !! i = Some e' →
                           Entry.id e' ≠ Some (generateId h)
      | None =>
          (100 ≤ length l0)%nat
          ∧ ∀ e, e ∈ l → Entry.id e ≠ Some (generateId h)
      end.
Proof.
  intros Hadd. destruct (addEntry_inv _ _ _ _ _ Hadd) as (l0 & Hl0 & Hls & Hpos).
  simpl in Hls, Hpos.
  exists l0, (take maxEntries (JS.sort compareEntries (l0 ++ [newEntry h gameData]))).
  split; [exact Hl0|]. split; [rewrite Hls; reflexivity|].
  set (l := take maxEntries _) in *.
  destruct (findIndex _ l) as [i|] eqn:Hfind; simpl in Hpos; subst position.
  - apply findIndex_Some in Hfind as (x & Hx & Hpx & Hbefore).
    assert (i < 100)%nat.
    { apply lookup_lt_Some in Hx. subst l. rewrite length_take in Hx.
      unfold maxEntries in Hx. lia. }
    split; [lia|]. replace (S i - 1)%nat with i by lia.
    exists x. split; [exact Hx|]. split.
    + apply bool_decide_eq_true in Hpx. exact Hpx.
    + intros j y Hj Hy. specialize (Hbefore j y Hj Hy).
      apply bool_decide_eq_false in Hbefore. exact Hbefore.
  - apply findIndex_None in Hfind.
    assert (Hall : ∀ e, e ∈ l → Entry.id e ≠ Some (generateId h)).
    { intros e He. rewrite Forall_forall in Hfind. specialize (Hfind e He).
      apply bool_decide_eq_false in Hfind. exact Hfind. }
    split; [|exact Hall].
    destruct (decide (100 ≤ length l0)%nat) as [|Hshort]; [assumption|].
    exfalso. apply (Hall (newEntry h gameData)); [|reflexivity].
    subst l. rewrite take_ge.
    + rewrite (Aggregator.sort_Permutation compareEntries _).
      apply elem_of_app. right. apply list_elem_of_here.
    + rewrite Aggregator.sort_length, length_app. unfold maxEntries. simpl. lia.
Qed.

Lemma tally_key `{Countable K} {A} (key : A → K) (data : list A) (k : K)
    (m : gmap K nat) :
  default 0%nat (foldl (λ distribution entry, bump (key entry) distribution) m data !! k)
  = (default 0 (m !! k) + length (filter (λ entry, key entry = k) data))%nat.
Proof.
  revert m. induction data as [|e data IH]; intros m; simpl; [lia|].
  rewrite IH. unfold bump. rewrite lookup_insert, filter_cons.
  destruct (decide (key e = k)) as [->|Hne]; simpl; lia.
Qed.

Lemma tally_present `{Countable K} {A} (key : A → K) (data : list A) (k : K)
    (m : gmap K nat) :
  is_Some (m !! k) →
  is_Some (foldl (λ distribution entry, bump (key entry) distribution) m data !! k).
Proof.
  revert m. induction data as [|e data IH]; intros m Hm; simpl; [exact Hm|].
  apply IH. unfold bump. rewrite lookup_insert. case_decide; eauto.
Qed.

Lemma tally_dom `{Countable K} {A} (key : A → K) (data : list A) (m : gmap K nat) :
  (∀ a, a ∈ data → key a ∈ dom m) →
  dom (foldl (λ distribution entry, bump (key entry) distribution) m data) = dom m.
Proof.
  revert m. induction data as [|e data IH]; intros m Hm; simpl; [reflexivity|].
  assert (Hdom : dom (bump (key e) m) = dom m).
  { unfold bump. rewrite dom_insert_L. apply subseteq_union_1_L.
    apply singleton_subseteq_l, Hm. left. }
  rewrite IH; [exact Hdom|].
  intros a Ha. rewrite Hdom. apply Hm. right. exact Ha.
Qed.

Lemma scoreRange_cases (score : Z) :
  scoreRange score = "90-100" ∧ 90 ≤ score
  ∨ scoreRange score = "80-89" ∧ 80 ≤ score < 90
  ∨ scoreRange score = "70-79" ∧ 70 ≤ score < 80
  ∨ scoreRange score = "60-69" ∧ 60 ≤ score < 70
  ∨ scoreRange score = "50-59" ∧ 50 ≤ score < 60
  ∨ scoreRange score = "0-49" ∧ score < 50.
Proof.
  unfold scoreRange.
  destruct (Z.leb_spec 90 score); [tauto|].
  destruct (Z.leb_spec 80 score); [tauto|].
  destruct (Z.leb_spec 70 score); [tauto|].
  destruct (Z.leb_spec 60 score); [tauto|].
  destruct (Z.leb_spec 50 score); tauto.
Qed.

(** *** The histogram *)

Lemma histogram_lookup (data : list Entry.t) (k : string) :
  k ∈ ["90-100"; "80-89"; "70-79"; "60-69"; "50-59"; "0-49"] →
  calculateScoreDistribution data !! k
  = Some (length (filter (λ e, scoreRange (Entry.score e) = k) data)).
Proof.
  intros Hk. unfold calculateScoreDistribution.
  pose proof (tally_key (λ e, scoreRange (Entry.score e)) data k
    (<["90-100" := 0%nat]> (<["80-89" := 0%nat]> (<["70-79" := 0%nat]>
    (<["60-69" := 0%nat]> (<["50-59" := 0%nat]> (<["0-49" := 0%nat]> ∅))))))) as Hcount.
  pose proof (tally_present (λ e, scoreRange (Entry.score e)) data k
    (<["90-100" := 0%nat]> (<["80-89" := 0%nat]> (<["70-79" := 0%nat]>
    (<["60-69" := 0%nat]> (<["50-59" := 0%nat]> (<["0-49" := 0%nat]> ∅))))))) as Hsome.
  assert (Hzero :
    (<["90-100" := 0%nat]> (<["80-89" := 0%nat]> (<["70-79" := 0%nat]>
    (<["60-69" := 0%nat]> (<["50-59" := 0%nat]> (<["0-49" := 0%nat]> (∅ : gmap string nat)))))))
      !! k = Some 0%nat).
  { repeat (apply elem_of_cons in Hk as [->|Hk]; [reflexivity|]).
    apply elem_of_nil in Hk. contradiction. }
  rewrite Hzero in Hcount, Hsome. destruct Hsome as [n Hn]; [eauto|].
  simpl in *. rewrite Hn in Hcount |- *. simpl in Hcount. congruence.
Qed.

(** X5.  [calculateScoreDistribution] returns exactly the six keys, also for
    an empty list; each holds the number of scores in its range, where
    ["90-100"] takes every score from 90 up and ["0-49"] every score below
    50; the six counts add up to the number of entries. *)
Theorem score_distribution_histogram (data : list Entry.t) :
  let d := calculateScoreDistribution data in
  let scores := map Entry.score data in
  dom d = list_to_set ["90-100"; "80-89"; "70-79"; "60-69"; "50-59"; "0-49"]
  ∧ d !! "90-100" = Some (length (filter (λ s, 90 ≤ s) scores))
  ∧ d !! "80-89" = Some (length (filter (λ s, 80 ≤ s < 90) scores))
  ∧ d !! "70-79" = Some (length (filter (λ s, 70 ≤ s < 80) scores))
  ∧ d !! "60-69" = Some (length (filter (λ s, 60 ≤ s < 70) scores))
  ∧ d !! "50-59" = Some (length (filter (λ s, 50 ≤ s < 60) scores))
  ∧ d !! "0-49" = Some (length (filter (λ s, s < 50) scores))
  ∧ (default 0 (d !! "90-100") + default 0 (d !! "80-89") + default 0 (d !! "70-79")
     + default 0 (d !! "60-69") + default 0 (d !! "50-59") + default 0 (d !! "0-49")
     = length data)%nat.
Proof.
  intros d scores. subst d scores.
  assert (Hrange : ∀ k (P : Z → Prop) `{!∀ z, Decision (P z)},
    k ∈ ["90-100"; "80-89"; "70-79"; "60-69"; "50-59"; "0-49"] →
    (∀ s, scoreRange s = k ↔ P s) →
    calculateScoreDistribution data !! k
    = Some (length (filter P (map Entry.score data)))).
  { intros k P HP Hk Hiff. rewrite histogram_lookup by exact Hk.
    f_equal. clear Hk. induction data as [|e data IH]; [reflexivity|].
    simpl map. rewrite !filter_cons.
    destruct (decide (scoreRange (Entry.score e) = k)) as [Hy|Hn];
      destruct (decide (P (Entry.score e))) as [Hp|Hp]; simpl; rewrite ?IH; try reflexivity.
    - apply Hiff in Hy. contradiction.
    - apply Hiff in Hp. contradiction. }
  assert (Hcases : ∀ k (P : Z → Prop),
    (∀ s, scoreRange s = k → P s) →
    (∀ s k', scoreRange s = k' → k' ≠ k → ¬ P s) →
    ∀ s, scoreRange s = k ↔ P s).
  { intros k P Hyes Hno s. split; [apply Hyes|].
    intros Hp. destruct (decide (scoreRange s = k)) as [|Hne]; [assumption|].
    destruct (Hno s _ eq_refl Hne Hp). }
  rewrite (Hrange "90-100" (λ s, 90 ≤ s) _), (Hrange "80-89" (λ s, 80 ≤ s < 90) _),
    (Hrange "70-79" (λ s, 70 ≤ s < 80) _), (Hrange "60-69" (λ s, 60 ≤ s < 70) _),
    (Hrange "50-59" (λ s, 50 ≤ s < 60) _), (Hrange "0-49" (λ s, s < 50) _).
  all: try (repeat first [ apply list_elem_of_here | apply list_elem_of_further ]).
  all: try (apply Hcases;
    [ intros s; destruct (scoreRange_cases s)
        as [[E ?]|[[E ?]|[[E ?]|[[E ?]|[[E ?]|[E ?]]]]]]; rewrite E;
      intros; first [ lia | discriminate ]
    | intros s k' <-; destruct (scoreRange_cases s)
        as [[E ?]|[[E ?]|[[E ?]|[[E ?]|[[E ?]|[E ?]]]]]]; rewrite E;
      intros; first [ lia | congruence ] ]).
  split.
  { unfold calculateScoreDistribution. rewrite tally_dom.
    - rewrite !dom_insert_L, dom_empty_L. simpl. reflexivity.
    - intros a _. rewrite !dom_insert_L, dom_empty_L.
      destruct (scoreRange_cases (Entry.score a))
        as [[-> _]|[[-> _]|[[-> _]|[[-> _]|[[-> _]|[-> _]]]]]];
        rewrite !elem_of_union, !elem_of_singleton; tauto. }
  repeat (split; [reflexivity|]).
  simpl default. clear.
  induction data as [|e data IH]; [reflexivity|].
  simpl map. rewrite !filter_cons. simpl length. rewrite <- IH.
  repeat case_decide; simpl length; lia.
Qed.

Lemma foldl_scores (data : list Entry.t) (z : Z) :
  foldl (λ sum entry, sum + Entry.score entry) z data
  = z + foldr Z.add 0 (map Entry.score data).
Proof.
  revert z. induction data as [|e data IH]; intros z; simpl; [lia|].
  rewrite IH. lia.
Qed.

Lemma sum_scores_bounds (data : list Entry.t) (lo hi : Z) :
  Forall (λ e, lo ≤ Entry.score e ≤ hi) data →
  lo * Z.of_nat (length data) ≤ foldr Z.add 0 (map Entry.score data)
    ≤ hi * Z.of_nat (length data).
Proof.
  induction 1 as [|e data He _ IH]; simpl length; simpl foldr; [lia|].
  rewrite Nat2Z.inj_succ. simpl map. simpl foldr. lia.
Qed.

Lemma roundDiv_spec (x y : Z) :
  0 < y →
  let m := Spec.roundDiv x y in
  2 * m * y - y ≤ 2 * x < 2 * m * y + y.
Proof.
  intros Hy m. subst m. unfold Spec.roundDiv.
  pose proof (Z.div_mod (2 * x + y) (2 * y) ltac:(lia)) as Hdm.
  pose proof (Z.mod_pos_bound (2 * x + y) (2 * y) ltac:(lia)) as Hm.
  nia.
Qed.

Lemma calculateAverageScore_eq (data : list Entry.t) :
  data ≠ [] →
  calculateAverageScore data
  = JS.Int (Spec.roundDiv (foldr Z.add 0 (map Entry.score data))
                          (Z.of_nat (length data))).
Proof.
  intros Hne. unfold calculateAverageScore.
  destruct data as [|e data]; [congruence|].
  replace (length (e :: data) =? 0)%nat with false by reflexivity.
  rewrite foldl_scores, Z.add_0_l. unfold JS.of_nat.
  change (Z.of_nat (length (e :: data))) with (Z.pos (Pos.of_succ_nat (length data))).
  apply Math_round_div.
Qed.

(** X6.  [calculateAverageScore] of a list that is not empty is the integer
    nearest to the mean of the scores, halves upwards, and lies between
    any two bounds of the scores. *)
Theorem average_score_rounded_mean (data : list Entry.t) (lo hi : Z) :
  data ≠ [] →
  Forall (λ e, lo ≤ Entry.score e ≤ hi) data →
  let n := Z.of_nat (length data) in
  let total := foldr Z.add 0 (map Entry.score data) in
  ∃ m, calculateAverageScore data = JS.Int m
       ∧ 2 * m * n - n ≤ 2 * total < 2 * m * n + n
       ∧ lo ≤ m ≤ hi.
Proof.
  intros Hne Hall n total.
  assert (Hn : 0 < n) by (subst n; destruct data; [congruence|simpl; lia]).
  exists (Spec.roundDiv total n).
  assert (Hspec := roundDiv_spec total n Hn). cbv zeta in Hspec.
  assert (Hsum := sum_scores_bounds data lo hi Hall). fold n total in Hsum.
  split; [apply calculateAverageScore_eq, Hne|].
  split; [exact Hspec|nia].
Qed.

Lemma floor_mul_range (x : Q) (n : Z) :
  (0 <= x)%Q → (x < 1)%Q → 0 < n → 0 ≤ JS.floor_mul x n < n.
Proof.
  intros H0 H1 Hn. unfold JS.floor_mul. split.
  - change 0 with (Qfloor (inject_Z 0)). apply Qfloor_resp_le.
    change (inject_Z 0) with (0 * inject_Z n)%Q.
    apply Qmult_le_compat_r; [exact H0|].
    change 0%Q with (inject_Z 0). rewrite <- Zle_Qle. lia.
  - assert (Hlt : (x * inject_Z n < inject_Z n)%Q).
    { apply Qlt_le_trans with (1 * inject_Z n)%Q.
      - apply Qmult_lt_compat_r; [|exact H1].
        change 0%Q with (inject_Z 0). rewrite <- Zlt_Qlt. lia.
      - rewrite Qmult_1_l. apply Qle_refl. }
    pose proof (Qfloor_le (x * inject_Z n)) as Hfl.
    apply Z.lt_nge. intros Hge. rewrite Zle_Qle in Hge.
    apply (Qlt_irrefl (inject_Z n)).
    eapply Qle_lt_trans; [exact Hge|].
    eapply Qle_lt_trans; [exact Hfl|exact Hlt].
Qed.

Lemma element_in_range (arr : list string) (i : Z) :
  0 ≤ i < Z.of_nat (length arr) → element arr i ∈ arr.
Proof.
  intros Hi. unfold element.
  destruct (Z.ltb_spec i 0); [lia|].
  destruct (arr !! Z.to_nat i) as [s|] eqn:E.
  - simpl. eapply list_elem_of_lookup_2. exact E.
  - apply lookup_ge_None in E. lia.
Qed.

(** X7.  With both random draws at least 0 and below 1,
    [generateAnonymousName] returns one of the 25 first names, a space and
    one of the 26 initials. *)
Theorem anonymous_name_from_lists (h : Host) :
  (0 <= random_first h)%Q → (random_first h < 1)%Q →
  (0 <= random_last h)%Q → (random_last h < 1)%Q →
  ∃ firstName lastInitial,
    firstName ∈ firstNames ∧ lastInitial ∈ lastInitials
    ∧ generateAnonymousName h = firstName +:+ " " +:+ lastInitial.
Proof.
  intros Hf0 Hf1 Hl0 Hl1. unfold generateAnonymousName.
  eexists _, _. split; [|split; [|reflexivity]].
  - apply element_in_range, floor_mul_range; [assumption..|]. simpl. lia.
  - apply element_in_range, floor_mul_range; [assumption..|]. simpl. lia.
Qed.

(** X8.  [getEntriesByDay] counts under day [d] the entries whose age lies in
    [d] days (inclusive) to [d + 1] days (exclusive), also for a negative
    [d], the entries stamped in the future; [getPeakHours] counts under each
    hour the entries stamped in that local hour. *)
Theorem temporal_patterns_buckets (h : Host) (data : list Entry.t) :
  (∀ d : Z,
     default 0%nat (getEntriesByDay h data !! d)
     = length (filter (λ entry,
                         86400000 * d ≤ Date_now h - Entry.timestamp entry
                                      < 86400000 * (d + 1)) data))
  ∧ (∀ hour : Z,
       default 0%nat (getPeakHours h data !! hour)
       = length (filter (λ entry, getHours h (Entry.timestamp entry) = hour) data)).
Proof.
  split.
  - intros d. unfold getEntriesByDay.
    rewrite (tally_key (λ entry, (Date_now h - Entry.timestamp entry) / (24 * 60 * 60 * 1000))).
    rewrite lookup_empty. simpl. f_equal. apply list_filter_iff. intros e.
    change (24 * 60 * 60 * 1000) with 86400000.
    pose proof (Z.div_mod (Date_now h - Entry.timestamp e) 86400000 ltac:(lia)).
    pose proof (Z.mod_pos_bound (Date_now h - Entry.timestamp e) 86400000 ltac:(lia)).
    split; intros; nia.
  - intros hour. unfold getPeakHours.
    rewrite (tally_key (λ entry, getHours h (Entry.timestamp entry))).
    rewrite lookup_empty. reflexivity.
Qed.

Lemma reads_stored_list (ls : localStorage) (l : list Entry.t) :
  flai_leaderboard ls = Some (Doc l) → getLeaderboardData ls = Some l.
Proof. intros H. unfold getLeaderboardData. rewrite H. reflexivity. Qed.

Lemma StronglySorted_filter {A} (R : relation A) (P : A → Prop)
    `{!∀ x, Decision (P x)} (l : list A) :
  StronglySorted R l → StronglySorted R (filter P l).
Proof.
  induction 1 as [|a l _ IH Ha]; [constructor|].
  rewrite filter_cons. destruct (decide (P a)); [|exact IH].
  constructor; [exact IH|].
  rewrite Forall_forall in Ha |- *. intros x Hx.
  apply list_elem_of_filter in Hx as [_ Hx]. auto.
Qed.

(** The first [limit] members of a group of a sorted list are the best of
    the group. *)
Lemma top_of_group {A} (R : relation A) (P : A → Prop) `{!∀ x, Decision (P x)}
    (limit : nat) (l : list A) :
  StronglySorted R l →
  let r := take limit (filter P l) in
  r `sublist_of` l
  ∧ Forall P r
  ∧ (length r ≤ limit)%nat
  ∧ StronglySorted R r
  ∧ ∀ e, e ∈ l → P e → e ∉ r → length r = limit ∧ Forall (λ k, R k e) r.
Proof.
  intros Hsorted r. subst r.
  assert (Hf := StronglySorted_filter R P l Hsorted).
  split; [etransitivity; [apply sublist_take|apply sublist_filter]|].
  split.
  { apply Forall_take, Forall_forall. intros x Hx.
    apply list_elem_of_filter in Hx as [Hx _]. exact Hx. }
  split; [rewrite length_take; lia|].
  split; [apply Aggregator.StronglySorted_take, Hf|].
  intros e He HP Hout.
  assert (Hin : e ∈ filter P l) by (apply list_elem_of_filter; auto).
  rewrite <- (take_drop limit (filter P l)) in Hin, Hf.
  apply elem_of_app in Hin as [Hin|Hin]; [contradiction|].
  split.
  - rewrite length_take. apply Nat.min_l.
    destruct (decide (limit ≤ length (filter P l))%nat) as [|Hshort]; [assumption|].
    rewrite drop_ge in Hin by lia. apply elem_of_nil in Hin. contradiction.
  - apply Forall_forall. intros k Hk.
    eapply StronglySorted_app_1_elem_of; eauto.
Qed.

(** X9.  On a stored list sorted by score, [getPlayersBySector] and
    [getPlayersByRegion] return at most [limit] rows of the group, in stored
    order and so sorted by score; a row of the group that is left out means
    that [limit] rows were returned, none of them with a lower score. *)
Theorem players_by_group_are_top (limit : nat) (ls : localStorage) (l : list Entry.t)
    (sector region : string) :
  flai_leaderboard ls = Some (Doc l) →
  Spec.sortedByScore l →
  ∃ bySector byRegion,
    getPlayersBySector sector limit ls = JS.Return bySector
    ∧ getPlayersByRegion region limit ls = JS.Return byRegion
    ∧ (bySector `sublist_of` l
       ∧ Forall (λ e, Entry.sector e = sector) bySector
       ∧ (length bySector ≤ limit)%nat
       ∧ Spec.sortedByScore bySector
       ∧ ∀ e, e ∈ l → Entry.sector e = sector → e ∉ bySector →
              length bySector = limit
              ∧ Forall (λ k, Entry.score e ≤ Entry.score k) bySector)
    ∧ (byRegion `sublist_of` l
       ∧ Forall (λ e, Entry.region e = region) byRegion
       ∧ (length byRegion ≤ limit)%nat
       ∧ Spec.sortedByScore byRegion
       ∧ ∀ e, e ∈ l → Entry.region e = region → e ∉ byRegion →
              length byRegion = limit
              ∧ Forall (λ k, Entry.score e ≤ Entry.score k) byRegion).
Proof.
  intros Hdoc Hsorted.
  unfold getPlayersBySector, getPlayersByRegion.
  rewrite (reads_stored_list ls l Hdoc).
  eexists _, _. split; [reflexivity|]. split; [reflexivity|]. split.
  - exact (top_of_group _ (λ e, Entry.sector e = sector) limit l Hsorted).
  - exact (top_of_group _ (λ e, Entry.region e = region) limit l Hsorted).
Qed.

(** X10.  After [addEntry] the analytics key describes the list stored by the
    same call: its length, the rounded mean of its scores, its histogram and,
    for every sector and region name that is not inherited from
    [Object.prototype], the number of its rows; the research data are not
    touched. *)
Theorem addEntry_refreshes_analytics (h : Host) (gameData : GameData.t)
    (ls ls' : localStorage) (position : option nat) :
  addEntry h gameData ls = JS.Return (ls', position) →
  ∃ l a,
    flai_leaderboard ls' = Some (Doc l)
    ∧ flai_analytics ls' = Some (Doc a)
    ∧ flai_research_data ls' = flai_research_data ls
    ∧ l ≠ []
    ∧ Analytics.total_players a = length l
    ∧ Analytics.average_score a
      = Some (Spec.roundDiv (foldr Z.add 0 (map Entry.score l)) (Z.of_nat (length l)))
    ∧ (∀ sector, ordinary sector →
                 default 0%nat (Analytics.sector_distribution a !! sector)
                 = length (filter (λ e, Entry.sector e = sector) l))
    ∧ (∀ region, ordinary region →
                 default 0%nat (Analytics.region_distribution a !! region)
                 = length (filter (λ e, Entry.region e = region) l))
    ∧ Analytics.score_distribution a = calculateScoreDistribution l
    ∧ Analytics.last_updated a = Date_now h.
Proof.
  intros Hadd. destruct (addEntry_inv _ _ _ _ _ Hadd) as (l0 & Hl0 & Hls & _).
  cbv zeta in Hls. subst ls'.
  set (l := take maxEntries (JS.sort compareEntries (l0 ++ [newEntry h gameData]))).
  assert (Hne : l ≠ []).
  { subst l. intros Hnil. apply (f_equal length) in Hnil.
    rewrite length_take, Aggregator.sort_length, length_app in Hnil.
    unfold maxEntries in Hnil. simpl length in Hnil. lia. }
  eexists l, _. split; [reflexivity|]. split; [reflexivity|].
  split; [reflexivity|]. split; [exact Hne|]. split; [reflexivity|].
  split.
  { cbn [Analytics.average_score saveLeaderboardData updateAnalytics set_analytics
         flai_analytics]. fold l.
    rewrite (calculateAverageScore_eq l Hne). reflexivity. }
  split; [intros sector _; apply Aggregator.tally_lookup|].
  split; [intros region _; apply Aggregator.tally_lookup|].
  split; reflexivity.
Qed.

(** X11.  [calculateSectorAverages] and [calculateRegionAverages] hold, under a
    name that is not inherited from [Object.prototype], the integer nearest
    to the mean score of the entries of that group, halves upwards, and
    nothing for a group without entries. *)
Theorem group_averages_are_rounded_means (data : list Entry.t) (name : string) :
  ordinary name →
  let mean (group : list Entry.t) :=
    match group with
    | [] => None
    | _ :: _ =>
        Some (JS.Int (Spec.roundDiv (foldr Z.add 0 (map Entry.score group))
                                    (Z.of_nat (length group))))
    end in
  calculateSectorAverages data !! name
  = mean (filter (λ entry, Entry.sector entry = name) data)
  ∧ calculateRegionAverages data !! name
    = mean (filter (λ entry, Entry.region entry = name) data).
Proof.
  intros _ mean. subst mean. cbv beta.
  unfold calculateSectorAverages, calculateRegionAverages.
  rewrite !lookup_fmap, !Aggregator.accumulate_lookup. cbv zeta.
  split.
  - destruct (filter _ data) as [|e group]; [reflexivity|].
    simpl fmap. f_equal. apply Aggregator.averageOf_mean. simpl. lia.
  - destruct (filter _ data) as [|e group]; [reflexivity|].
    simpl fmap. f_equal. apply Aggregator.averageOf_mean. simpl. lia.
Qed.

(** *** At the sample data *)

Lemma addEntry_persists_ranked_witness :
  ∃ ls' position l,
    addEntry Sample.leaderboardHost Cases.finished Sample.savedTwice
    = JS.Return (ls', position)
    ∧ flai_leaderboard ls' = Some (Doc l)
    ∧ Spec.sortedLeaderboard l
    ∧ length l = 3%nat.
Proof.
  destruct (addEntry_persists_ranked Sample.leaderboardHost Cases.finished
              Sample.savedTwice _ eq_refl)
    as (ls' & position & l & Hadd & Hdoc & _ & Hsorted & Hlen & _).
  exists ls', position, l.
  split; [exact Hadd|]. split; [exact Hdoc|]. split; [exact Hsorted|].
  rewrite Hlen. vm_compute. reflexivity.
Defined.

Lemma addEntries_cap_witness :
  ∃ ls' kept dropped,
    Spec.addEntries Cases.manyGames Sample.emptyStorage = JS.Return ls'
    ∧ flai_leaderboard ls' = Some (Doc kept)
    ∧ length kept = 100%nat
    ∧ Spec.sortedLeaderboard kept
    ∧ kept ++ dropped
      ≡ₚ [] ++ map (λ '(h, gameData), newEntry h gameData) Cases.manyGames
    ∧ length dropped = (length (@nil Entry.t) + 5)%nat
    ∧ ∀ k d, k ∈ kept → d ∈ dropped → Entry.score d ≤ Entry.score k.
Proof.
  apply (Aggregator.addEntries_cap Cases.manyGames Sample.emptyStorage []);
    reflexivity.
Defined.

Lemma updateLeaderboard_sorted_capped_witness :
  ∃ l, flai_leaderboard Cases.boardTwice = Some (Doc l)
       ∧ Spec.sortedByScore l ∧ (length l ≤ 100)%nat.
Proof.
  apply (Aggregator.updateLeaderboard_sorted_capped (Sample.later 10)
           (Game.calculateResults (Sample.later 10) Sample.consulting)
           Sample.consulting Sample.savedOnce Cases.boardTwice).
  vm_compute. reflexivity.
Defined.

Lemma addEntry_position_witness :
  ∃ l0 l,
    getLeaderboardData Sample.savedTwice = Some l0
    ∧ flai_leaderboard Cases.afterEntry = Some (Doc l)
    ∧ (1 ≤ 3 ≤ 100)%nat
    ∧ ∃ e, l !! 2%nat = Some e
           ∧ Entry.id e = Some (generateId Sample.leaderboardHost)
           ∧ ∀ i e', (i < 2)%nat → l !! i = Some e' →
                     Entry.id e' ≠ Some (generateId Sample.leaderboardHost).
Proof.
  apply (addEntry_position Sample.leaderboardHost Cases.finished
           Sample.savedTwice Cases.afterEntry (Some 3%nat)).
  vm_compute. reflexivity.
Defined.

Lemma average_score_rounded_mean_witness :
  ∃ m, calculateAverageScore Cases.board = JS.Int m
       ∧ 2 * m * 3 - 3 ≤ 2 * 250 < 2 * m * 3 + 3
       ∧ 0 ≤ m ≤ 100.
Proof.
  apply (average_score_rounded_mean Cases.board 0 100).
  - discriminate.
  - repeat first [ apply Forall_nil_2 | apply Forall_cons_2 ]; simpl; lia.
Defined.

Lemma anonymous_name_from_lists_witness :
  ∃ firstName lastInitial,
    firstName ∈ firstNames ∧ lastInitial ∈ lastInitials
    ∧ generateAnonymousName Sample.leaderboardHost = firstName +:+ " " +:+ lastInitial.
Proof.
  apply anonymous_name_from_lists; vm_compute; congruence.
Defined.

Lemma players_by_group_are_top_witness :
  ∃ bySector byRegion,
    getPlayersBySector "tecnologia" 1 Cases.ranked = JS.Return bySector
    ∧ getPlayersByRegion "caba" 1 Cases.ranked = JS.Return byRegion
    ∧ (bySector `sublist_of` Cases.board
       ∧ Forall (λ e, Entry.sector e = "tecnologia") bySector
       ∧ (length bySector ≤ 1)%nat
       ∧ Spec.sortedByScore bySector
       ∧ ∀ e, e ∈ Cases.board → Entry.sector e = "tecnologia" → e ∉ bySector →
              length bySector = 1%nat
              ∧ Forall (λ k, Entry.score e ≤ Entry.score k) bySector)
    ∧ (byRegion `sublist_of` Cases.board
       ∧ Forall (λ e, Entry.region e = "caba") byRegion
       ∧ (length byRegion ≤ 1)%nat
       ∧ Spec.sortedByScore byRegion
       ∧ ∀ e, e ∈ Cases.board → Entry.region e = "caba" → e ∉ byRegion →
              length byRegion = 1%nat
              ∧ Forall (λ k, Entry.score e ≤ Entry.score k) byRegion).
Proof.
  apply (players_by_group_are_top 1 Cases.ranked Cases.board "tecnologia" "caba").
  - reflexivity.
  - unfold Spec.sortedByScore, Cases.board.
    repeat first [ apply SSorted_nil | apply SSorted_cons
                 | apply Forall_nil_2 | apply Forall_cons_2 ]; simpl; lia.
Defined.

Lemma addEntry_refreshes_analytics_witness :
  ∃ l a,
    flai_leaderboard Cases.afterEntry = Some (Doc l)
    ∧ flai_analytics Cases.afterEntry = Some (Doc a)
    ∧ flai_research_data Cases.afterEntry = flai_research_data Sample.savedTwice
    ∧ l ≠ []
    ∧ Analytics.total_players a = length l
    ∧ Analytics.average_score a
      = Some (Spec.roundDiv (foldr Z.add 0 (map Entry.score l)) (Z.of_nat (length l)))
    ∧ (∀ sector, ordinary sector →
                 default 0%nat (Analytics.sector_distribution a !! sector)
                 = length (filter (λ e, Entry.sector e = sector) l))
    ∧ (∀ region, ordinary region →
                 default 0%nat (Analytics.region_distribution a !! region)
                 = length (filter (λ e, Entry.region e = region) l))
    ∧ Analytics.score_distribution a = calculateScoreDistribution l
    ∧ Analytics.last_updated a = Date_now Sample.leaderboardHost.
Proof.
  apply (addEntry_refreshes_analytics Sample.leaderboardHost Cases.finished
           Sample.savedTwice Cases.afterEntry (Some 3%nat)).
  vm_compute. reflexivity.
Defined.

Lemma group_averages_are_rounded_means_witness :
  calculateSectorAverages Cases.board !! "tecnologia" = Some (JS.Int 85)
  ∧ calculateRegionAverages Cases.board !! "mendoza" = None.
Proof.
  destruct (group_averages_are_rounded_means Cases.board "tecnologia") as [Hs _].
  { apply (bool_decide_unpack _). vm_compute. exact I. }
  destruct (group_averages_are_rounded_means Cases.board "mendoza") as [_ Hr].
  { apply (bool_decide_unpack _). vm_compute. exact I. }
  split; [exact Hs|exact Hr].
Defined.

End Ranks.

(** ** The session runner *)

Module Runner.

Import Game Session.

Lemma catalogue_options :
  Forall (λ s, Forall (λ o, 0 ≤ opt_score o ≤ 10
                            ∧ type o ∈ ["ethical"; "consultation"; "risky"])
                      (options s)) scenarios.
Proof. apply (bool_decide_unpack _). vm_compute. exact I. Qed.

Lemma option_in_catalogue (k i : nat) (s : Scenario) (o : Option_) :
  scenarios !! k = Some s → options s !! i = Some o →
  0 ≤ opt_score o ≤ 10 ∧ type o ∈ decisionTypes.
Proof.
  intros Hs Ho. pose proof catalogue_options as Hc.
  rewrite Forall_forall in Hc. specialize (Hc s (list_elem_of_lookup_2 _ _ _ Hs)).
  rewrite Forall_forall in Hc. specialize (Hc o (list_elem_of_lookup_2 _ _ _ Ho)).
  destruct Hc as [Hscore Htype]. split; [exact Hscore|].
  unfold decisionTypes.
  repeat (apply elem_of_cons in Htype as [->|Htype];
          [repeat first [ apply list_elem_of_here | apply list_elem_of_further ]|]).
  apply elem_of_nil in Htype. contradiction.
Qed.

Lemma thisScenario_Some (g : Simulator) :
  (currentScenario g < 10)%nat → ∃ s, scenarios !! currentScenario g = Some s.
Proof.
  intros H. apply lookup_lt_is_Some_2. exact H.
Qed.

(** Recording one answer for the current scenario and advancing, whatever
    the countdown shows. *)
Lemma advance_kept (h0 : Host) (profile : UserProfile) (g : Simulator) (t : Z)
    (s : Scenario) (a : Answer) :
  kept h0 profile g →
  scenarios !! currentScenario g = Some s →
  scenario_id a = id s →
  0 ≤ score a ≤ 10 → 0 ≤ time_taken a ≤ 30 → option_type a ∈ decisionTypes →
  kept h0 profile (nextScenario (push a (setTimeLeft t g))).
Proof.
  intros (Hk & Hids & Hall & Hp & Hstart & Htime) Hs Hid Hscore Htaken Htype.
  assert (Hlt : (currentScenario g < 10)%nat).
  { apply lookup_lt_Some in Hs. exact Hs. }
  unfold nextScenario, startScenario, push, setTimeLeft.
  cbn [currentScenario answers userProfile timeLeft gameStartTime].
  change (length scenarios) with 10%nat.
  destruct (Nat.leb_spec 10 (S (currentScenario g))) as [Hend|Hmore];
    unfold kept, setTimeLeft; cbn [currentScenario answers userProfile timeLeft gameStartTime].
  all: (split; [lia|]).
  all: (split; [rewrite map_app, (take_S_r _ _ _ Hs), map_app, Hids; simpl; congruence|]).
  all: (split; [apply Forall_app; split;
                  [exact Hall|apply Forall_cons_2; [tauto|apply Forall_nil_2]]|]).
  all: (split; [exact Hp|]); (split; [exact Hstart|]); intros; lia.
Qed.

Lemma setTimeLeft_same (g : Simulator) : setTimeLeft (timeLeft g) g = g.
Proof. destruct g; reflexivity. Qed.

Lemma deliver_kept (h0 h : Host) (profile : UserProfile) (input : Input)
    (g : Simulator) :
  kept h0 profile g → over g = false →
  ∃ g', deliver h input g = JS.Return g' ∧ kept h0 profile g'.
Proof.
  intros Hkept Hover. unfold over in Hover. change (length scenarios) with 10%nat in Hover.
  apply Nat.leb_gt in Hover.
  destruct (thisScenario_Some g Hover) as [s Hs].
  pose proof Hkept as (Hk & Hids & Hall & Hp & Hstart & Htime).
  specialize (Htime Hover).
  destruct input as [|i|]; simpl.
  - (* the countdown fires *)
    unfold tick. cbn [setTimeLeft timeLeft].
    destruct (Z.leb_spec (timeLeft g - 1) 0) as [Hzero|Hpos].
    + unfold timeExpired, thisScenario. cbn [setTimeLeft currentScenario].
      rewrite Hs. eexists. split; [reflexivity|].
      apply (advance_kept h0 profile g (timeLeft g - 1) s).
      * exact Hkept.
      * exact Hs.
      * reflexivity.
      * cbn. lia.
      * cbn. lia.
      * cbn. unfold decisionTypes.
        repeat first [ apply list_elem_of_here | apply list_elem_of_further ].
    + eexists. split; [reflexivity|].
      unfold kept, setTimeLeft. cbn [currentScenario answers userProfile timeLeft
        gameStartTime]. repeat split; try assumption; lia.
  - (* a click on an option *)
    unfold click, thisScenario. rewrite Hs. cbn [mbind completion_bind JS.bind].
    destruct (options s !! i) as [o|] eqn:Ho.
    + unfold selectOption, thisScenario. rewrite Hs.
      eexists. split; [reflexivity|].
      destruct (option_in_catalogue _ _ _ _ Hs Ho) as [Hscore Htype].
      rewrite <- (setTimeLeft_same g) at 1.
      apply (advance_kept h0 profile g (timeLeft g) s);
        try assumption; cbn; try reflexivity; lia.
    + eexists. split; [reflexivity|exact Hkept].
  - (* the skip button *)
    unfold skipScenario, thisScenario. rewrite Hs.
    eexists. split; [reflexivity|].
    rewrite <- (setTimeLeft_same g) at 1.
    apply (advance_kept h0 profile g (timeLeft g) s);
      try assumption; cbn; try reflexivity; try lia.
    unfold decisionTypes.
    repeat first [ apply list_elem_of_here | apply list_elem_of_further ].
Qed.

Lemma run_kept (h0 : Host) (profile : UserProfile) (inputs : list (Host * Input)) :
  ∀ g, kept h0 profile g →
       ∃ g', run inputs g = JS.Return g' ∧ kept h0 profile g'.
Proof.
  induction inputs as [|[h input] rest IH]; intros g Hkept; simpl.
  - eauto.
  - destruct (over g) eqn:Hover; [eauto|].
    destruct (deliver_kept h0 h profile input g Hkept Hover) as (g1 & -> & Hkept1).
    apply IH, Hkept1.
Qed.

Lemma startGame_kept (h0 : Host) (profile : UserProfile) :
  kept h0 profile (startGame h0 profile).
Proof.
  unfold kept, startGame, startScenario. simpl.
  repeat split; try reflexivity; try lia. constructor.
Qed.

(** X12.  Whatever inputs are delivered after [startGame], the runner never
    throws, and the game object holds one answer for each scenario passed, in
    catalogue order, each with a score in 0..10, a time in 0..30 and one of
    the five decision types; while scenarios remain the countdown shows
    1..30. *)
Theorem session_records_scenarios_in_order (h0 : Host) (profile : UserProfile)
    (inputs : list (Host * Input)) :
  ∃ g,
    run inputs (startGame h0 profile) = JS.Return g
    ∧ (currentScenario g ≤ 10)%nat
    ∧ map scenario_id (answers g) = map id (take (currentScenario g) scenarios)
    ∧ Forall (λ a, 0 ≤ score a ≤ 10 ∧ 0 ≤ time_taken a ≤ 30
                   ∧ option_type a ∈ decisionTypes) (answers g)
    ∧ userProfile g = profile
    ∧ gameStartTime g = Date_now h0
    ∧ ((currentScenario g < 10)%nat → 1 ≤ timeLeft g ≤ 30).
Proof.
  destruct (run_kept h0 profile inputs _ (startGame_kept h0 profile)) as (g & Hrun & Hkept).
  exists g. split; [exact Hrun|exact Hkept].
Qed.

Lemma kept_length (h0 : Host) (profile : UserProfile) (g : Simulator) :
  kept h0 profile g → length (answers g) = currentScenario g.
Proof.
  intros (Hk & Hids & _). apply (f_equal length) in Hids.
  rewrite !length_map, length_take in Hids.
  change (length scenarios) with 10%nat in Hids. lia.
Qed.

Lemma countType_total (l : list Answer) :
  Forall (λ a, option_type a ∈ decisionTypes) l →
  (countType "ethical" l + countType "consultation" l + countType "risky" l
   + countType "skipped" l + countType "timeout" l = length l)%nat.
Proof.
  unfold countType.
  induction 1 as [|a l Ha _ IH]; [reflexivity|].
  rewrite !filter_cons. simpl length. rewrite <- IH.
  unfold decisionTypes in Ha.
  repeat (apply elem_of_cons in Ha as [->|Ha];
          [repeat (case_decide; try discriminate); try congruence; simpl length; lia|]).
  apply elem_of_nil in Ha. contradiction.
Qed.

Lemma sumPositiveTimes_all (l : list Answer) :
  Forall (λ a, 0 ≤ time_taken a) l →
  Spec.sumPositiveTimes l = foldr Z.add 0 (map time_taken l).
Proof.
  unfold Spec.sumPositiveTimes.
  induction 1 as [|a l Ha _ IH]; [reflexivity|].
  rewrite filter_cons. destruct (decide (0 < time_taken a)); simpl; rewrite IH; lia.
Qed.

Lemma sum_times_bounds (l : list Answer) (hi : Z) :
  Forall (λ a, 0 ≤ time_taken a ≤ hi) l →
  0 ≤ foldr Z.add 0 (map time_taken l) ≤ hi * Z.of_nat (length l).
Proof.
  induction 1 as [|a l Ha _ IH]; simpl length; simpl map; simpl foldr; [lia|].
  rewrite Nat2Z.inj_succ. lia.
Qed.

Lemma avg_response_time_eq (h : Host) (g : Simulator) :
  answers g ≠ [] →
  avg_response_time (calculateResults h g)
  = JS.Int (Spec.roundDiv (Spec.sumPositiveTimes (answers g))
                          (Z.of_nat (length (answers g)))).
Proof.
  intros Hne. unfold calculateResults.
  destruct (categorize _) as [c d]; cbn [avg_response_time].
  rewrite Scorer.foldl_time, Z.add_0_l.
  fold (Spec.sumPositiveTimes (answers g)).
  destruct (answers g) as [|a l] eqn:E; [congruence|].
  unfold JS.of_nat.
  change (Z.of_nat (length (a :: l))) with (Z.pos (Pos.of_succ_nat (length l))).
  apply Math_round_div.
Qed.

Lemma decision_types_eq (h : Host) (g : Simulator) :
  decision_types (calculateResults h g)
  = {| Store.ethical := countType "ethical" (answers g);
       Store.consultation := countType "consultation" (answers g);
       Store.risky := countType "risky" (answers g);
       Store.skipped := countType "skipped" (answers g);
       Store.timeout := countType "timeout" (answers g) |}.
Proof.
  unfold calculateResults. destruct (categorize _) as [c d]. reflexivity.
Qed.

Lemma total_score_eq (h : Host) (g : Simulator) :
  total_score (calculateResults h g) = Spec.sumScores (answers g).
Proof.
  unfold calculateResults. destruct (categorize _) as [c d]. cbn [total_score].
  rewrite Scorer.foldl_score. lia.
Qed.

Lemma roundDiv_bounds (x y lo hi : Z) :
  0 < y → lo * y ≤ x ≤ hi * y → lo ≤ Spec.roundDiv x y ≤ hi.
Proof.
  intros Hy Hx. unfold Spec.roundDiv.
  pose proof (Z.div_mod (2 * x + y) (2 * y) ltac:(lia)) as Hdm.
  pose proof (Z.mod_pos_bound (2 * x + y) (2 * y) ltac:(lia)) as Hm.
  nia.
Qed.

(** X13.  When every input reaches the game while a scenario awaits its
    answer (as the runner delivers them: none during the 1.5 s pause after a
    click, none after the tenth scenario), a session that has passed all ten
    scenarios holds ten answers; its total score is its percentage and lies
    in 0..100, the category is the band of that value, the average response
    time is the rounded mean of all ten times (none is negative, so the
    filter removes nothing that counts) and lies in 0..30, and the five
    decision counts add up to ten. *)
Theorem finished_session_results (h0 h : Host) (profile : UserProfile)
    (inputs : list (Host * Input)) (g : Simulator) :
  run inputs (startGame h0 profile) = JS.Return g →
  currentScenario g = 10%nat →
  let r := calculateResults h g in
  let d := decision_types r in
  ∃ s t,
    length (answers g) = 10%nat
    ∧ total_score r = s ∧ percentage r = JS.Int s ∧ 0 ≤ s ≤ 100
    ∧ category r = Spec.band s
    ∧ avg_response_time r = JS.Int t ∧ 0 ≤ t ≤ 30
    ∧ t = Spec.roundDiv (foldr Z.add 0 (map time_taken (answers g))) 10
    ∧ (Store.ethical d + Store.consultation d + Store.risky d
       + Store.skipped d + Store.timeout d = 10)%nat.
Proof.
  intros Hrun Hdone r d.
  destruct (run_kept h0 profile inputs _ (startGame_kept h0 profile)) as (g' & Hrun' & Hkept).
  rewrite Hrun in Hrun'. injection Hrun' as <-.
  pose proof (kept_length _ _ _ Hkept) as Hlen. rewrite Hdone in Hlen.
  destruct Hkept as (_ & _ & Hall & _).
  assert (Hscores : Forall (λ a, 0 ≤ score a ≤ 10) (answers g))
    by (eapply Forall_impl; [exact Hall|]; simpl; tauto).
  assert (Htimes : Forall (λ a, 0 ≤ time_taken a ≤ 30) (answers g))
    by (eapply Forall_impl; [exact Hall|]; simpl; tauto).
  assert (Htypes : Forall (λ a, option_type a ∈ decisionTypes) (answers g))
    by (eapply Forall_impl; [exact Hall|]; simpl; tauto).
  assert (Hne : answers g ≠ []) by (intros E; rewrite E in Hlen; discriminate).
  exists (Spec.sumScores (answers g)),
         (Spec.roundDiv (foldr Z.add 0 (map time_taken (answers g))) 10).
  assert (Hp : percentage r = JS.Int (Spec.sumScores (answers g))).
  { subst r. rewrite Scorer.percentage_eq. apply Math_round_percent. }
  split; [exact Hlen|].
  split; [apply total_score_eq|].
  split; [exact Hp|].
  split.
  { pose proof (Scorer.sumScores_bounds _ Hscores) as Hb. rewrite Hlen in Hb. lia. }
  split.
  { subst r. rewrite Scorer.category_eq, Hp. apply Scorer.categorize_band. }
  split.
  { subst r. rewrite (avg_response_time_eq h g Hne), Hlen.
    rewrite sumPositiveTimes_all; [reflexivity|].
    eapply Forall_impl; [exact Htimes|]. simpl. tauto. }
  split.
  { apply roundDiv_bounds; [lia|].
    pose proof (sum_times_bounds _ 30 Htimes) as Hb. rewrite Hlen in Hb. lia. }
  split; [reflexivity|].
  subst d r. rewrite decision_types_eq. cbn [Store.ethical Store.consultation
    Store.risky Store.skipped Store.timeout].
  rewrite (countType_total _ Htypes). exact Hlen.
Qed.

Lemma barPercent_eq (n : nat) : barPercent n = JS.Int (10 * Z.of_nat n).
Proof.
  unfold barPercent, JS.of_nat, JS.of_Z, JS.div.
  replace (JS.is_zero (inject_Z 10)) with false by reflexivity.
  unfold JS.mul, JS.Math_round. f_equal.
  transitivity (Qfloor (inject_Z (10 * Z.of_nat n) + (1 # 2))).
  - apply Qfloor_comp. rewrite inject_Z_mult. field.
  - apply Qfloor_half.
Qed.

(** X14.  When every input reaches the game while a scenario awaits its
    answer (as the runner delivers them: none during the 1.5 s pause after a
    click, none after the tenth scenario), the three bars [displayResults]
    draws for the finished session are whole percentages that add up to 100
    less ten for each scenario skipped or timed out. *)
Theorem result_bars (h0 h : Host) (profile : UserProfile)
    (inputs : list (Host * Input)) (g : Simulator) :
  run inputs (startGame h0 profile) = JS.Return g →
  currentScenario g = 10%nat →
  let d := decision_types (calculateResults h g) in
  ∃ ethicalPercent consultationPercent riskyPercent,
    barPercent (Store.ethical d) = JS.Int ethicalPercent
    ∧ barPercent (Store.consultation d) = JS.Int consultationPercent
    ∧ barPercent (Store.risky d) = JS.Int riskyPercent
    ∧ ethicalPercent + consultationPercent + riskyPercent
      = 100 - 10 * Z.of_nat (Store.skipped d + Store.timeout d).
Proof.
  intros Hrun Hdone d.
  destruct (run_kept h0 profile inputs _ (startGame_kept h0 profile)) as (g' & Hrun' & Hkept).
  rewrite Hrun in Hrun'. injection Hrun' as <-.
  pose proof (kept_length _ _ _ Hkept) as Hlen. rewrite Hdone in Hlen.
  destruct Hkept as (_ & _ & Hall & _).
  assert (Htypes : Forall (λ a, option_type a ∈ decisionTypes) (answers g))
    by (eapply Forall_impl; [exact Hall|]; simpl; tauto).
  eexists _, _, _. rewrite !barPercent_eq.
  split; [reflexivity|]. split; [reflexivity|]. split; [reflexivity|].
  subst d. rewrite decision_types_eq. cbn [Store.ethical Store.consultation
    Store.risky Store.skipped Store.timeout].
  pose proof (countType_total _ Htypes) as Hsum. rewrite Hlen in Hsum. lia.
Qed.

Lemma ticks_count_down (ticks : list Host) :
  ∀ g, over g = false →
       Z.of_nat (length ticks) < timeLeft g →
       run (map (λ h, (h, Tick)) ticks) g
       = JS.Return (setTimeLeft (timeLeft g - Z.of_nat (length ticks)) g).
Proof.
  induction ticks as [|h ticks IH]; intros g Hover Hlen.
  - simpl. rewrite Z.sub_0_r, setTimeLeft_same. reflexivity.
  - simpl map. simpl run. rewrite Hover. unfold tick. cbn [setTimeLeft timeLeft].
    simpl length in Hlen. rewrite Nat2Z.inj_succ in Hlen.
    destruct (Z.leb_spec (timeLeft g - 1) 0) as [|Hpos]; [lia|].
    cbn [mbind completion_bind JS.bind mret completion_ret].
    rewrite IH; [|exact Hover|cbn; lia].
    cbn [setTimeLeft timeLeft currentScenario answers userProfile gameStartTime].
    simpl length. rewrite Nat2Z.inj_succ. unfold setTimeLeft. do 2 f_equal. lia.
Qed.

(** X15.  With [timeLeft] seconds on the clock, one firing less leaves the
    clock at 1 and the answers as they were; the next firing records a
    timeout for the current scenario, with score 0 and [time_taken] 30
    whatever the clock started from, and moves on. *)
Theorem countdown_records_timeout (g : Simulator) (s : Scenario)
    (ticks : list Host) (h : Host) :
  scenarios !! currentScenario g = Some s →
  1 ≤ timeLeft g →
  Z.of_nat (length ticks) = timeLeft g - 1 →
  run (map (λ h, (h, Tick)) ticks) g = JS.Return (setTimeLeft 1 g)
  ∧ run (map (λ h, (h, Tick)) (ticks ++ [h])) g
    = JS.Return
        (nextScenario
           (push {| scenario_id := id s;
                    scenario_title := title s;
                    selected_option := -1;
                    option_type := "timeout";
                    score := 0;
                    cultural_flags := Some ["time_pressure"; "indecision"];
                    time_taken := 30;
                    timestamp := Date_now h |}
                 (setTimeLeft 0 g))).
Proof.
  intros Hs Hleft Hlen.
  assert (Hover : over g = false).
  { unfold over. apply Nat.leb_gt. apply lookup_lt_Some in Hs. exact Hs. }
  assert (Hrun := ticks_count_down ticks g Hover ltac:(lia)).
  replace (timeLeft g - Z.of_nat (length ticks)) with 1 in Hrun by lia.
  split; [exact Hrun|].
  rewrite map_app. simpl map.
  revert Hrun. generalize (map (λ h, (h, Tick)) ticks). intros inputs Hrun.
  assert (Happ : ∀ (inputs : list (Host * Input)) g g1 h,
             run inputs g = JS.Return g1 → over g1 = false →
             run (inputs ++ [(h, Tick)]) g = tick h g1).
  { clear. induction inputs as [|[h' i] rest IH]; intros g g1 h Hrun Hover; simpl in *.
    - injection Hrun as ->. rewrite Hover. destruct (tick h g1); reflexivity.
    - destruct (over g) eqn:E.
      + injection Hrun as ->. congruence.
      + destruct (deliver h' i g) as [g2|e]; simpl in *; [|discriminate].
        apply IH; assumption. }
  rewrite (Happ _ _ _ _ Hrun) by exact Hover.
  unfold tick, timeExpired, thisScenario.
  cbn [setTimeLeft timeLeft currentScenario]. rewrite Hs. reflexivity.
Qed.

(** *** At the sample session *)

Lemma finished_session_results_witness :
  Session.run Cases.inputs (startGame (Sample.host 0) Sample.profile)
  = JS.Return Cases.played
  ∧ ∃ s t,
      length (answers Cases.played) = 10%nat
      ∧ total_score (calculateResults (Sample.host 0) Cases.played) = s
      ∧ percentage (calculateResults (Sample.host 0) Cases.played) = JS.Int s
      ∧ 0 ≤ s ≤ 100
      ∧ category (calculateResults (Sample.host 0) Cases.played) = Spec.band s
      ∧ avg_response_time (calculateResults (Sample.host 0) Cases.played) = JS.Int t
      ∧ 0 ≤ t ≤ 30
      ∧ t = Spec.roundDiv (foldr Z.add 0 (map time_taken (answers Cases.played))) 10
      ∧ (Store.ethical (decision_types (calculateResults (Sample.host 0) Cases.played))
         + Store.consultation (decision_types (calculateResults (Sample.host 0) Cases.played))
         + Store.risky (decision_types (calculateResults (Sample.host 0) Cases.played))
         + Store.skipped (decision_types (calculateResults (Sample.host 0) Cases.played))
         + Store.timeout (decision_types (calculateResults (Sample.host 0) Cases.played))
         = 10)%nat.
Proof.
  assert (Hrun : Session.run Cases.inputs (startGame (Sample.host 0) Sample.profile)
                 = JS.Return Cases.played) by (vm_compute; reflexivity).
  split; [exact Hrun|].
  apply (finished_session_results (Sample.host 0) (Sample.host 0) Sample.profile
           Cases.inputs Cases.played Hrun).
  vm_compute. reflexivity.
Defined.

Lemma result_bars_witness :
  ∃ ethicalPercent consultationPercent riskyPercent,
    barPercent (Store.ethical (decision_types (calculateResults (Sample.host 0) Cases.played)))
    = JS.Int ethicalPercent
    ∧ barPercent (Store.consultation
                    (decision_types (calculateResults (Sample.host 0) Cases.played)))
      = JS.Int consultationPercent
    ∧ barPercent (Store.risky (decision_types (calculateResults (Sample.host 0) Cases.played)))
      = JS.Int riskyPercent
    ∧ ethicalPercent + consultationPercent + riskyPercent
      = 100 - 10 * Z.of_nat
                     (Store.skipped (decision_types (calculateResults (Sample.host 0) Cases.played))
                      + Store.timeout (decision_types (calculateResults (Sample.host 0) Cases.played))).
Proof.
  apply (result_bars (Sample.host 0) (Sample.host 0) Sample.profile
           Cases.inputs Cases.played); vm_compute; reflexivity.
Defined.

Lemma countdown_records_timeout_witness :
  ∃ g, run (map (λ h, (h, Tick)) (replicate 29 (Sample.host 0) ++ [Sample.later 1]))
           (startGame (Sample.host 0) Sample.profile) = JS.Return g
       ∧ map (λ a, (scenario_id a, option_type a, score a, time_taken a, timestamp a))
             (answers g)
         = [(1, "timeout", 0, 30, 1700000060000)]
       ∧ currentScenario g = 1%nat ∧ timeLeft g = 30.
Proof.
  destruct (countdown_records_timeout (startGame (Sample.host 0) Sample.profile)
              (default {| id := 0; title := ""; options := [] |} (scenarios !! 0%nat))
              (replicate 29 (Sample.host 0)) (Sample.later 1))
    as [_ Hrun]; [reflexivity|simpl; lia|reflexivity|].
  eexists. split; [exact Hrun|]. vm_compute. repeat split.
Defined.

End Runner.

(** ** Saving a finished game *)

Module Saving.

Import Store Stored.

Lemma corrupt_throws {A} (cell : option (item (list A))) :
  corrupt cell →
  parse_or_empty cell = JS.Throw JS.SyntaxError
  ∨ parse_or_empty cell = JS.Return None.
Proof.
  intros [->|(s & Hs & ->)]; simpl; [right; reflexivity|left].
  destruct (String.eqb_spec s ""); [contradiction|reflexivity].
Qed.

(** X16.  When both keys are readable, [saveGameData] appends one research
    record after the stored ones and stores the leaderboard rows with the new
    row, sorted by score and cut to 100; it leaves the analytics key alone.
    [getGameSessionsData] then returns the earlier sessions followed by the
    new one, whose decisions are the answers of the game, scenario by
    scenario, and whose total, percentage and session id are those of the
    results. *)
Theorem saved_session_reads_back (h : Game.Host) (results : Game.Results)
    (g : Game.Simulator) (ls : localStorage)
    (board : list Entry.t) (records : list Research.t) :
  readsAs (flai_leaderboard ls) board →
  readsAs (flai_research_data ls) records →
  let ls' := Game.saveGameData h results g ls in
  let session := DataExport.reshape (Game.researchData h results g) in
  flai_research_data ls' = Some (Doc (records ++ [Game.researchData h results g]))
  ∧ flai_leaderboard ls'
    = Some (Doc (take 100 (JS.sort (λ a b, Entry.score b - Entry.score a)
                                   (board ++ [Game.gameData h results g]))))
  ∧ flai_analytics ls' = flai_analytics ls
  ∧ DataExport.getGameSessionsData ls'
    = DataExport.getGameSessionsData ls ++ [session]
  ∧ map (λ d, (DataExport.Decision.scenario_id d, DataExport.Decision.decision_type d,
               DataExport.Decision.response_time d))
        (DataExport.Session.decisions session)
    = map (λ a, (Game.scenario_id a, Game.option_type a, Game.time_taken a))
          (Game.result_answers results)
  ∧ DataExport.Performance.total_score (DataExport.Session.performance session)
    = Game.total_score results
  ∧ DataExport.Performance.percentage (DataExport.Session.performance session)
    = JS.json_number (Game.percentage results)
  ∧ DataExport.Session.session_id session = Game.session_id (Game.userProfile g).
Proof.
  intros Hboard Hrecords ls' session. unfold readsAs in Hboard, Hrecords.
  assert (Hsave : ls' = set_research_data (records ++ [Game.researchData h results g])
                          (set_leaderboard
                             (take 100 (JS.sort (λ a b, Entry.score b - Entry.score a)
                                                (board ++ [Game.gameData h results g]))) ls)).
  { subst ls'. unfold Game.saveGameData, Game.updateLeaderboard, Game.saveResearchData.
    rewrite Hboard. cbn [mbind completion_bind JS.bind Game.array_push mret completion_ret].
    cbn [set_leaderboard flai_research_data]. rewrite Hrecords. reflexivity. }
  rewrite Hsave. split; [reflexivity|]. split; [reflexivity|]. split; [reflexivity|].
  split.
  { unfold DataExport.getGameSessionsData. cbn [set_research_data flai_research_data].
    rewrite Hrecords. simpl. rewrite map_app. reflexivity. }
  split.
  { subst session. simpl. rewrite !map_map. reflexivity. }
  repeat split.
Qed.

(** X17.  A leaderboard key that holds [null] or a text that is not JSON makes
    [saveGameData] write nothing at all: the research record of the game is
    lost with the row.  With a readable leaderboard and such a research key
    the row is stored and the research record is not. *)
Theorem corrupt_storage_blocks_saving (h : Game.Host) (results : Game.Results)
    (g : Game.Simulator) (ls : localStorage) :
  (corrupt (flai_leaderboard ls) → Game.saveGameData h results g ls = ls)
  ∧ (∀ board,
       readsAs (flai_leaderboard ls) board →
       corrupt (flai_research_data ls) →
       Game.saveGameData h results g ls
       = set_leaderboard
           (take 100 (JS.sort (λ a b, Entry.score b - Entry.score a)
                              (board ++ [Game.gameData h results g]))) ls).
Proof.
  split.
  - intros Hc. unfold Game.saveGameData, Game.updateLeaderboard.
    destruct (corrupt_throws _ Hc) as [-> | ->]; reflexivity.
  - unfold readsAs. intros board Hboard Hc.
    unfold Game.saveGameData, Game.updateLeaderboard, Game.saveResearchData.
    rewrite Hboard. cbn [mbind completion_bind JS.bind Game.array_push mret completion_ret].
    cbn [set_leaderboard flai_research_data].
    destruct (corrupt_throws _ Hc) as [-> | ->]; reflexivity.
Qed.

Lemma saveGameData_board (h : Game.Host) (results : Game.Results)
    (g : Game.Simulator) (ls : localStorage) (board : list Entry.t) :
  readsAs (flai_leaderboard ls) board →
  flai_leaderboard (Game.saveGameData h results g ls)
  = Some (Doc (take 100 (JS.sort (λ a b, Entry.score b - Entry.score a)
                                 (board ++ [Game.gameData h results g]))))
  ∧ flai_analytics (Game.saveGameData h results g ls) = flai_analytics ls.
Proof.
  unfold readsAs. intros Hboard.
  unfold Game.saveGameData, Game.updateLeaderboard. rewrite Hboard.
  cbn [mbind completion_bind JS.bind Game.array_push mret completion_ret].
  unfold Game.saveResearchData. cbn [set_leaderboard flai_research_data].
  destruct (parse_or_empty (flai_research_data ls)) as [[l|]|]; split; reflexivity.
Qed.

(** X18.  [saveGameData] stores rows without refreshing the analytics key.
    Where no analytics were stored, the report of
    [getComprehensiveAnalytics] after a save counts the rows of the
    leaderboard, while its average score is 0 and its score, sector and
    region distributions are empty. *)
Theorem game_save_leaves_analytics_stale (h : Game.Host) (h' : Leaderboard.Host)
    (results : Game.Results) (g : Game.Simulator) (ls : localStorage)
    (board : list Entry.t) :
  readsAs (flai_leaderboard ls) board →
  flai_analytics ls = None →
  let ls' := Game.saveGameData h results g ls in
  flai_analytics ls' = None
  ∧ ∃ report,
      Leaderboard.getComprehensiveAnalytics h' ls' = JS.Return report
      ∧ Leaderboard.total_entries (Leaderboard.leaderboard_summary report)
        = (100 `min` (length board + 1))%nat
      ∧ Leaderboard.average_score (Leaderboard.leaderboard_summary report) = 0
      ∧ Leaderboard.score_distribution (Leaderboard.leaderboard_summary report) = ∅
      ∧ Leaderboard.by_sector (Leaderboard.demographic_breakdown report) = ∅
      ∧ Leaderboard.by_region (Leaderboard.demographic_breakdown report) = ∅.
Proof.
  intros Hboard Hnone ls'.
  destruct (saveGameData_board h results g ls board Hboard) as [Hl Ha].
  fold ls' in Hl, Ha. rewrite Hnone in Ha. split; [exact Ha|].
  unfold Leaderboard.getComprehensiveAnalytics, Leaderboard.getLeaderboardData,
    Leaderboard.getAnalytics.
  rewrite Hl, Ha. simpl. eexists. split; [reflexivity|].
  cbn [Leaderboard.leaderboard_summary Leaderboard.total_entries
       Leaderboard.average_score Leaderboard.score_distribution
       Leaderboard.demographic_breakdown Leaderboard.by_sector Leaderboard.by_region].
  split; [|repeat split].
  rewrite length_take, Aggregator.sort_length, length_app. simpl length. reflexivity.
Qed.

(** *** At the sample storage *)

Lemma saved_session_reads_back_witness :
  readsAs (flai_leaderboard Sample.savedOnce) Cases.savedBoard
  ∧ readsAs (flai_research_data Sample.savedOnce) Sample.savedRecords
  ∧ flai_research_data Sample.savedTwice
    = Some (Doc (Sample.savedRecords
                 ++ [Game.researchData (Sample.later 10)
                       (Game.calculateResults (Sample.later 10) Sample.consulting)
                       Sample.consulting]))
  ∧ length (DataExport.getGameSessionsData Sample.savedTwice) = 2%nat.
Proof.
  assert (Hboard : readsAs (flai_leaderboard Sample.savedOnce) Cases.savedBoard)
    by (vm_compute; reflexivity).
  assert (Hrecords : readsAs (flai_research_data Sample.savedOnce) Sample.savedRecords)
    by (vm_compute; reflexivity).
  destruct (saved_session_reads_back (Sample.later 10)
              (Game.calculateResults (Sample.later 10) Sample.consulting)
              Sample.consulting Sample.savedOnce Cases.savedBoard Sample.savedRecords
              Hboard Hrecords) as (Hresearch & _ & _ & Hsessions & _).
  split; [exact Hboard|]. split; [exact Hrecords|]. split; [exact Hresearch|].
  change Sample.savedTwice
    with (Game.saveGameData (Sample.later 10)
            (Game.calculateResults (Sample.later 10) Sample.consulting)
            Sample.consulting Sample.savedOnce).
  rewrite Hsessions, length_app. vm_compute. reflexivity.
Defined.

Lemma corrupt_storage_blocks_saving_witness :
  Game.saveGameData (Sample.later 0)
    (Game.calculateResults (Sample.later 0) Sample.consulting)
    Sample.consulting Sample.garbledStorage
  = Sample.garbledStorage.
Proof.
  apply corrupt_storage_blocks_saving.
  right. exists "[{". split; [discriminate|reflexivity].
Defined.

Lemma game_save_leaves_analytics_stale_witness :
  flai_analytics Sample.savedOnce = None
  ∧ ∃ report,
      Leaderboard.getComprehensiveAnalytics Sample.leaderboardHost Sample.savedOnce
      = JS.Return report
      ∧ Leaderboard.total_entries (Leaderboard.leaderboard_summary report) = 1%nat
      ∧ Leaderboard.average_score (Leaderboard.leaderboard_summary report) = 0
      ∧ Leaderboard.score_distribution (Leaderboard.leaderboard_summary report) = ∅
      ∧ Leaderboard.by_sector (Leaderboard.demographic_breakdown report) = ∅
      ∧ Leaderboard.by_region (Leaderboard.demographic_breakdown report) = ∅.
Proof.
  apply (game_save_leaves_analytics_stale (Sample.later 0) Sample.leaderboardHost
           (Game.calculateResults (Sample.later 0) Sample.consulting)
           Sample.consulting Sample.emptyStorage []); reflexivity.
Defined.

End Saving.

(** ** Tracking shares and visits *)

Module Shares.

Import Store Stored Tracking.

Lemma slice_last_app {A} (n : nat) (l1 l2 : list A) :
  slice_last n (slice_last n l1 ++ l2) = slice_last n (l1 ++ l2).
Proof.
  unfold slice_last. rewrite !length_app, length_drop.
  destruct (decide (length l1 ≤ n)%nat) as [Hle|Hgt].
  - replace (length l1 - n)%nat with 0%nat by lia. rewrite drop_0.
    f_equal. lia.
  - replace (length l1 + length l2 - n)%nat
      with ((length l1 - n) + length l2)%nat by lia.
    rewrite Nat.add_comm, <- drop_drop.
    rewrite (drop_app_le l1 l2 (length l1 - n)) by lia.
    f_equal. lia.
Qed.

Lemma slice_last_length {A} (n : nat) (l : list A) :
  length (slice_last n l) = (n `min` length l)%nat.
Proof. unfold slice_last. rewrite length_drop. lia. Qed.

Lemma slice_last_last {A} (n : nat) (l : list A) (x : A) :
  (1 ≤ n)%nat → last (slice_last n (l ++ [x])) = Some x.
Proof.
  intros Hn. unfold slice_last. rewrite length_app. simpl length.
  rewrite drop_app_le by lia. apply last_snoc.
Qed.

Lemma slice_last_newest {A} (n : nat) (l1 l2 : list A) :
  (1 ≤ n)%nat → l2 ≠ [] → last (slice_last n (l1 ++ l2)) = last l2.
Proof.
  intros Hn Hne. destruct (exists_last Hne) as (front & x & ->).
  rewrite app_assoc, slice_last_last by exact Hn. symmetry. apply last_snoc.
Qed.

Lemma getSessionId_spec (h : Host) (st : storage) :
  ∃ sid, getSessionId h st = (set_session_id sid st, sid) ∧ sid ≠ ""
         ∧ (∀ s, flai_session_id st = Some s → s ≠ "" → sid = s).
Proof.
  unfold getSessionId.
  destruct (flai_session_id st) as [s|] eqn:E.
  - destruct (String.eqb_spec s "") as [->|Hne]; simpl.
    + eexists. split; [reflexivity|]. split; [discriminate|].
      intros s [= <-] Hs. contradiction.
    + exists s. split.
      * f_equal. destruct st; simpl in *. subst. reflexivity.
      * split; [exact Hne|]. intros s' [= <-] _. reflexivity.
  - eexists. split; [reflexivity|]. split; [discriminate|]. intros s [=].
Qed.

Lemma getSessionId_again (h : Host) (st : storage) (sid : string) :
  sid ≠ "" → getSessionId h (set_session_id sid st) = (set_session_id sid st, sid).
Proof.
  intros Hne. unfold getSessionId. simpl.
  destruct (String.eqb_spec sid ""); [contradiction|reflexivity].
Qed.

Lemma getSessionId_stored (h : Host) (st : storage) (sid : string) :
  flai_session_id st = Some sid → sid ≠ "" → getSessionId h st = (st, sid).
Proof.
  intros Hs Hne. unfold getSessionId. rewrite Hs.
  destruct (String.eqb_spec sid ""); [contradiction|reflexivity].
Qed.

Lemma trackShareEvent_stored (h : Host) (platform context sid : string)
    (mem : list ShareEvent) (st : storage) (old : list ShareEvent) :
  flai_session_id st = Some sid → sid ≠ "" →
  readsAs (flai_share_events st) old →
  trackShareEvent h platform context mem st
  = (mem ++ [eventOf sid (h, platform, context)],
     set_share_events (slice_last 100 (old ++ [eventOf sid (h, platform, context)])) st).
Proof.
  intros Hs Hne Hold. unfold trackShareEvent.
  rewrite (getSessionId_stored h st sid Hs Hne).
  unfold readsAs in Hold. rewrite Hold. reflexivity.
Qed.

Lemma trackAll_stored (calls : list (Host * string * string)) :
  ∀ (mem : list ShareEvent) (st : storage) (old : list ShareEvent) (sid : string),
    calls ≠ [] →
    flai_session_id st = Some sid → sid ≠ "" →
    readsAs (flai_share_events st) old →
    trackAll calls mem st
    = (mem ++ map (eventOf sid) calls,
       set_share_events (slice_last 100 (old ++ map (eventOf sid) calls)) st).
Proof.
  induction calls as [|[[h platform] context] rest IH];
    intros mem st old sid Hcalls Hs Hne Hold; [congruence|].
  simpl trackAll.
  rewrite (trackShareEvent_stored h platform context sid mem st old Hs Hne Hold).
  destruct rest as [|call rest]; [reflexivity|].
  rewrite (IH _ _ (slice_last 100 (old ++ [eventOf sid (h, platform, context)])) sid);
    [|discriminate|exact Hs|exact Hne|reflexivity].
  rewrite <- app_assoc. f_equal.
  unfold set_share_events. cbn [flai_page_visits flai_referrals flai_session_id].
  rewrite slice_last_app, <- app_assoc. reflexivity.
Qed.

(** X19.  Share events tracked one after another: each call appends its event to
    the events of the object; the storage keeps the last 100 of what was
    stored and what was tracked since, in order, so the newest event is
    always stored; every event carries one session id, the stored one when
    there is one; the other keys stay as they are. *)
Theorem tracked_shares_keep_last_hundred (h : Host) (platform context : string)
    (rest : list (Host * string * string)) (mem old : list ShareEvent)
    (st : storage) :
  readsAs (flai_share_events st) old →
  let calls := (h, platform, context) :: rest in
  let sid := (getSessionId h st).2 in
  let events := map (eventOf sid) calls in
  ∃ st' stored,
    trackAll calls mem st = (mem ++ events, st')
    ∧ flai_share_events st' = Some (Doc stored)
    ∧ stored = slice_last 100 (old ++ events)
    ∧ (length stored ≤ 100)%nat
    ∧ last stored = last events
    ∧ flai_session_id st' = Some sid
    ∧ sid ≠ ""
    ∧ (∀ s, flai_session_id st = Some s → s ≠ "" → sid = s)
    ∧ flai_page_visits st' = flai_page_visits st
    ∧ flai_referrals st' = flai_referrals st.
Proof.
  intros Hold calls sid events.
  destruct (getSessionId_spec h st) as (sid' & Hget & Hne & Hsame).
  assert (Hsid : sid = sid') by (subst sid; rewrite Hget; reflexivity).
  clearbody sid. subst sid'.
  assert (Hfirst : trackAll calls mem st = trackAll calls mem (set_session_id sid st)).
  { subst calls. simpl trackAll. unfold trackShareEvent.
    rewrite Hget, (getSessionId_again h st sid Hne). reflexivity. }
  rewrite Hfirst.
  rewrite (trackAll_stored calls mem (set_session_id sid st) old sid);
    [|subst calls; discriminate|reflexivity|exact Hne|exact Hold].
  eexists _, _. split; [reflexivity|]. split; [reflexivity|]. split; [reflexivity|].
  split; [rewrite slice_last_length; lia|].
  split.
  { apply slice_last_newest; [lia|]. subst events calls. discriminate. }
  split; [reflexivity|]. split; [exact Hne|]. split; [exact Hsame|].
  split; reflexivity.
Qed.

(** X21.  [getViralAnalytics] of the export reads the three keys in one [try]:
    readable keys are returned as stored; one key whose text does not parse
    makes all three lists empty, the readable ones too; a key that holds
    [null] yields [null] for that list alone. *)
Theorem viral_analytics_all_or_nothing (st : storage) :
  (∀ shares visits refs,
     readsAs (flai_share_events st) shares →
     readsAs (flai_page_visits st) visits →
     readsAs (flai_referrals st) refs →
     getViralAnalytics st
     = {| share_events := Some shares; page_visits := Some visits;
          referrals := Some refs |})
  ∧ ((∃ s, s ≠ "" ∧ (flai_share_events st = Some (Garbled s)
                     ∨ flai_page_visits st = Some (Garbled s)
                     ∨ flai_referrals st = Some (Garbled s))) →
     getViralAnalytics st
     = {| share_events := Some []; page_visits := Some []; referrals := Some [] |})
  ∧ (∀ visits refs,
       flai_share_events st = Some Null →
       readsAs (flai_page_visits st) visits →
       readsAs (flai_referrals st) refs →
       getViralAnalytics st
       = {| share_events := None; page_visits := Some visits; referrals := Some refs |}).
Proof.
  unfold readsAs, getViralAnalytics. split; [|split].
  - intros shares visits refs -> -> ->. reflexivity.
  - intros (s & Hne & Hcase).
    assert (Hthrow : ∀ A (cell : option (item (list A))),
               cell = Some (Garbled s) → parse_or_empty cell = JS.Throw JS.SyntaxError).
    { intros A cell ->. simpl. destruct (String.eqb_spec s ""); [contradiction|reflexivity]. }
    destruct Hcase as [H|[H|H]]; rewrite (Hthrow _ _ H).
    + reflexivity.
    + destruct (parse_or_empty (flai_share_events st)); reflexivity.
    + destruct (parse_or_empty (flai_share_events st)); [|reflexivity].
      destruct (parse_or_empty (flai_page_visits st)); reflexivity.
  - intros visits refs -> -> ->. reflexivity.
Qed.

Lemma trackPageVisit_spec (h : Host) (st : storage) :
  let sid := (getSessionId h st).2 in
  let st1 := trackPageVisit h st in
  flai_session_id st1 = Some sid
  ∧ flai_share_events st1 = flai_share_events st
  ∧ flai_referrals st1 = flai_referrals st
  ∧ (∀ visits, readsAs (flai_page_visits st) visits →
       flai_page_visits st1 = Some (Doc (slice_last 50 (visits ++ [visitOf sid h]))))
  ∧ (corrupt (flai_page_visits st) → flai_page_visits st1 = flai_page_visits st).
Proof.
  intros sid st1. subst sid st1. unfold trackPageVisit.
  destruct (getSessionId_spec h st) as (sid & -> & _ & _).
  cbn [snd set_session_id flai_page_visits].
  split; [|split; [|split; [|split]]].
  - destruct (parse_or_empty (flai_page_visits st)) as [[l|]|e]; reflexivity.
  - destruct (parse_or_empty (flai_page_visits st)) as [[l|]|e]; reflexivity.
  - destruct (parse_or_empty (flai_page_visits st)) as [[l|]|e]; reflexivity.
  - intros visits Hv. unfold readsAs in Hv. rewrite Hv. reflexivity.
  - intros Hc. destruct (Saving.corrupt_throws _ Hc) as [-> | ->]; reflexivity.
Qed.

Lemma setupTrackingUrls_spec (h : Host) (st : storage) (refs : list Referral) :
  readsAs (flai_referrals st) refs →
  let st' := setupTrackingUrls h st in
  flai_session_id st' = flai_session_id st
  ∧ flai_share_events st' = flai_share_events st
  ∧ flai_page_visits st' = flai_page_visits st
  ∧ (∀ s, utm_source h = Some s → s ≠ "" →
       flai_referrals st' = Some (Doc (slice_last 100 (refs ++ [referralOf s h]))))
  ∧ (∀ s, blank (utm_source h) → ref h = Some s → s ≠ "" →
       flai_referrals st' = Some (Doc (slice_last 100 (refs ++ [referralOf s h]))))
  ∧ (blank (utm_source h) → blank (ref h) → flai_referrals st' = flai_referrals st).
Proof.
  intros Hr st'. subst st'. unfold setupTrackingUrls, readsAs in *.
  assert (Hutm : ∀ s, utm_source h = Some s → s ≠ "" →
                      param_or (utm_source h) (ref h) = Some s).
  { intros s Hu Hs. unfold param_or. rewrite Hu.
    destruct (String.eqb_spec s ""); [contradiction|reflexivity]. }
  assert (Href : ∀ s, blank (utm_source h) → ref h = Some s →
                      param_or (utm_source h) (ref h) = Some s).
  { intros s [Hu|Hu] Hs; unfold param_or; rewrite Hu, Hs; reflexivity. }
  assert (Hnone : blank (utm_source h) → blank (ref h) →
                  param_or (utm_source h) (ref h) = None
                  ∨ param_or (utm_source h) (ref h) = Some "").
  { intros [Hu|Hu] [Hb|Hb]; unfold param_or; rewrite Hu, Hb; simpl; tauto. }
  destruct (param_or (utm_source h) (ref h)) as [source|] eqn:E.
  - destruct (String.eqb_spec source "") as [->|Hne]; cbn [negb].
    + repeat (split; [reflexivity|]).
      split; [intros s Hu Hs; specialize (Hutm s Hu Hs); congruence|].
      split; [intros s Hu Hb Hs; specialize (Href s Hu Hb); congruence|].
      reflexivity.
    + rewrite Hr.
      repeat (split; [reflexivity|]).
      split; [intros s Hu Hs; specialize (Hutm s Hu Hs); injection Hutm as ->; reflexivity|].
      split; [intros s Hu Hb Hs; specialize (Href s Hu Hb); injection Href as ->; reflexivity|].
      intros Hu Hb. destruct (Hnone Hu Hb) as [Hn|Hn]; congruence.
  - repeat (split; [reflexivity|]).
    split; [intros s Hu Hs; specialize (Hutm s Hu Hs); congruence|].
    split; [intros s Hu Hb Hs; specialize (Href s Hu Hb); congruence|].
    reflexivity.
Qed.

(** X20.  A page load records one visit and at most one referral: the visit is
    appended to the readable visits, of which the last 50 are kept, under the
    session id, which is created when none is stored; the referral is
    appended to the referrals, of which the last 100 are kept, for a
    non-empty [utm_source], else for a non-empty [ref], and none is recorded
    without either; a visits key that holds [null] or does not parse stays
    as it is and does not keep the referral from being recorded; the share
    events are not touched. *)
Theorem page_load_records_visit_and_referral (h : Host) (st : storage)
    (refs : list Referral) :
  readsAs (flai_referrals st) refs →
  let sid := (getSessionId h st).2 in
  let st' := initializeSharing h st in
  flai_session_id st' = Some sid
  ∧ sid ≠ ""
  ∧ flai_share_events st' = flai_share_events st
  ∧ (∀ visits, readsAs (flai_page_visits st) visits →
       flai_page_visits st' = Some (Doc (slice_last 50 (visits ++ [visitOf sid h])))
       ∧ (length (slice_last 50 (visits ++ [visitOf sid h])) ≤ 50)%nat
       ∧ last (slice_last 50 (visits ++ [visitOf sid h])) = Some (visitOf sid h))
  ∧ (corrupt (flai_page_visits st) → flai_page_visits st' = flai_page_visits st)
  ∧ (∀ s, utm_source h = Some s → s ≠ "" →
       flai_referrals st' = Some (Doc (slice_last 100 (refs ++ [referralOf s h]))))
  ∧ (∀ s, blank (utm_source h) → ref h = Some s → s ≠ "" →
       flai_referrals st' = Some (Doc (slice_last 100 (refs ++ [referralOf s h]))))
  ∧ (blank (utm_source h) → blank (ref h) → flai_referrals st' = flai_referrals st).
Proof.
  intros Hr sid st'. subst st'. unfold initializeSharing.
  destruct (trackPageVisit_spec h st) as (Hsid & Hshares & Hrefs & Hvisits & Hcorrupt).
  fold sid in Hsid, Hvisits.
  assert (Hr1 : readsAs (flai_referrals (trackPageVisit h st)) refs).
  { unfold readsAs. rewrite Hrefs. exact Hr. }
  destruct (setupTrackingUrls_spec h (trackPageVisit h st) refs Hr1)
    as (Hsid' & Hshares' & Hvisits' & Hutm & Href & Hnone).
  split; [rewrite Hsid'; exact Hsid|].
  split.
  { subst sid. destruct (getSessionId_spec h st) as (s & -> & Hne & _). exact Hne. }
  split; [rewrite Hshares'; exact Hshares|].
  split.
  { intros visits Hv. rewrite Hvisits', (Hvisits visits Hv).
    split; [reflexivity|]. split.
    - rewrite slice_last_length. lia.
    - apply slice_last_last. lia. }
  split; [intros Hc; rewrite Hvisits'; apply Hcorrupt, Hc|].
  split; [exact Hutm|]. split; [exact Href|].
  intros Hu Hb. rewrite (Hnone Hu Hb). exact Hrefs.
Qed.

(** *** At the sample visitor *)

Lemma tracked_shares_keep_last_hundred_witness :
  ∃ st' stored,
    trackAll (replicate 101 (Cases.visitor, "linkedin", "social_button")) [] Cases.fresh
    = ([] ++ map (eventOf "session_1700000000000_k3j9x0q1z")
                 (replicate 101 (Cases.visitor, "linkedin", "social_button")),
       st')
    ∧ flai_share_events st' = Some (Doc stored)
    ∧ length stored = 100%nat
    ∧ flai_session_id st' = Some "session_1700000000000_k3j9x0q1z".
Proof.
  destruct (tracked_shares_keep_last_hundred Cases.visitor "linkedin" "social_button"
              (replicate 100 (Cases.visitor, "linkedin", "social_button")) [] []
              Cases.fresh eq_refl)
    as (st' & stored & Hrun & Hstored & Heq & _ & _ & Hsid & _).
  exists st', stored.
  split; [exact Hrun|]. split; [exact Hstored|]. split; [|exact Hsid].
  rewrite Heq. vm_compute. reflexivity.
Defined.

Lemma viral_analytics_all_or_nothing_witness :
  getViralAnalytics Cases.brokenVisits
  = {| share_events := Some []; page_visits := Some []; referrals := Some [] |}
  ∧ flai_share_events Cases.brokenVisits ≠ Some (Doc []).
Proof.
  split; [|discriminate].
  apply viral_analytics_all_or_nothing.
  exists "[{". split; [discriminate|]. right. left. reflexivity.
Defined.

Lemma page_load_records_visit_and_referral_witness :
  flai_session_id (initializeSharing Cases.visitor Cases.fresh)
  = Some "session_1700000000000_k3j9x0q1z"
  ∧ flai_page_visits (initializeSharing Cases.visitor Cases.fresh)
    = Some (Doc [visitOf "session_1700000000000_k3j9x0q1z" Cases.visitor])
  ∧ flai_referrals (initializeSharing Cases.visitor Cases.fresh)
    = Some (Doc [referralOf "linkedin" Cases.visitor]).
Proof.
  destruct (page_load_records_visit_and_referral Cases.visitor Cases.fresh [] eq_refl)
    as (Hsid & _ & _ & Hvisits & _ & _ & Href & _).
  split; [exact Hsid|].
  split; [exact (proj1 (Hvisits [] eq_refl))|].
  apply (Href "linkedin"); [left; reflexivity|reflexivity|discriminate].
Defined.

End Shares.

(** ** Binary64 rounding is monotone *)

Module Float.

Import Binary64.

Local Open Scope Q_scope.

Lemma pow2_pos (e : Z) : 0 < pow2 e.
Proof. apply Qpower_0_lt. reflexivity. Qed.

Lemma pow2_add (a b : Z) : pow2 (a + b) == pow2 a * pow2 b.
Proof. apply Qpower_plus. discriminate. Qed.

Lemma pow2_le (a b : Z) : (a ≤ b)%Z → pow2 a <= pow2 b.
Proof. intros H. apply Qpower_le_compat_l; [exact H|discriminate]. Qed.

Lemma pow2_opp (e : Z) : pow2 (- e) * pow2 e == 1.
Proof.
  rewrite <- pow2_add. replace (- e + e)%Z with 0%Z by lia. reflexivity.
Qed.

Lemma pow2_Z (n : Z) : (0 ≤ n)%Z → pow2 n == inject_Z (2 ^ n).
Proof. intros H. symmetry. apply (Zpower_Qpower 2 n H). Qed.

Lemma Q_parts (x : Q) : x * inject_Z (Z.pos (Qden x)) == inject_Z (Qnum x).
Proof.
  destruct x as [a b]. unfold Qeq, Qmult, inject_Z. simpl. lia.
Qed.

Lemma log2_bounds (n : Z) :
  (0 < n)%Z → pow2 (Z.log2 n) <= inject_Z n ∧ inject_Z n < pow2 (Z.log2 n + 1).
Proof.
  intros Hn. destruct (Z.log2_spec n Hn) as [Hlo Hhi].
  pose proof (Z.log2_nonneg n) as Hnn.
  rewrite !pow2_Z by lia. rewrite <- Zle_Qle, <- Zlt_Qlt.
  split; [exact Hlo|]. replace (Z.log2 n + 1)%Z with (Z.succ (Z.log2 n)) by lia. exact Hhi.
Qed.

Lemma ilog2_spec (x : Q) :
  0 < x → pow2 (ilog2 x) <= x ∧ x < pow2 (ilog2 x + 1).
Proof.
  intros Hx. unfold ilog2.
  set (la := Z.log2 (Qnum x)). set (lb := Z.log2 (Z.pos (Qden x))).
  assert (Ha : (0 < Qnum x)%Z).
  { destruct x as [a b]. unfold Qlt in Hx. simpl in *. lia. }
  destruct (log2_bounds (Qnum x) Ha) as [Ha1 Ha2].
  destruct (log2_bounds (Z.pos (Qden x)) ltac:(lia)) as [Hb1 Hb2].
  fold la in Ha1, Ha2. fold lb in Hb1, Hb2.
  pose proof (Q_parts x) as Hparts.
  set (A := inject_Z (Qnum x)) in *. set (B := inject_Z (Z.pos (Qden x))) in *.
  pose proof (pow2_pos lb) as Hlb.
  destruct (Qle_bool (pow2 (la - lb)) x) eqn:E.
  - apply Qle_bool_iff in E. split; [exact E|].
    pose proof (pow2_add (la - lb + 1) lb) as Hs.
    replace (la - lb + 1 + lb)%Z with (la + 1)%Z in Hs by lia.
    pose proof (pow2_pos (la - lb + 1)) as Hp.
    set (T := pow2 (la - lb + 1)) in *. set (P := pow2 (la + 1)) in *.
    set (Pb := pow2 lb) in *.
    apply Qnot_le_lt. intros Hle. nra.
  - assert (Hlt : x < pow2 (la - lb)).
    { apply Qnot_le_lt. intros H. apply Qle_bool_iff in H. congruence. }
    replace (la - lb - 1 + 1)%Z with (la - lb)%Z by lia.
    split; [|exact Hlt].
    pose proof (pow2_add (la - lb - 1) (lb + 1)) as Hs.
    replace (la - lb - 1 + (lb + 1))%Z with la in Hs by lia.
    pose proof (pow2_pos (la - lb - 1)) as Hp.
    set (U := pow2 (la - lb - 1)) in *. set (P := pow2 la) in *.
    set (Pb := pow2 (lb + 1)) in *.
    apply Qnot_lt_le. intros Hgt. nra.
Qed.

Lemma ilog2_mono (x y : Q) : 0 < x → x <= y → (ilog2 x ≤ ilog2 y)%Z.
Proof.
  intros Hx Hxy.
  destruct (ilog2_spec x Hx) as [Hx1 _].
  destruct (ilog2_spec y ltac:(lra)) as [_ Hy2].
  destruct (Z_le_gt_dec (ilog2 x) (ilog2 y)) as [H|H]; [exact H|].
  pose proof (pow2_le (ilog2 y + 1) (ilog2 x) ltac:(lia)). lra.
Qed.

Lemma nearest_even_floor (x : Q) :
  (Qfloor x ≤ nearest_even x ≤ Qfloor x + 1)%Z.
Proof.
  unfold nearest_even. destruct (_ ?= _); [destruct (Z.even _)| |]; lia.
Qed.

Lemma nearest_even_ge (x : Q) (n : Z) : inject_Z n <= x → (n ≤ nearest_even x)%Z.
Proof.
  intros H. pose proof (nearest_even_floor x) as [Hf _].
  pose proof (Qfloor_resp_le _ _ H) as Hn. rewrite Qfloor_Z in Hn. lia.
Qed.

Lemma nearest_even_le (x : Q) (n : Z) : x <= inject_Z n → (nearest_even x ≤ n)%Z.
Proof.
  intros H. pose proof (nearest_even_floor x) as [_ Hf].
  pose proof (Qfloor_resp_le _ _ H) as Hn. rewrite Qfloor_Z in Hn.
  destruct (Z.eq_dec (Qfloor x) n) as [E|E]; [|lia].
  unfold nearest_even. rewrite E.
  destruct (Qcompare_spec (x - inject_Z n) (1 # 2)) as [Hx|Hx|Hx]; [lra|lia|lra].
Qed.

Lemma nearest_even_mono (x y : Q) : x <= y → (nearest_even x ≤ nearest_even y)%Z.
Proof.
  intros H.
  pose proof (Qfloor_resp_le _ _ H) as Hf.
  pose proof (nearest_even_floor x) as [_ Hx].
  pose proof (nearest_even_floor y) as [Hy _].
  destruct (Z.eq_dec (Qfloor x) (Qfloor y)) as [E|E]; [|lia].
  unfold nearest_even. rewrite <- E.
  set (f := Qfloor x).
  destruct (Qcompare_spec (x - inject_Z f) (1 # 2)) as [Hx'|Hx'|Hx'];
    destruct (Qcompare_spec (y - inject_Z f) (1 # 2)) as [Hy'|Hy'|Hy'];
    try destruct (Z.even f); try lia; lra.
Qed.

Lemma scaled_lt (x : Q) (e n : Z) :
  0 < x → x < pow2 (e + n) → x * pow2 (- e) < pow2 n.
Proof.
  intros Hx Hlt. rewrite pow2_add in Hlt.
  pose proof (pow2_opp e). pose proof (pow2_pos e). pose proof (pow2_pos (- e)).
  pose proof (pow2_pos n).
  set (I := pow2 (- e)) in *. set (E := pow2 e) in *. set (N := pow2 n) in *.
  nra.
Qed.

Lemma scaled_ge (x : Q) (e n : Z) :
  pow2 (e + n) <= x → pow2 n <= x * pow2 (- e).
Proof.
  intros Hle. rewrite pow2_add in Hle.
  pose proof (pow2_opp e). pose proof (pow2_pos e). pose proof (pow2_pos (- e)).
  pose proof (pow2_pos n).
  set (I := pow2 (- e)) in *. set (E := pow2 e) in *. set (N := pow2 n) in *.
  nra.
Qed.

Lemma last_place_mono (x y : Q) : 0 < x → x <= y → (last_place x ≤ last_place y)%Z.
Proof.
  intros Hx Hxy. pose proof (ilog2_mono x y Hx Hxy). unfold last_place. lia.
Qed.

(** The significand has at most 53 bits, and exactly 53 above the
    subnormal numbers. *)
Lemma significand_le (x : Q) :
  0 < x → (nearest_even (x * pow2 (- last_place x)) ≤ 2 ^ 53)%Z.
Proof.
  intros Hx. apply nearest_even_le. rewrite <- pow2_Z by lia.
  apply Qlt_le_weak, scaled_lt; [exact Hx|].
  destruct (ilog2_spec x Hx) as [_ Hhi].
  eapply Qlt_le_trans; [exact Hhi|]. apply pow2_le. unfold last_place. lia.
Qed.

Lemma significand_ge (x : Q) :
  0 < x → (-1074 < last_place x)%Z →
  (2 ^ 52 ≤ nearest_even (x * pow2 (- last_place x)))%Z.
Proof.
  intros Hx Hnormal. apply nearest_even_ge. rewrite <- pow2_Z by lia.
  apply scaled_ge.
  destruct (ilog2_spec x Hx) as [Hlo _].
  eapply Qle_trans; [|exact Hlo]. apply pow2_le. unfold last_place in *. lia.
Qed.

Lemma nearest_nonneg (x : Q) : 0 < x → 0 <= nearest x.
Proof.
  intros Hx. unfold nearest.
  assert (H : (0 ≤ nearest_even (x * pow2 (- last_place x)))%Z).
  { apply nearest_even_ge. pose proof (pow2_pos (- last_place x)).
    change (inject_Z 0) with 0. nra. }
  apply Qmult_le_0_compat; [|apply Qlt_le_weak, pow2_pos].
  change 0 with (inject_Z 0). rewrite <- Zle_Qle. exact H.
Qed.

Lemma nearest_mono (x y : Q) : 0 < x → x <= y → nearest x <= nearest y.
Proof.
  intros Hx Hxy. assert (Hy : 0 < y) by lra.
  pose proof (last_place_mono x y Hx Hxy) as He.
  unfold nearest.
  destruct (Z.eq_dec (last_place x) (last_place y)) as [E|E].
  - rewrite E. apply Qmult_le_compat_r; [|apply Qlt_le_weak, pow2_pos].
    rewrite <- Zle_Qle. apply nearest_even_mono.
    apply Qmult_le_compat_r; [exact Hxy|apply Qlt_le_weak, pow2_pos].
  - pose proof (significand_le x Hx) as Hmx.
    assert (Hnormal : (-1074 < last_place y)%Z) by (unfold last_place in *; lia).
    pose proof (significand_ge y Hy Hnormal) as Hmy.
    rewrite Zle_Qle in Hmx, Hmy. rewrite <- !pow2_Z in Hmx, Hmy by lia.
    pose proof (pow2_le (last_place x + 53) (last_place y + 52) ltac:(lia)) as Hp.
    rewrite !pow2_add in Hp.
    pose proof (pow2_pos (last_place x)). pose proof (pow2_pos (last_place y)).
    set (mx := inject_Z (nearest_even (x * pow2 (- last_place x)))) in *.
    set (my := inject_Z (nearest_even (y * pow2 (- last_place y)))) in *.
    set (Ex := pow2 (last_place x)) in *. set (Ey := pow2 (last_place y)) in *.
    set (P53 := pow2 53) in *. set (P52 := pow2 52) in *.
    nra.
Qed.

Lemma rounded_nonneg (x : Q) : 0 <= x → 0 <= rounded x.
Proof.
  intros Hx. unfold rounded.
  destruct (Qcompare_spec x 0) as [H|H|H]; [lra|lra|].
  apply nearest_nonneg, H.
Qed.

Lemma rounded_mono (x y : Q) : 0 <= x → x <= y → rounded x <= rounded y.
Proof.
  intros Hx Hxy. pose proof (rounded_nonneg y ltac:(lra)) as Hy.
  unfold rounded in *.
  destruct (Qcompare_spec x 0) as [H|H|H]; [exact Hy|lra|].
  destruct (Qcompare_spec y 0) as [H'|H'|H']; [lra|lra|].
  apply nearest_mono; assumption.
Qed.

(** Below the largest binary64 number nothing overflows. *)
Lemma round_rounded (x bound : Q) :
  0 <= x → x <= bound → Qle_bool (pow2 1024) (rounded bound) = false →
  round x = JS.Fin (rounded x).
Proof.
  intros Hx Hb Hsmall. unfold round.
  pose proof (rounded_nonneg x Hx) as H0.
  pose proof (rounded_mono x bound Hx Hb) as H1.
  destruct (Qle_bool (pow2 1024) (Qabs (rounded x))) eqn:E; [|reflexivity].
  apply Qle_bool_iff in E. rewrite Qabs_pos in E by exact H0.
  assert (Hbig : pow2 1024 <= rounded bound) by lra.
  apply Qle_bool_iff in Hbig. congruence.
Qed.

Lemma rounded_one : rounded 1 == 1.
Proof. vm_compute. reflexivity. Qed.

Lemma one_is_small : Qle_bool (pow2 1024) (rounded 1) = false.
Proof. vm_compute. reflexivity. Qed.

Lemma hundred_is_small : Qle_bool (pow2 1024) (rounded (inject_Z 100)) = false.
Proof. vm_compute. reflexivity. Qed.

Lemma fraction_le (a b c d : Z) :
  (0 < b)%Z → (0 < d)%Z → (a * d ≤ c * b)%Z →
  inject_Z a / inject_Z b <= inject_Z c / inject_Z d.
Proof.
  intros Hb Hd H.
  apply Qle_shift_div_l; [change 0 with (inject_Z 0); rewrite <- Zlt_Qlt; exact Hd|].
  unfold Qdiv. rewrite <- Qmult_assoc, (Qmult_comm (/ _)), Qmult_assoc.
  apply Qle_shift_div_r; [change 0 with (inject_Z 0); rewrite <- Zlt_Qlt; exact Hb|].
  rewrite <- !inject_Z_mult, <- Zle_Qle. exact H.
Qed.

(** A whole percentage survives the division by 100 and the
    multiplication by 100, each rounded to binary64. *)
Lemma whole_percent (j : Z) :
  (0 ≤ j ≤ 100)%Z →
  Qfloor (rounded (rounded (inject_Z j / inject_Z 100) * inject_Z 100) + (1 # 2)) = j.
Proof.
  intros Hj.
  assert (Hall :
    forallb (λ j, Z.eqb (Qfloor (rounded (rounded (inject_Z j / inject_Z 100)
                                          * inject_Z 100) + (1 # 2))) j)
            (map Z.of_nat (seq 0 101)) = true) by (vm_compute; reflexivity).
  rewrite forallb_forall in Hall. apply Z.eqb_eq, Hall.
  apply in_map_iff. exists (Z.to_nat j). split; [lia|].
  apply in_seq. lia.
Qed.

(** [Math.round((k / n) * 100)] in binary64, for [0 <= k <= n], [0 < n]:
    between the percentage rounded down and the percentage rounded up. *)
Lemma percent_rounding (k n : Z) :
  (0 ≤ k ≤ n)%Z → (0 < n)%Z →
  ∃ rate,
    JS.Math_round (mul (div (JS.of_Z k) (JS.of_Z n)) (JS.of_Z 100)) = JS.Int rate
    ∧ (100 * k / n ≤ rate ≤ (100 * k + n - 1) / n)%Z.
Proof.
  intros Hk Hn.
  set (x := inject_Z k / inject_Z n).
  assert (Hx0 : 0 <= x).
  { change 0 with (inject_Z 0 / inject_Z 1). apply fraction_le; lia. }
  assert (Hx1 : x <= 1).
  { change 1 with (inject_Z 1 / inject_Z 1). apply fraction_le; lia. }
  assert (Hdiv : div (JS.of_Z k) (JS.of_Z n) = JS.Fin (rounded x)).
  { unfold div, JS.div, JS.of_Z.
    replace (JS.is_zero (inject_Z n)) with false
      by (destruct n; try lia; reflexivity).
    apply (round_rounded x 1 Hx0 Hx1 one_is_small). }
  pose proof (rounded_nonneg x Hx0) as Hq0.
  pose proof (rounded_mono x 1 Hx0 Hx1) as Hq1. rewrite rounded_one in Hq1.
  set (q := rounded x) in *.
  assert (Hmul : mul (JS.Fin q) (JS.of_Z 100) = JS.Fin (rounded (q * inject_Z 100))).
  { unfold mul, JS.mul, JS.of_Z.
    apply (round_rounded _ (inject_Z 100)); [| |exact hundred_is_small].
    - apply Qmult_le_0_compat; [exact Hq0|discriminate].
    - rewrite <- (Qmult_1_l (inject_Z 100)) at 2.
      apply Qmult_le_compat_r; [exact Hq1|discriminate]. }
  rewrite Hdiv, Hmul. unfold JS.Math_round.
  eexists. split; [reflexivity|].
  set (lower := (100 * k / n)%Z). set (upper := ((100 * k + n - 1) / n)%Z).
  assert (Hlower : (0 ≤ lower ≤ 100)%Z ∧ (lower * n ≤ 100 * k)%Z).
  { subst lower. pose proof (Z.mul_div_le (100 * k) n Hn).
    split; [split|lia].
    - apply Z.div_pos; lia.
    - apply Z.div_le_upper_bound; lia. }
  assert (Hupper : (0 ≤ upper ≤ 100)%Z ∧ (100 * k ≤ upper * n)%Z).
  { subst upper.
    pose proof (Z.div_mod (100 * k + n - 1) n ltac:(lia)) as Hdm.
    pose proof (Z.mod_pos_bound (100 * k + n - 1) n Hn) as Hm.
    split; [split|lia].
    - apply Z.div_pos; lia.
    - enough ((100 * k + n - 1) / n < 101)%Z by lia.
      apply Z.div_lt_upper_bound; lia. }
  destruct Hlower as [Hl Hln]. destruct Hupper as [Hu Hun].
  assert (Hxl : inject_Z lower / inject_Z 100 <= x) by (apply fraction_le; lia).
  assert (Hxu : x <= inject_Z upper / inject_Z 100) by (apply fraction_le; lia).
  assert (Hl0 : 0 <= inject_Z lower / inject_Z 100).
  { change 0 with (inject_Z 0 / inject_Z 1). apply fraction_le; lia. }
  pose proof (rounded_mono _ _ Hl0 Hxl) as H1.
  pose proof (rounded_mono _ _ Hx0 Hxu) as H2.
  fold q in H1, H2.
  pose proof (rounded_nonneg _ Hl0) as H3.
  pose proof (whole_percent lower Hl) as Hwl.
  pose proof (whole_percent upper Hu) as Hwu.
  set (ql := rounded (inject_Z lower / inject_Z 100)) in *.
  set (qu := rounded (inject_Z upper / inject_Z 100)) in *.
  assert (Hc : 0 <= inject_Z 100) by discriminate.
  assert (H4 : rounded (ql * inject_Z 100) <= rounded (q * inject_Z 100)).
  { apply rounded_mono; [apply Qmult_le_0_compat|apply Qmult_le_compat_r]; assumption. }
  assert (H5 : rounded (q * inject_Z 100) <= rounded (qu * inject_Z 100)).
  { apply rounded_mono; [apply Qmult_le_0_compat|apply Qmult_le_compat_r]; assumption. }
  split.
  - rewrite <- Hwl at 1. apply Qfloor_resp_le. lra.
  - etransitivity; [|apply Z.eq_le_incl, Hwu]. apply Qfloor_resp_le. lra.
Qed.

End Float.

(** ** The statistics of the export *)

Module Figures.

Import Store Stored DataExport Statistics.

Lemma filter_filter_later {A} (stamp : A → Z) (t1 t2 : Z) (l : list A) :
  t1 ≤ t2 →
  filter (λ x, t2 < stamp x) (filter (λ x, t1 < stamp x) l) = filter (λ x, t2 < stamp x) l.
Proof.
  intros Ht. induction l as [|x l IH]; [reflexivity|].
  rewrite !filter_cons.
  destruct (decide (t1 < stamp x)); destruct (decide (t2 < stamp x));
    rewrite ?filter_cons; try (destruct (decide (t2 < stamp x)); [|]); try lia;
    rewrite ?IH; reflexivity.
Qed.

Lemma cleanOldData_readable (now : Z) (ls : localStorage) (st : Tracking.storage)
    (records : list Research.t) (events : list Tracking.ShareEvent) :
  readsAs (flai_research_data ls) records →
  readsAs (Tracking.flai_share_events st) events →
  cleanOldData now ls st
  = (set_research_data
       (filter (λ item, now - 2592000000 < Research.timestamp item) records) ls,
     Tracking.set_share_events
       (filter (λ item, now - 2592000000 < Tracking.timestamp item) events) st).
Proof.
  unfold readsAs, cleanOldData. intros -> ->. reflexivity.
Qed.

(** X22.  With both keys readable, [cleanOldData] keeps exactly the research
    records and share events stamped less than 30 days before [now], in
    their stored order, and touches no other key; cleaning again at the same
    time changes nothing, and cleaning later gives what cleaning later alone
    would have given. *)
Theorem old_data_is_dropped_in_order (now later : Z) (ls : localStorage)
    (st : Tracking.storage) (records : list Research.t)
    (events : list Tracking.ShareEvent) :
  readsAs (flai_research_data ls) records →
  readsAs (Tracking.flai_share_events st) events →
  now ≤ later →
  let recent (t : Z) := now - 30 * 86400000 < t in
  let '(ls', st') := cleanOldData now ls st in
  flai_research_data ls'
  = Some (Doc (filter (λ item, recent (Research.timestamp item)) records))
  ∧ Tracking.flai_share_events st'
    = Some (Doc (filter (λ item, recent (Tracking.timestamp item)) events))
  ∧ flai_leaderboard ls' = flai_leaderboard ls
  ∧ flai_analytics ls' = flai_analytics ls
  ∧ Tracking.flai_page_visits st' = Tracking.flai_page_visits st
  ∧ Tracking.flai_referrals st' = Tracking.flai_referrals st
  ∧ Tracking.flai_session_id st' = Tracking.flai_session_id st
  ∧ cleanOldData now ls' st' = (ls', st')
  ∧ cleanOldData later ls' st' = cleanOldData later ls st.
Proof.
  intros Hr He Hlater recent.
  rewrite (cleanOldData_readable now ls st records events Hr He).
  repeat (split; [reflexivity|]).
  assert (Hagain : ∀ t r e,
    cleanOldData t (set_research_data r ls) (Tracking.set_share_events e st)
    = (set_research_data (filter (λ item, t - 2592000000 < Research.timestamp item) r) ls,
       Tracking.set_share_events
         (filter (λ item, t - 2592000000 < Tracking.timestamp item) e) st))
    by reflexivity.
  rewrite !Hagain. split.
  - rewrite !(filter_filter_later _ _ _ _ (Z.le_refl _)). reflexivity.
  - rewrite (cleanOldData_readable later ls st records events Hr He).
    rewrite !filter_filter_later by lia. reflexivity.
Qed.

(** X23.  A research key that holds [null] or a text that is not JSON stops
    [cleanOldData] before it writes anything, so the share events are not
    cleaned either; with a readable research key and such a share-events key
    the research data are cleaned and the share events stay. *)
Theorem corrupt_research_stops_cleaning (now : Z) (ls : localStorage)
    (st : Tracking.storage) :
  (corrupt (flai_research_data ls) → cleanOldData now ls st = (ls, st))
  ∧ (∀ records,
       readsAs (flai_research_data ls) records →
       corrupt (Tracking.flai_share_events st) →
       cleanOldData now ls st
       = (set_research_data
            (filter (λ item, now - 30 * 86400000 < Research.timestamp item) records) ls,
          st)).
Proof.
  split.
  - intros Hc. unfold cleanOldData.
    destruct (Saving.corrupt_throws _ Hc) as [-> | ->]; reflexivity.
  - unfold readsAs. intros records Hr Hc. unfold cleanOldData. rewrite Hr.
    destruct (Saving.corrupt_throws _ Hc) as [-> | ->]; reflexivity.
Qed.

Lemma share_of_list {A} (P : A → Prop) `{!∀ x, Decision (P x)} (l : list A) :
  let k := Z.of_nat (length (filter P l)) in
  let n := Z.of_nat (length l) in
  ∃ rate,
    (if (length l =? 0)%nat then JS.Int 0
     else JS.Math_round
            (Binary64.mul
               (Binary64.div (JS.of_nat (length (filter P l))) (JS.of_nat (length l)))
               (JS.of_Z 100)))
    = JS.Int rate
    ∧ 0 ≤ rate ≤ 100
    ∧ (l = [] → rate = 0)
    ∧ (l ≠ [] → 100 * k / n ≤ rate ≤ (100 * k + n - 1) / n)
    ∧ (l ≠ [] → (100 * k) `mod` n = 0 → rate = 100 * k / n).
Proof.
  intros k n.
  destruct (decide (l = [])) as [->|Hne].
  - exists 0. split; [reflexivity|]. split; [lia|]. split; [reflexivity|].
    split; congruence.
  - assert (Hlen : length l ≠ 0%nat) by (destruct l; [congruence|discriminate]).
    assert (Hn : 0 < n) by (subst n; lia).
    assert (Hk : 0 ≤ k ≤ n).
    { subst k n. split; [lia|]. apply Nat2Z.inj_le, length_filter. }
    rewrite (proj2 (Nat.eqb_neq _ _) Hlen).
    destruct (Float.percent_rounding k n Hk Hn) as (rate & Hrate & Hlo & Hhi).
    exists rate. split; [exact Hrate|].
    assert (H100 : (100 * k + n - 1) / n < 101) by (apply Z.div_lt_upper_bound; lia).
    assert (H0 : 0 ≤ 100 * k / n) by (apply Z.div_pos; lia).
    split; [lia|]. split; [intros Hnil; contradiction|].
    split; [intros _; lia|]. intros _ Hmod.
    enough ((100 * k + n - 1) / n = 100 * k / n) by lia.
    symmetry. apply (Z.div_unique_pos _ _ _ (n - 1)); [lia|].
    pose proof (Z.div_mod (100 * k) n ltac:(lia)). lia.
Qed.

(** X24.  [calculateGrowthRate] returns an integer between 0 and 100: 0
    without sessions; otherwise an integer between the percentage of the
    sessions stamped within the last 24 hours rounded down and that
    percentage rounded up, so the percentage itself when it is whole.  (It is
    not always the nearest integer: the quotient is rounded to binary64
    before it is multiplied by 100.) *)
Theorem growth_rate_is_a_percentage (now : Z) (ls : localStorage) :
  let sessions := getGameSessionsData ls in
  let today := filter (λ s, now - 86400000 < Session.timestamp s) sessions in
  let k := Z.of_nat (length today) in
  let n := Z.of_nat (length sessions) in
  ∃ rate,
    calculateGrowthRate now ls = JS.Int rate
    ∧ 0 ≤ rate ≤ 100
    ∧ (sessions = [] → rate = 0)
    ∧ (sessions ≠ [] → 100 * k / n ≤ rate ≤ (100 * k + n - 1) / n)
    ∧ (sessions ≠ [] → (100 * k) `mod` n = 0 → rate = 100 * k / n).
Proof.
  intros sessions today k n.
  exact (share_of_list (λ s, now - 86400000 < Session.timestamp s) sessions).
Qed.

Lemma foldl_decisions (sessions : list Session.t) (z : nat) :
  foldl (λ sum s, (sum + length (Session.decisions s))%nat) z sessions
  = (z + list_sum (map (λ s, length (Session.decisions s)) sessions))%nat.
Proof.
  revert z. induction sessions as [|s l IH]; intros z; simpl; [lia|].
  rewrite IH. lia.
Qed.

Lemma foldl_percentages (sessions : list Session.t) (z : Z) :
  foldl (λ sum s, sum + JS.to_arith (Performance.percentage (Session.performance s)))
        z sessions
  = z + foldr Z.add 0
          (map (λ s, JS.to_arith (Performance.percentage (Session.performance s))) sessions).
Proof.
  revert z. induction sessions as [|s l IH]; intros z; simpl; [lia|].
  rewrite IH. lia.
Qed.

Lemma distinct_bounds (strings : list string) :
  (distinct strings ≤ length strings)%nat
  ∧ (strings ≠ [] → 1 ≤ distinct strings)%nat.
Proof.
  unfold distinct. split.
  - induction strings as [|s l IH].
    + rewrite list_to_set_nil, size_empty. reflexivity.
    + rewrite list_to_set_cons. simpl length.
      rewrite size_union_alt, size_singleton.
      assert (Hsub : list_to_set l ∖ {[s]} ⊆ (list_to_set l : gset string))
        by (apply subseteq_difference_l; reflexivity).
      apply subseteq_size in Hsub. lia.
  - intros Hne. destruct strings as [|s l]; [congruence|].
    rewrite list_to_set_cons, size_union_alt, size_singleton. lia.
Qed.

Lemma all_complete (sessions : list Session.t) :
  Forall (λ s, length (Session.decisions s) = 10%nat) sessions →
  filter (λ s, length (Session.decisions s) = 10%nat) sessions = sessions
  ∧ list_sum (map (λ s, length (Session.decisions s)) sessions)
    = (10 * length sessions)%nat.
Proof.
  induction 1 as [|s l Hs _ [IH1 IH2]]; [split; reflexivity|].
  rewrite filter_cons. destruct (decide _); [|contradiction].
  simpl. rewrite IH1, IH2, Hs. split; [reflexivity|lia].
Qed.

Lemma ratio_bounds (c n : nat) :
  (c ≤ n)%nat → (0 < n)%nat →
  ∃ q, JS.div (JS.of_nat c) (JS.of_nat n) = JS.Fin q
       ∧ (0 <= q)%Q ∧ (q <= 1)%Q ∧ (c = n → q == 1).
Proof.
  intros Hc Hn. unfold JS.of_nat, JS.of_Z, JS.div.
  destruct n as [|k]; [lia|].
  replace (JS.is_zero (inject_Z (Z.of_nat (S k)))) with false by reflexivity.
  eexists. split; [reflexivity|].
  change (Z.of_nat (S k)) with (Z.pos (Pos.of_succ_nat k)).
  unfold Qdiv, Qmult, Qinv, inject_Z, Qle, Qeq. simpl.
  split; [lia|]. split; [lia|]. intros ->. lia.
Qed.

(** X25.  When [getAggregatedStats] returns: the totals count the stored
    sessions and their decisions; the numbers of distinct sectors and regions
    are at most the number of sessions, and at least 1 when there is one;
    without sessions the average and the completion rate are 0; otherwise the
    average is the rounded mean of the percentages (a stored [null] counts as
    0) and the completion rate lies between 0 and 1; when every session has
    ten decisions the decisions are ten times the sessions and the rate is
    1. *)
Theorem aggregated_stats_are_consistent (ls : localStorage) (st : Tracking.storage)
    (stats : AggregatedStats) :
  getAggregatedStats ls st = JS.Return stats →
  let sessions := getGameSessionsData ls in
  let n := length sessions in
  total_sessions stats = n
  ∧ total_decisions stats = list_sum (map (λ s, length (Session.decisions s)) sessions)
  ∧ (unique_sectors stats ≤ n)%nat
  ∧ (unique_regions stats ≤ n)%nat
  ∧ (n = 0%nat →
     average_score stats = JS.Int 0 ∧ completion_rate stats = JS.of_Z 0)
  ∧ ((0 < n)%nat →
     (1 ≤ unique_sectors stats)%nat ∧ (1 ≤ unique_regions stats)%nat
     ∧ average_score stats
       = JS.Int (Spec.roundDiv
                   (foldr Z.add 0
                      (map (λ s, JS.to_arith (Performance.percentage (Session.performance s)))
                           sessions))
                   (Z.of_nat n))
     ∧ ∃ q, completion_rate stats = JS.Fin q ∧ (0 <= q)%Q ∧ (q <= 1)%Q)
  ∧ (Forall (λ s, length (Session.decisions s) = 10%nat) sessions →
     total_decisions stats = (10 * n)%nat
     ∧ ((0 < n)%nat → ∃ q, completion_rate stats = JS.Fin q ∧ q == 1)).
Proof.
  intros Hstats sessions n. unfold getAggregatedStats in Hstats.
  fold sessions in Hstats. fold n in Hstats.
  destruct (array_length (Tracking.share_events _)) as [shares|]; [|discriminate].
  destruct (array_length (Tracking.referrals _)) as [refs|]; [|discriminate].
  destruct (array_length (Tracking.page_visits _)) as [views|]; [|discriminate].
  cbn [mbind completion_bind JS.bind mret completion_ret] in Hstats.
  injection Hstats as <-.
  cbn [total_sessions total_decisions unique_sectors unique_regions average_score
       completion_rate].
  pose proof (distinct_bounds (map (λ s, Demographics.sector (Session.demographics s)) sessions))
    as [Hs1 Hs2].
  pose proof (distinct_bounds (map (λ s, Demographics.region (Session.demographics s)) sessions))
    as [Hr1 Hr2].
  rewrite length_map in Hs1, Hr1. fold n in Hs1, Hr1.
  split; [reflexivity|].
  split; [rewrite foldl_decisions; reflexivity|].
  split; [exact Hs1|]. split; [exact Hr1|].
  split.
  { intros Hz. rewrite Hz. split; reflexivity. }
  split.
  { intros Hpos.
    assert (Hne : sessions ≠ []) by (intros E; subst n; rewrite E in Hpos; simpl in Hpos; lia).
    replace (0 <? n)%nat with true by (symmetry; apply Nat.ltb_lt; exact Hpos).
    split; [apply Hs2; intros E; apply map_eq_nil in E; contradiction|].
    split; [apply Hr2; intros E; apply map_eq_nil in E; contradiction|].
    split.
    - rewrite foldl_percentages, Z.add_0_l. unfold JS.of_nat.
      destruct (Z.of_nat n) as [|p|p] eqn:Ep; try lia.
      apply Math_round_div.
    - destruct (ratio_bounds
                  (length (filter (λ s, length (Session.decisions s) = 10%nat) sessions)) n)
        as (q & Hq & H0 & H1 & _); [apply length_filter|exact Hpos|].
      exists q. split; [exact Hq|]. split; assumption. }
  intros Hall. destruct (all_complete sessions Hall) as [Hfilter Hsum].
  split; [rewrite foldl_decisions, Hsum; reflexivity|].
  intros Hpos.
  replace (0 <? n)%nat with true by (symmetry; apply Nat.ltb_lt; exact Hpos).
  destruct (ratio_bounds
              (length (filter (λ s, length (Session.decisions s) = 10%nat) sessions)) n)
    as (q & Hq & _ & _ & Hone); [apply length_filter|exact Hpos|].
  exists q. split; [exact Hq|]. apply Hone. rewrite Hfilter. reflexivity.
Qed.

(** X26.  A share-events key that holds the text [null] makes
    [getAggregatedStats] throw a [TypeError], where a text that does not
    parse would have counted as no events. *)
Theorem null_viral_key_breaks_stats (ls : localStorage) (st : Tracking.storage)
    (visits : list Tracking.PageVisit) (refs : list Tracking.Referral) :
  Tracking.flai_share_events st = Some Null →
  readsAs (Tracking.flai_page_visits st) visits →
  readsAs (Tracking.flai_referrals st) refs →
  getAggregatedStats ls st = JS.Throw JS.TypeError.
Proof.
  unfold readsAs. intros Hnull Hv Hr.
  unfold getAggregatedStats, Tracking.getViralAnalytics.
  rewrite Hnull, Hv, Hr. reflexivity.
Qed.

Lemma addFlags_flagged (decisions : list Decision.t) :
  Forall (λ d, is_Some (Decision.cultural_flags d)) decisions →
  ∀ flags,
    addFlags decisions flags
    = JS.Return (foldl (λ flags flag, Leaderboard.bump flag flags) flags
                       (flat_map (λ d, default [] (Decision.cultural_flags d)) decisions)).
Proof.
  induction 1 as [|d l [fl Hd] _ IH]; intros flags; [reflexivity|].
  simpl. rewrite Hd. simpl. rewrite IH, foldl_app. reflexivity.
Qed.

Lemma addSession_flagged (session : Session.t) (data : GroupData) :
  flagged session → addSession session data = JS.Return (added session data).
Proof.
  intros Hf. unfold addSession. rewrite (addFlags_flagged _ Hf). reflexivity.
Qed.

Lemma collect_groupable (key : Session.t → string) (sessions : list Session.t) :
  Forall (groupable key) sessions →
  ∀ groups,
    collect key sessions groups
    = JS.Return
        (foldl (λ groups session,
                  let name := JS.str_or (Some (key session)) "no_especificado" in
                  <[name := added session (default emptyGroup (groups !! name))]> groups)
               groups sessions).
Proof.
  induction 1 as [|s l [Hs Ho] _ IH]; intros groups; [reflexivity|].
  cbn [collect]. cbv zeta. unfold ordinary, groupName in Ho.
  rewrite (bool_decide_eq_false_2 _ Ho), (addSession_flagged _ _ Hs).
  cbn [foldl]. apply IH.
Qed.

Lemma collected_lookup (name : Session.t → string) (sessions : list Session.t) (k : string) :
  ∀ groups : gmap string GroupData,
    foldl (λ groups session,
             <[name session := added session (default emptyGroup (groups !! name session))]>
               groups)
          groups sessions !! k
    = match filter (λ s, name s = k) sessions with
      | [] => groups !! k
      | group =>
          Some (foldl (λ data s, added s data) (default emptyGroup (groups !! k)) group)
      end.
Proof.
  induction sessions as [|s l IH]; intros groups; [reflexivity|].
  simpl foldl. rewrite IH, filter_cons.
  destruct (decide (name s = k)) as [Hk|Hne].
  - rewrite Hk, lookup_insert_eq. simpl.
    destruct (filter _ l); reflexivity.
  - rewrite lookup_insert_ne by done. reflexivity.
Qed.

Lemma add_of_Z (a : Z) (n : nat) :
  JS.add (JS.of_Z a) (JS.of_nat n) = JS.of_Z (a + Z.of_nat n).
Proof.
  unfold JS.add, JS.of_nat, JS.of_Z, Qplus, inject_Z. simpl. do 2 f_equal. lia.
Qed.

Lemma addTo_breakdown (types : gmap string JS.number) (b : DecisionTypes) :
  let after := foldl addTo types (breakdown b) in
  after !! "ethical"
  = Some (JS.add (default JS.NaN (types !! "ethical")) (JS.of_nat (ethical b)))
  ∧ after !! "consultation"
    = Some (JS.add (default JS.NaN (types !! "consultation")) (JS.of_nat (consultation b)))
  ∧ after !! "risky"
    = Some (JS.add (default JS.NaN (types !! "risky")) (JS.of_nat (risky b)))
  ∧ after !! "skipped"
    = Some (JS.add (default JS.NaN (types !! "skipped")) (JS.of_nat (skipped b)))
  ∧ after !! "timeout"
    = Some (JS.add (default JS.NaN (types !! "timeout")) (JS.of_nat (timeout b))).
Proof.
  intros after. subst after. unfold breakdown. simpl foldl. unfold addTo. simpl fst. simpl snd.
  repeat split;
    repeat first [ rewrite lookup_insert_eq | rewrite lookup_insert_ne by discriminate ];
    reflexivity.
Qed.

(** The totals of a group, session after session. *)
Lemma group_totals (group : list Session.t) :
  ∀ data e c r,
    decision_types data !! "ethical" = Some (JS.of_Z e) →
    decision_types data !! "consultation" = Some (JS.of_Z c) →
    decision_types data !! "risky" = Some (JS.of_Z r) →
    (decision_types data !! "skipped" = None ∨ decision_types data !! "skipped" = Some JS.NaN) →
    (decision_types data !! "timeout" = None ∨ decision_types data !! "timeout" = Some JS.NaN) →
    let after := foldl (λ data s, added s data) data group in
    let breakdowns := map (λ s, Performance.decision_breakdown (Session.performance s)) group in
    count after = (count data + length group)%nat
    ∧ total_score after
      = total_score data
        + foldr Z.add 0 (map (λ s, JS.to_arith (Performance.percentage (Session.performance s)))
                             group)
    ∧ response_time after
      = response_time data
        + foldr Z.add 0
            (map (λ s, JS.to_arith (Performance.avg_response_time (Session.performance s)))
                 group)
    ∧ decision_types after !! "ethical"
      = Some (JS.of_Z (e + Z.of_nat (list_sum (map ethical breakdowns))))
    ∧ decision_types after !! "consultation"
      = Some (JS.of_Z (c + Z.of_nat (list_sum (map consultation breakdowns))))
    ∧ decision_types after !! "risky"
      = Some (JS.of_Z (r + Z.of_nat (list_sum (map risky breakdowns))))
    ∧ (group ≠ [] →
       decision_types after !! "skipped" = Some JS.NaN
       ∧ decision_types after !! "timeout" = Some JS.NaN)
    ∧ cultural_flags after
      = foldl (λ flags flag, Leaderboard.bump flag flags) (cultural_flags data)
              (flat_map (λ s, flat_map (λ d, default [] (Decision.cultural_flags d))
                                       (Session.decisions s)) group).
Proof.
  induction group as [|s group IH]; intros data e c r He Hc Hr Hs Ht.
  - cbv zeta. simpl foldl. simpl map. simpl list_sum. simpl foldr. simpl length.
    simpl flat_map. simpl Z.of_nat.
    rewrite !Z.add_0_r, Nat.add_0_r. repeat split; try assumption; congruence.
  - simpl foldl.
    destruct (addTo_breakdown (decision_types data)
                (Performance.decision_breakdown (Session.performance s)))
      as (He' & Hc' & Hr' & Hs' & Ht').
    rewrite He, Hc, Hr in *. simpl default in He', Hc', Hr'.
    rewrite add_of_Z in He', Hc', Hr'.
    assert (Hs'' : decision_types (added s data) !! "skipped" = Some JS.NaN).
    { cbn [added decision_types]. rewrite Hs'. destruct Hs as [-> | ->]; reflexivity. }
    assert (Ht'' : decision_types (added s data) !! "timeout" = Some JS.NaN).
    { cbn [added decision_types]. rewrite Ht'. destruct Ht as [-> | ->]; reflexivity. }
    destruct (IH (added s data) _ _ _ He' Hc' Hr' (or_intror Hs'') (or_intror Ht''))
      as (Hn & Htot & Hresp & H1 & H2 & H3 & H4 & H5).
    cbv zeta. simpl map. simpl list_sum. simpl foldr. simpl length.
    rewrite Hn, Htot, Hresp, H1, H2, H3, H5.
    cbn [added count total_score response_time cultural_flags].
    split; [lia|]. split; [lia|]. split; [lia|].
    split; [do 2 f_equal; lia|]. split; [do 2 f_equal; lia|]. split; [do 2 f_equal; lia|].
    split.
    + intros _. destruct group as [|s' group'].
      * simpl. split; assumption.
      * apply H4. discriminate.
    + simpl flat_map. rewrite foldl_app. reflexivity.
Qed.

Lemma insights_describe (key : Session.t → string) (sessions : list Session.t)
    (name : string) :
  Forall (groupable key) sessions →
  ∃ groups,
    collect key sessions ∅ = JS.Return groups
    ∧ match filter (λ s, groupName (key s) = name) sessions with
      | [] => (finish <$> groups) !! name = None
      | group => ∃ d, (finish <$> groups) !! name = Some d ∧ describes group d
      end.
Proof.
  intros Hf. eexists. split; [apply (collect_groupable key sessions Hf)|].
  rewrite lookup_fmap.
  rewrite (collected_lookup (λ s, JS.str_or (Some (key s)) "no_especificado") sessions name ∅).
  unfold groupName.
  destruct (filter _ sessions) as [|s group] eqn:E; [reflexivity|].
  rewrite lookup_empty. simpl default. simpl fmap.
  eexists. split; [reflexivity|].
  destruct (group_totals (s :: group) emptyGroup 0 0 0
              eq_refl eq_refl eq_refl (or_introl eq_refl) (or_introl eq_refl))
    as (Hn & Htot & Hresp & H1 & H2 & H3 & H4 & H5).
  destruct (H4 ltac:(discriminate)) as [Hs Ht].
  cbv zeta in *. set (after := foldl _ emptyGroup (s :: group)) in *.
  change (count emptyGroup) with 0%nat in Hn.
  change (total_score emptyGroup) with 0 in Htot.
  change (response_time emptyGroup) with 0 in Hresp.
  rewrite Nat.add_0_l in Hn. rewrite Z.add_0_l in Htot, Hresp, H1, H2, H3.
  unfold describes, finish.
  cbn [insight_count insight_total_score avg_score avg_response_time
       insight_decision_types insight_cultural_flags].
  change (foldl (λ data s0, added s0 data) (added s emptyGroup) group) with after.
  rewrite Hn, Htot, Hresp.
  split; [reflexivity|]. split; [reflexivity|].
  assert (Hpos : Z.of_nat (length (s :: group)) = Z.pos (Pos.of_succ_nat (length group)))
    by reflexivity.
  split; [unfold JS.of_nat; rewrite Hpos; apply Math_round_div|].
  split; [unfold JS.of_nat; rewrite Hpos; apply Math_round_div|].
  split; [exact H1|]. split; [exact H2|]. split; [exact H3|].
  split; [exact Hs|]. split; [exact Ht|].
  intros flag _. rewrite H5.
  exact (Ranks.tally_key (λ f : string, f) _ flag ∅).
Qed.

(** X27.  [analyzeBySector] and [analyzeByRegion] on sessions whose decisions all
    carry their flags and whose sector and region are not names that every
    object inherits: both return; a group without sessions has no key; a
    group with sessions is described by its insight (count, sum and rounded
    mean of the percentages, rounded mean of the response times, sums of the
    ethical, consultation and risky decisions, occurrences of each flag),
    whose totals for skipped and timed-out decisions are [NaN]. *)
Theorem insights_describe_groups (sessions : list Session.t) (name : string) :
  Forall (groupable sectorOf) sessions →
  Forall (groupable regionOf) sessions →
  ordinary name →
  ∃ bySector byRegion,
    analyzeBySector sessions = JS.Return bySector
    ∧ analyzeByRegion sessions = JS.Return byRegion
    ∧ match filter (λ s, groupName (sectorOf s) = name) sessions with
      | [] => bySector !! name = None
      | group => ∃ d, bySector !! name = Some d ∧ describes group d
      end
    ∧ match filter (λ s, groupName (regionOf s) = name) sessions with
      | [] => byRegion !! name = None
      | group => ∃ d, byRegion !! name = Some d ∧ describes group d
      end.
Proof.
  intros Hsectors Hregions _.
  destruct (insights_describe sectorOf sessions name Hsectors) as (sectors & Hs & Hsector).
  destruct (insights_describe regionOf sessions name Hregions) as (regions & Hr & Hregion).
  exists (finish <$> sectors), (finish <$> regions).
  unfold analyzeBySector, analyzeByRegion.
  change (λ s, Demographics.sector (Session.demographics s)) with sectorOf.
  change (λ s, Demographics.region (Session.demographics s)) with regionOf.
  rewrite Hs, Hr.
  split; [reflexivity|]. split; [reflexivity|]. split; assumption.
Qed.

Lemma addFlags_result (decisions : list Decision.t) :
  ∀ flags,
    (addFlags decisions flags = JS.Throw JS.TypeError
     ∧ ¬ Forall (λ d, is_Some (Decision.cultural_flags d)) decisions)
    ∨ (Forall (λ d, is_Some (Decision.cultural_flags d)) decisions
       ∧ ∃ x, addFlags decisions flags = JS.Return x).
Proof.
  induction decisions as [|d l IH]; intros flags; simpl.
  - right. split; [constructor|eauto].
  - destruct (Decision.cultural_flags d) as [fl|] eqn:E.
    + destruct (IH (foldl (λ flags flag, Leaderboard.bump flag flags) flags fl))
        as [[Ht Hn]|[Hall Hx]].
      * left. split; [exact Ht|]. intros H. apply Hn. inversion H; assumption.
      * right. split; [|exact Hx]. constructor; [rewrite E; eauto|exact Hall].
    + left. split; [reflexivity|]. intros H. inversion H as [|? ? [x Hx]]. congruence.
Qed.

Lemma collect_throws (key : Session.t → string) (sessions : list Session.t) :
  ¬ Forall (groupable key) sessions →
  ∀ groups, collect key sessions groups = JS.Throw JS.TypeError.
Proof.
  induction sessions as [|s l IH]; intros Hn groups.
  - destruct Hn. constructor.
  - cbn [collect]. cbv zeta.
    destruct (decide (groupName (key s) ∈ inherited)) as [Hin|Hout]; unfold groupName in *.
    + rewrite (bool_decide_eq_true_2 _ Hin). reflexivity.
    + rewrite (bool_decide_eq_false_2 _ Hout). unfold addSession.
      match goal with
      | |- context [addFlags ?d ?f] =>
          destruct (addFlags_result d f) as [[-> _]|[Hall [x ->]]]; [reflexivity|]
      end.
      simpl. apply IH. intros Hl. apply Hn.
      apply Forall_cons_2; [split; assumption|exact Hl].
Qed.

(** X28.  [analyzeBySector] throws a [TypeError] as soon as one session has a
    decision without flags or a sector named like a member that every object
    inherits, and [analyzeByRegion] likewise for the region: with the
    sessions that can be grouped, these are the only two outcomes. *)
Theorem ungroupable_session_throws (sessions : list Session.t) :
  (¬ Forall (groupable sectorOf) sessions →
   analyzeBySector sessions = JS.Throw JS.TypeError)
  ∧ (¬ Forall (groupable regionOf) sessions →
     analyzeByRegion sessions = JS.Throw JS.TypeError).
Proof.
  unfold analyzeBySector, analyzeByRegion.
  split; intros Hn.
  - rewrite (collect_throws sectorOf sessions Hn). reflexivity.
  - rewrite (collect_throws regionOf sessions Hn). reflexivity.
Qed.

(** *** At the sample storage *)

Lemma old_data_is_dropped_in_order_witness :
  ∃ kept,
    flai_research_data (cleanOldData 1702592000000 Sample.savedTwice Cases.fresh).1
    = Some (Doc kept)
    ∧ map Research.timestamp kept = [1700000600000]
    ∧ Tracking.flai_share_events (cleanOldData 1702592000000 Sample.savedTwice Cases.fresh).2
      = Some (Doc []).
Proof.
  pose proof (old_data_is_dropped_in_order 1702592000000 1702592000000
                Sample.savedTwice Cases.fresh _ [] eq_refl eq_refl (Z.le_refl _)) as H.
  cbv zeta in H.
  destruct (cleanOldData 1702592000000 Sample.savedTwice Cases.fresh) as [ls' st'].
  destruct H as (Hresearch & Hshares & _).
  eexists. split; [exact Hresearch|]. split; [|exact Hshares].
  vm_compute. reflexivity.
Defined.

Lemma corrupt_research_stops_cleaning_witness :
  cleanOldData 1702592000000 Sample.garbledStorage Cases.fresh
  = (Sample.garbledStorage, Cases.fresh).
Proof.
  apply corrupt_research_stops_cleaning.
  right. exists "[{". split; [discriminate|reflexivity].
Defined.

Lemma growth_rate_is_a_percentage_witness :
  ∃ rate,
    calculateGrowthRate 1700100000000 Cases.fortySessions = JS.Int rate
    ∧ 57 ≤ rate ≤ 58
    ∧ rate = 57.
Proof.
  destruct (growth_rate_is_a_percentage 1700100000000 Cases.fortySessions)
    as (rate & Hrate & _ & _ & Hbounds & _).
  exists rate. split; [exact Hrate|].
  assert (Hb := Hbounds ltac:(vm_compute; discriminate)).
  repeat match type of Hb with
         | context [Z.of_nat ?t] =>
             let v := eval vm_compute in (Z.of_nat t) in
             replace (Z.of_nat t) with v in Hb by (vm_compute; reflexivity)
         end.
  change ((100 * 23) `div` 40) with 57 in Hb.
  change ((100 * 23 + 40 - 1) `div` 40) with 58 in Hb.
  split; [exact Hb|].
  vm_compute in Hrate. congruence.
Defined.

Lemma aggregated_stats_are_consistent_witness :
  ∃ stats,
    getAggregatedStats Sample.savedTwice Cases.fresh = JS.Return stats
    ∧ total_sessions stats = 2%nat
    ∧ total_decisions stats = 20%nat
    ∧ (unique_sectors stats ≤ 2)%nat.
Proof.
  destruct (getAggregatedStats Sample.savedTwice Cases.fresh) as [stats|e] eqn:E;
    [|vm_compute in E; discriminate E].
  exists stats. split; [reflexivity|].
  destruct (aggregated_stats_are_consistent Sample.savedTwice Cases.fresh stats E)
    as (Hn & Hd & Hs & _).
  split; [rewrite Hn; vm_compute; reflexivity|].
  split; [rewrite Hd; vm_compute; reflexivity|].
  exact Hs.
Defined.

Lemma null_viral_key_breaks_stats_witness :
  getAggregatedStats Sample.savedTwice Cases.nullShares = JS.Throw JS.TypeError.
Proof.
  apply (null_viral_key_breaks_stats Sample.savedTwice Cases.nullShares [] []);
    reflexivity.
Defined.

Lemma insights_describe_groups_witness :
  ∃ bySector d,
    analyzeBySector Cases.sessions = JS.Return bySector
    ∧ bySector !! "tecnologia" = Some d
    ∧ insight_count d = 2%nat
    ∧ avg_score d = JS.Int 72
    ∧ insight_decision_types d !! "consultation" = Some (JS.of_nat 20)
    ∧ insight_decision_types d !! "skipped" = Some JS.NaN.
Proof.
  destruct (insights_describe_groups Cases.sessions "tecnologia")
    as (bySector & byRegion & Hs & _ & Hgroup & _).
  { apply (bool_decide_unpack _). vm_compute. exact I. }
  { apply (bool_decide_unpack _). vm_compute. exact I. }
  { apply (bool_decide_unpack _). vm_compute. exact I. }
  exists bySector.
  destruct (filter _ Cases.sessions) as [|s group] eqn:E;
    [vm_compute in E; discriminate E|].
  destruct Hgroup as (d & Hd & Hn & _ & Havg & _ & _ & Hc & _ & Hsk & _).
  exists d. split; [exact Hs|]. split; [exact Hd|].
  rewrite <- E in Hn, Havg, Hc.
  split; [rewrite Hn; vm_compute; reflexivity|].
  split; [rewrite Havg; vm_compute; reflexivity|].
  split; [rewrite Hc; vm_compute; reflexivity|exact Hsk].
Defined.

Lemma ungroupable_session_throws_witness :
  analyzeBySector Cases.unflagged = JS.Throw JS.TypeError
  ∧ analyzeByRegion Cases.unflagged = JS.Throw JS.TypeError
  ∧ analyzeBySector Cases.misnamed = JS.Throw JS.TypeError.
Proof.
  assert (Hn : ∀ key, ¬ Forall (groupable key) Cases.unflagged).
  { intros key H. apply Forall_cons_1 in H as [[Hf _] _].
    apply Forall_cons_1 in Hf as [[flags Hflags] _]. discriminate Hflags. }
  split; [apply (proj1 (ungroupable_session_throws Cases.unflagged)), Hn|].
  split; [apply (proj2 (ungroupable_session_throws Cases.unflagged)), Hn|].
  apply (proj1 (ungroupable_session_throws Cases.misnamed)).
  intros H. apply Forall_cons_1 in H as [[_ Ho] _]. apply Ho.
  apply (bool_decide_unpack _). vm_compute. exact I.
Defined.

End Figures.
